(** * Krea image MCP server: request shaping, transport and job polling

    A shallow embedding of [src/kreaClient.ts], [src/models.ts] and the two
    copies of the tool server ([src/index.ts], and the later copy with the
    upscale tool that follows the client in [src/kreaClient.ts]), with the
    properties of the specification stated over it.

    Conventions of the embedding.
    - A JavaScript string is a [string]: the sequence of its code units, for
      text whose code units are below 256.
    - A JavaScript value is a [value]; finite numbers are rationals (every
      finite double is one), [VInfinity] is the number [Infinity], integers
      of the tool schemas are [Z].
    - Objects are association lists in property enumeration order.
    - [throw] is the [Throw] case of [result]; effects (network, clock,
      timers) are threaded through a [world] by the monad [M]. *)

From Stdlib Require Import ZArith QArith List String Ascii Bool Lia Arith.
From Stdlib Require Import DecimalString.
From Equations Require Import Equations.
Import ListNotations.

Local Open Scope string_scope.
Local Open Scope Z_scope.

(* ------------------------------------------------------------------ *)
(** ** Strings *)

Module Str.

Definition code (c : ascii) : N := N_of_ascii c.

(** [String.prototype.endsWith]. *)
Fixpoint endsWith (s suffix : string) : bool :=
  if String.eqb s suffix then true
  else match s with
       | EmptyString => false
       | String _ rest => endsWith rest suffix
       end.

(** [s.slice(0, -1)]: everything but the last code unit. *)
Fixpoint dropLast (s : string) : string :=
  match s with
  | EmptyString => EmptyString
  | String _ EmptyString => EmptyString
  | String c rest => String c (dropLast rest)
  end.

(** White space and line terminators of ECMAScript below U+0100. *)
Definition isWhiteSpace (c : ascii) : bool :=
  let n := code c in
  ((9 <=? n) && (n <=? 13) || (n =? 32) || (n =? 160))%N.

Fixpoint trimStart (s : string) : string :=
  match s with
  | EmptyString => EmptyString
  | String c rest => if isWhiteSpace c then trimStart rest else s
  end.

Fixpoint rev (s : string) : string :=
  match s with
  | EmptyString => EmptyString
  | String c rest => rev rest ++ String c EmptyString
  end.

Definition trimEnd (s : string) : string := rev (trimStart (rev s)).

(** [String.prototype.trim]. *)
Definition trim (s : string) : string := trimEnd (trimStart s).

Definition lowerChar (c : ascii) : ascii :=
  let n := code c in
  if ((65 <=? n) && (n <=? 90)
      || (192 <=? n) && (n <=? 222) && negb (n =? 215))%N
  then ascii_of_N (n + 32) else c.

(** [String.prototype.toLowerCase]. *)
Fixpoint toLowerCase (s : string) : string :=
  match s with
  | EmptyString => EmptyString
  | String c rest => String (lowerChar c) (toLowerCase rest)
  end.

Definition isDigit (c : ascii) : bool :=
  let n := code c in ((48 <=? n) && (n <=? 57))%N.

Definition digitValue (c : ascii) : Z := Z.of_N (code c) - 48.

Fixpoint allDigits (s : string) : bool :=
  match s with
  | EmptyString => true
  | String c rest => isDigit c && allDigits rest
  end.

(** Value of a run of decimal digits, most significant first. *)
Fixpoint digitsValue (acc : Z) (s : string) : Z :=
  match s with
  | EmptyString => acc
  | String c rest => digitsValue (10 * acc + digitValue c) rest
  end.

(** Splits at the first occurrence of [sep]. *)
Fixpoint splitAt (sep : ascii) (s : string) : option (string * string) :=
  match s with
  | EmptyString => None
  | String c rest =>
      if Ascii.eqb c sep then Some (EmptyString, rest)
      else match splitAt sep rest with
           | Some (l, r) => Some (String c l, r)
           | None => None
           end
  end.

(** Decimal text of an integer, as [String(n)] prints integers. *)
Definition ofZ (z : Z) : string := NilZero.string_of_int (Z.to_int z).

Fixpoint join (sep : string) (l : list string) : string :=
  match l with
  | [] => ""
  | [x] => x
  | x :: rest => x ++ sep ++ join sep rest
  end.

(** [needle] occurs in [s]. *)
Fixpoint includes (s needle : string) : bool :=
  if String.prefix needle s then true
  else match s with
       | EmptyString => false
       | String _ rest => includes rest needle
       end.

End Str.

(* ------------------------------------------------------------------ *)
(** ** Values, exceptions *)

Set Warnings "-register-all".

Inductive value : Type :=
| VUndefined
| VNull
| VBool (b : bool)
| VNumber (q : Q)
| VInfinity
| VString (s : string)
| VArray (items : list value)
| VObject (fields : list (string * value)).

Inductive exn : Type :=
| TypeError (message : string)
| Error (message : string)
| KreaApiError (message : string) (status : Z) (body : option string)
| FetchError (message : string).

Inductive result (A : Type) : Type :=
| Ok (a : A)
| Throw (e : exn).
Arguments Ok {A} a.
Arguments Throw {A} e.

Definition rbind {A B} (r : result A) (k : A -> result B) : result B :=
  match r with
  | Ok a => k a
  | Throw e => Throw e
  end.

Declare Scope result_scope.
Delimit Scope result_scope with result.
Notation "'try!' x <- r ; k" := (rbind r (fun x => k))
  (at level 10, x name, r at level 100, k at level 200) : result_scope.

Module Js.

(** [!!v]. *)
Definition truthy (v : value) : bool :=
  match v with
  | VUndefined | VNull => false
  | VBool b => b
  | VNumber q => negb (Qeq_bool q 0)
  | VInfinity => true
  | VString s => negb (String.eqb s "")
  | VArray _ | VObject _ => true
  end.

(** [typeof v === "object"]. *)
Definition typeofObject (v : value) : bool :=
  match v with
  | VNull | VArray _ | VObject _ => true
  | _ => false
  end.

Fixpoint lookup (fields : list (string * value)) (key : string) : value :=
  match fields with
  | [] => VUndefined
  | (k, v) :: rest => if String.eqb k key then v else lookup rest key
  end.

Fixpoint hasKey (fields : list (string * value)) (key : string) : bool :=
  match fields with
  | [] => false
  | (k, _) :: rest => String.eqb k key || hasKey rest key
  end.

(** [obj[key] = v]: an existing key keeps its place, a new one goes last. *)
Fixpoint set (fields : list (string * value)) (key : string) (v : value)
  : list (string * value) :=
  match fields with
  | [] => [(key, v)]
  | (k, old) :: rest =>
      if String.eqb k key then (k, v) :: rest
      else (k, old) :: set rest key v
  end.

(** A canonical array index: decimal digits with no leading zero. *)
Definition arrayIndex (key : string) : option nat :=
  match key with
  | EmptyString => None
  | String c rest =>
      if Str.allDigits key
         && (negb (Ascii.eqb c "0"%char) || String.eqb rest "")
      then Some (Z.to_nat (Str.digitsValue 0 key))
      else None
  end.

(** The property names the program reads from a response: the literal
    keys of its calls of [readUnknown] and [readString] and the [job] of
    [pickJob]. No prototype of the runtime defines one of them. *)
Definition dataKeys : list string :=
  ["job"; "id"; "job_id"; "status"; "result"; "error"; "data"; "output"].

Definition isDataKey (key : string) : bool :=
  existsb (String.eqb key) dataKeys.

(** [v[key]], looked up among the own properties of [v]: this is the
    value of the expression for every key that the prototype chain of [v]
    does not define, the keys of [dataKeys] among them. For a name that a
    prototype defines and [v] does not ([constructor], [toString],
    [__proto__], the methods of arrays and strings) the expression gives
    the inherited member, which is no [value]; properties are stated at
    the keys of [dataKeys]. Reading a property of [undefined] or [null]
    throws. *)
Definition get (v : value) (key : string) : result value :=
  match v with
  | VUndefined =>
      Throw (TypeError ("Cannot read properties of undefined (reading '"
                          ++ key ++ "')"))
  | VNull =>
      Throw (TypeError ("Cannot read properties of null (reading '"
                          ++ key ++ "')"))
  | VBool _ | VNumber _ | VInfinity => Ok VUndefined
  | VString s =>
      if String.eqb key "length"
      then Ok (VNumber (inject_Z (Z.of_nat (String.length s))))
      else match arrayIndex key with
           | Some i => match String.get i s with
                       | Some c => Ok (VString (String c EmptyString))
                       | None => Ok VUndefined
                       end
           | None => Ok VUndefined
           end
  | VArray items =>
      if String.eqb key "length"
      then Ok (VNumber (inject_Z (Z.of_nat (List.length items))))
      else match arrayIndex key with
           | Some i => Ok (nth i items VUndefined)
           | None => Ok VUndefined
           end
  | VObject fields => Ok (lookup fields key)
  end.

(** The double nearest to a natural number [n], ties going to the even
    significand, [None] when it is beyond the finite doubles: the integers
    below [2^53] are doubles; a larger one keeps its 53 leading bits,
    rounded on the bits that follow (lemma [roundToDouble_nearest]). *)
Definition roundToDouble (n : Z) : option Z :=
  if n <? 2 ^ 53 then Some n
  else
    let e := Z.log2 n - 52 in
    let q := Z.shiftr n e in
    let r := n - Z.shiftl q e in
    let half := Z.shiftl 1 (e - 1) in
    let q' := if (half <? r) || ((r =? half) && Z.odd q) then q + 1 else q in
    let d := Z.shiftl q' e in
    if d <? 2 ^ 1024 then Some d else None.

(** [Number(digits)] for a text of decimal digits: the double nearest to
    its decimal value, [Infinity] when there is none.  The language fixes
    this result for texts of up to 20 digits; for longer ones it is what
    the engine of Node computes. *)
Definition NumberOfDigits (digits : string) : value :=
  match roundToDouble (Str.digitsValue 0 digits) with
  | Some d => VNumber (inject_Z d)
  | None => VInfinity
  end.

(** [Object.values(v)] of an array or object. *)
Definition values (v : value) : list value :=
  match v with
  | VArray items => items
  | VObject fields => map snd fields
  | _ => []
  end.

End Js.

(* ------------------------------------------------------------------ *)
(** ** The platform

    Functions of the JavaScript runtime that the program calls and that
    are not part of it. *)

Class Platform : Type := {
  (** [new URL(s).protocol], [None] when the constructor throws. *)
  URL_protocol : string -> option string;
  (** [JSON.parse(s)], [None] when it throws. *)
  JSON_parse : string -> option value;
  (** [JSON.stringify(v)], [None] when it returns [undefined]. *)
  JSON_stringify : value -> option string;
  encodeURIComponent : string -> string
}.

(* ------------------------------------------------------------------ *)
(** ** kreaClient.ts: response utilities *)

Definition normalizeStatus (status : value) : string :=
  match status with
  | VString s => Str.toLowerCase s
  | _ => "unknown"
  end.

Definition isTerminalStatus (status : string) : bool :=
  String.eqb status "completed" || String.eqb status "failed"
  || String.eqb status "cancelled".

Fixpoint valueSize (v : value) : nat :=
  match v with
  | VArray items => S (list_sum (map valueSize items))
  | VObject fields => S (list_sum (map (fun kv => valueSize (snd kv)) fields))
  | _ => 1%nat
  end.

Definition stackSize (stack : list value) : nat :=
  list_sum (map valueSize stack).

(** [for (const item of items) stack.push(item)]; the head of the list is
    the top of the stack. *)
Definition pushAll (items stack : list value) : list value :=
  fold_left (fun st item => item :: st) items stack.

(** [found.add(s)] on an insertion-ordered [Set]. *)
Definition setAdd (s : string) (found : list string) : list string :=
  if existsb (String.eqb s) found then found else found ++ [s].

Section ClientUtilities.

Context `{Platform}.

Definition looksLikeUrl (v : string) : bool :=
  match URL_protocol v with
  | Some protocol => String.eqb protocol "http:" || String.eqb protocol "https:"
  | None => false
  end.

(** The [while (stack.length > 0)] loop of [extractHttpUrls]. *)
Equations extractLoop (stack : list value) (found : list string)
  : list string by wf (stackSize stack) lt :=
extractLoop [] found := found;
extractLoop (VString s :: rest) found :=
  extractLoop rest (if looksLikeUrl s then setAdd s found else found);
extractLoop (VArray items :: rest) found :=
  extractLoop (pushAll items rest) found;
extractLoop (VObject fields :: rest) found :=
  extractLoop (pushAll (Js.values (VObject fields)) rest) found;
extractLoop (_ :: rest) found := extractLoop rest found.
Next Obligation.
  assert (G : forall l st,
             stackSize (pushAll l st)
             = (list_sum (map valueSize l) + stackSize st)%nat).
  { unfold pushAll, stackSize, list_sum.
    induction l as [|x l IH]; intros st; cbn [fold_left map fold_right];
      [reflexivity|].
    rewrite IH. cbn [map fold_right]. lia. }
  rewrite G. unfold stackSize, list_sum; cbn [map fold_right valueSize].
  unfold list_sum. lia.
Qed.
Next Obligation.
  assert (G : forall l st,
             stackSize (pushAll l st)
             = (list_sum (map valueSize l) + stackSize st)%nat).
  { unfold pushAll, stackSize, list_sum.
    induction l as [|x l IH]; intros st; cbn [fold_left map fold_right];
      [reflexivity|].
    rewrite IH. cbn [map fold_right]. lia. }
  rewrite G, map_map.
  unfold stackSize, list_sum; cbn [map fold_right valueSize Js.values].
  unfold list_sum. lia.
Qed.

Definition extractHttpUrls (v : value) : list string := extractLoop [v] [].

(** [String(v)] for the result of [stringifyUnknown], as a template
    literal interpolates it. *)
Definition interpolate (s : option string) : string :=
  match s with
  | Some text => text
  | None => "undefined"
  end.

Definition stringifyUnknown (v : value) : option string :=
  match v with
  | VString s => Some s
  | _ => JSON_stringify v
  end.

End ClientUtilities.

(* ------------------------------------------------------------------ *)
(** ** Effects: network, clock and timers *)

Record http_request : Type := {
  req_method : string;
  req_url : string;
  req_headers : list (string * string);
  req_body : option string
}.

Record http_response : Type := {
  resp_status : Z;
  resp_text : string
}.

(** [response.ok]: the status is in the range 200-299. *)
Definition resp_ok (r : http_response) : bool :=
  (200 <=? resp_status r) && (resp_status r <=? 299).

Inductive fetch_outcome : Type :=
| Responds (r : http_response)
| Rejects (message : string).

(** What the program cannot control: the process environment, what the
    [k]-th [fetch] answers and how long it takes, and how late the [k]-th
    timer fires. *)
Record environment : Type := {
  KREA_API_KEY : option string;
  KREA_API_BASE_URL : option string;
  net : nat -> http_request -> fetch_outcome;
  net_ms : nat -> Z;
  timer_lag : nat -> Z
}.

(** What an invocation has done so far: the time, the requests sent
    (oldest first) and the timers waited for. *)
Record world : Type := {
  clock : Z;
  requests : list http_request;
  sleeps : list Z
}.

Inductive run (A : Type) : Type :=
| Returned (a : A) (w : world)
| Threw (e : exn) (w : world)
| Unfinished.
Arguments Returned {A} a w.
Arguments Threw {A} e w.
Arguments Unfinished {A}.

Definition M (A : Type) : Type := world -> run A.

Definition ret {A} (a : A) : M A := fun w => Returned a w.

Definition throw {A} (e : exn) : M A := fun w => Threw e w.

Definition bind {A B} (m : M A) (k : A -> M B) : M B :=
  fun w =>
    match m w with
    | Returned a w' => k a w'
    | Threw e w' => Threw e w'
    | Unfinished => Unfinished
    end.

Definition lift {A} (r : result A) : M A :=
  match r with
  | Ok a => ret a
  | Throw e => throw e
  end.

Declare Scope effect_scope.
Delimit Scope effect_scope with effect.
Notation "'let!' x <- m ; k" := (bind m (fun x => k))
  (at level 10, x name, m at level 100, k at level 200) : effect_scope.
Notation "'let!' ' p <- m ; k" :=
  (bind m (fun x => match x with p => k end))
  (at level 10, p pattern, m at level 100, k at level 200) : effect_scope.

Section Effects.

Variable env : environment.

(** [await fetch(url, init)] followed by [await response.text()]. *)
Definition fetch (req : http_request) : M http_response :=
  fun w =>
    let k := List.length (requests w) in
    let w' := {| clock := clock w + net_ms env k;
                 requests := requests w ++ [req];
                 sleeps := sleeps w |} in
    match net env k req with
    | Responds r => Returned r w'
    | Rejects message => Threw (FetchError message) w'
    end.

(** The world after the answer to a request sent in [w]. *)
Definition afterFetch (w : world) (req : http_request) : world :=
  {| clock := clock w + net_ms env (List.length (requests w));
     requests := requests w ++ [req];
     sleeps := sleeps w |}.

(** [Date.now()]. *)
Definition Date_now : M Z := fun w => Returned (clock w) w.

(** [await sleep(ms)]: the timer fires [ms] later, or later still. *)
Definition sleep (ms : Z) : M unit :=
  fun w =>
    let k := List.length (sleeps w) in
    Returned tt {| clock := clock w + ms + timer_lag env k;
                   requests := requests w;
                   sleeps := sleeps w ++ [ms] |}.

End Effects.

Definition initial_world (t0 : Z) : world :=
  {| clock := t0; requests := []; sleeps := [] |}.

(** The requests sent by the time an outcome was reached. *)
Definition sent {A} (r : run A) : list http_request :=
  match r with
  | Returned _ w | Threw _ w => requests w
  | Unfinished => []
  end.


(* ------------------------------------------------------------------ *)
(** ** kreaClient.ts: the client *)

Definition DEFAULT_BASE_URL : string := "https://api.krea.ai/v1".

Record KreaClient : Type := {
  baseUrl : string;
  apiKey : string
}.

(** The constructor. *)
Definition newKreaClient (key : string) (base : string) : KreaClient :=
  {| apiKey := key;
     baseUrl := if Str.endsWith base "/" then Str.dropLast base else base |}.

Section Client.

Context `{Platform}.
Variable env : environment.

Definition fromEnv : result KreaClient :=
  match KREA_API_KEY env with
  | None | Some EmptyString => Throw (Error "KREA_API_KEY is not set.")
  | Some key =>
      Ok (newKreaClient key
            (match KREA_API_BASE_URL env with
             | Some base => base
             | None => DEFAULT_BASE_URL
             end))
  end.

Definition request (client : KreaClient) (path : string)
    (method : string) (body : option string) : M value :=
  (let! response <-
     fetch env {| req_method := method;
                  req_url := baseUrl client ++ path;
                  req_headers :=
                    [("Authorization", "Bearer " ++ apiKey client);
                     ("Content-Type", "application/json")];
                  req_body := body |};
   let bodyText := resp_text response in
   let jsonBody :=
     if (0 <? String.length (Str.trim bodyText))%nat
     then match JSON_parse bodyText with
          | Some parsed => parsed
          | None => VString bodyText
          end
     else VUndefined in
   if negb (resp_ok response)
   then throw (KreaApiError
                 ("Krea API error " ++ Str.ofZ (resp_status response))
                 (resp_status response) (stringifyUnknown jsonBody))
   else ret jsonBody)%effect.

Definition generateImage (client : KreaClient) (endpoint : string)
    (payload : list (string * value)) : M value :=
  request client endpoint "POST" (JSON_stringify (VObject payload)).

Definition getJob (client : KreaClient) (jobId : string) : M value :=
  request client ("/jobs/" ++ encodeURIComponent jobId) "GET" None.

End Client.

(* ------------------------------------------------------------------ *)
(** ** models.ts: the model catalog *)

Inductive RequiredField : Type :=
| prompt_field | width_field | height_field | referenceImages_field
| imageUrl_field.

Definition RequiredField_eqb (a b : RequiredField) : bool :=
  match a, b with
  | prompt_field, prompt_field
  | width_field, width_field
  | height_field, height_field
  | referenceImages_field, referenceImages_field
  | imageUrl_field, imageUrl_field => true
  | _, _ => false
  end.

Definition RequiredField_name (f : RequiredField) : string :=
  match f with
  | prompt_field => "prompt"
  | width_field => "width"
  | height_field => "height"
  | referenceImages_field => "referenceImages"
  | imageUrl_field => "imageUrl"
  end.

Record ModelDefinition : Type := {
  title : string;
  endpoint : string;
  requiredFields : list RequiredField;
  fixedPayload : option (list (string * value));
  defaultWidth : option Z;
  defaultHeight : option Z;
  notes : option string
}.

(** [requiredFields.includes(f)]. *)
Definition requires (model : ModelDefinition) (f : RequiredField) : bool :=
  existsb (RequiredField_eqb f) (requiredFields model).

Inductive ModelKey : Type :=
| flux_1_dev | flux_kontext_max | nano_banana_pro | nano_banana
| flux_1_1_pro | flux_1_1_pro_ultra | ideogram_2a | ideogram_3
| imagen_3 | imagen_4 | imagen_4_fast | imagen_4_ultra
| runway_gen_4_image | chatgpt_image_1 | seedream_3 | seedream_4
| seededit_3 | qwen_image | zimage.

Definition ModelKey_name (k : ModelKey) : string :=
  match k with
  | flux_1_dev => "flux_1_dev"
  | flux_kontext_max => "flux_kontext_max"
  | nano_banana_pro => "nano_banana_pro"
  | nano_banana => "nano_banana"
  | flux_1_1_pro => "flux_1_1_pro"
  | flux_1_1_pro_ultra => "flux_1_1_pro_ultra"
  | ideogram_2a => "ideogram_2a"
  | ideogram_3 => "ideogram_3"
  | imagen_3 => "imagen_3"
  | imagen_4 => "imagen_4"
  | imagen_4_fast => "imagen_4_fast"
  | imagen_4_ultra => "imagen_4_ultra"
  | runway_gen_4_image => "runway_gen_4_image"
  | chatgpt_image_1 => "chatgpt_image_1"
  | seedream_3 => "seedream_3"
  | seedream_4 => "seedream_4"
  | seededit_3 => "seededit_3"
  | qwen_image => "qwen_image"
  | zimage => "zimage"
  end.

Definition isQwenImage (k : ModelKey) : bool :=
  match k with
  | qwen_image => true
  | _ => false
  end.

(** The entries of the catalog that require the prompt only, and those
    that require width and height and default them to 1024. *)
Definition plainModel (t e : string) (note : option string) : ModelDefinition :=
  {| title := t; endpoint := e; requiredFields := [prompt_field];
     fixedPayload := None; defaultWidth := None; defaultHeight := None;
     notes := note |}.

Definition sizedModel (t e : string) : ModelDefinition :=
  {| title := t; endpoint := e;
     requiredFields := [prompt_field; width_field; height_field];
     fixedPayload := None; defaultWidth := Some 1024;
     defaultHeight := Some 1024; notes := None |}.

Definition KREA_IMAGE_MODELS (k : ModelKey) : ModelDefinition :=
  match k with
  | flux_1_dev =>
      plainModel "BFL Flux 1 Dev" "/generate/image/bfl/flux-1-dev"
        (Some "General-purpose text-to-image model.")
  | flux_kontext_max =>
      plainModel "BFL Flux 1 Kontext Dev"
        "/generate/image/bfl/flux-1-kontext-dev"
        (Some "Uses the current Kontext endpoint from Krea OpenAPI.")
  | nano_banana_pro =>
      plainModel "Google Nano Banana Pro"
        "/generate/image/google/nano-banana-pro" None
  | nano_banana =>
      plainModel "Google Nano Banana" "/generate/image/google/nano-banana" None
  | flux_1_1_pro =>
      sizedModel "BFL Flux 1.1 Pro" "/generate/image/bfl/flux-1.1-pro"
  | flux_1_1_pro_ultra =>
      plainModel "BFL Flux 1.1 Pro Ultra"
        "/generate/image/bfl/flux-1.1-pro-ultra" None
  | ideogram_2a =>
      plainModel "Ideogram 2 Turbo"
        "/generate/image/ideogram/ideogram-2-turbo" None
  | ideogram_3 =>
      plainModel "Ideogram 3" "/generate/image/ideogram/ideogram-3"
        (Some "Supports optional style and referenceImage.")
  | imagen_3 =>
      plainModel "Google Imagen 3" "/generate/image/google/imagen-3" None
  | imagen_4 =>
      plainModel "Google Imagen 4" "/generate/image/google/imagen-4" None
  | imagen_4_fast =>
      plainModel "Google Imagen 4 Fast"
        "/generate/image/google/imagen-4-fast" None
  | imagen_4_ultra =>
      plainModel "Google Imagen 4 Ultra"
        "/generate/image/google/imagen-4-ultra" None
  | runway_gen_4_image =>
      {| title := "Runway Gen-4 Image";
         endpoint := "/generate/image/runway/gen-4";
         requiredFields := [prompt_field; referenceImages_field];
         fixedPayload := None; defaultWidth := None; defaultHeight := None;
         notes := Some "Requires one or more reference image URLs." |}
  | chatgpt_image_1 =>
      plainModel "OpenAI GPT Image" "/generate/image/openai/gpt-image" None
  | seedream_3 =>
      {| title := "Bytedance Seedream 3";
         endpoint := "/generate/image/bytedance/seedream-3";
         requiredFields := [prompt_field];
         fixedPayload := Some [("model", VString "seedream-3")];
         defaultWidth := None; defaultHeight := None; notes := None |}
  | seedream_4 =>
      sizedModel "Bytedance Seedream 4" "/generate/image/bytedance/seedream-4"
  | seededit_3 =>
      {| title := "Bytedance Seededit 3";
         endpoint := "/generate/image/bytedance/seededit";
         requiredFields := [prompt_field; imageUrl_field];
         fixedPayload := None; defaultWidth := None; defaultHeight := None;
         notes := Some "Image-to-image endpoint that requires image_url." |}
  | qwen_image =>
      plainModel "Qwen Image" "/generate/image/qwen/2512" None
  | zimage =>
      sizedModel "ZAI ZImage" "/generate/image/z-image/z-image"
  end.

Definition describeRequiredFields (fields : list RequiredField) : string :=
  match fields with
  | [] => "none"
  | _ => Str.join ", " (map RequiredField_name fields)
  end.

(* ------------------------------------------------------------------ *)
(** ** The tool server: types and response accessors

    [pickJob], [readUnknown], [readString], [asObject],
    [validateInputByModel] and [waitForJobCompletion] are the same text in
    both copies of the server and are embedded once. *)

Definition DEFAULT_POLL_INTERVAL_MS : Z := 2000.
Definition DEFAULT_TIMEOUT_MS : Z := 180000.

Inductive UpscaleMode : Type := standard | generative | bloom.

Definition UpscaleMode_eqb (a b : UpscaleMode) : bool :=
  match a, b with
  | standard, standard | generative, generative | bloom, bloom => true
  | _, _ => false
  end.

Definition UpscaleMode_name (m : UpscaleMode) : string :=
  match m with
  | standard => "standard"
  | generative => "generative"
  | bloom => "bloom"
  end.

Definition UPSCALE_STANDARD_MODELS : list string :=
  ["Standard V2"; "Low Resolution V2"; "CGI"; "High Fidelity V2";
   "Text Refine"].

Definition UPSCALE_GENERATIVE_MODELS : list string :=
  ["Redefine"; "Recovery"; "Recovery V2"; "Reimagine"].

Record GenerateInput : Type := {
  g_model : ModelKey;
  g_prompt : string;
  g_width : option Z;
  g_height : option Z;
  g_seed : option Z;
  g_batch_size : option Z;
  g_guidance_scale : option Q;
  g_num_inference_steps : option Z;
  g_negative_prompt : option string;
  g_size : option string;
  g_style : option string;
  g_reference_image : option string;
  g_reference_images : option (list string);
  g_image_url : option string;
  g_sync_mode : option bool;
  g_wait_for_completion : option bool;
  g_poll_interval_ms : option Z;
  g_timeout_ms : option Z
}.

Record UpscaleInput : Type := {
  u_mode : option UpscaleMode;
  u_image_url : string;
  u_width : Z;
  u_height : Z;
  u_model : option string;
  u_batch_size : option Z;
  u_seed : option Z;
  u_prompt : option string;
  u_output_format : option string;
  u_subject_detection : option string;
  u_face_enhancement : option bool;
  u_face_enhancement_creativity : option Q;
  u_face_enhancement_strength : option Q;
  u_crop_to_fill : option bool;
  u_upscaling_activated : option bool;
  u_image_scaling_factor : option Q;
  u_sharpen : option Q;
  u_denoise : option Q;
  u_fix_compression : option Q;
  u_strength : option Q;
  u_creativity : option Z;
  u_texture : option Z;
  u_detail : option Q;
  u_face_preservation : option bool;
  u_color_preservation : option bool;
  u_wait_for_completion : option bool;
  u_poll_interval_ms : option Z;
  u_timeout_ms : option Z
}.

Definition VInt (z : Z) : value := VNumber (inject_Z z).

(** [o ?? d]. *)
Definition orElse {A} (o : option A) (d : A) : A :=
  match o with
  | Some a => a
  | None => d
  end.

Definition pickJob (rawResponse : value) : result value :=
  (if Js.truthy rawResponse && Js.typeofObject rawResponse
   then
     try! job <- Js.get rawResponse "job";
     if Js.truthy job && Js.typeofObject job then Ok job else Ok rawResponse
   else Ok (VObject []))%result.

Fixpoint readUnknown (obj : value) (path : list string) : result value :=
  match path with
  | [] => Ok obj
  | key :: rest =>
      if negb (Js.truthy obj) || negb (Js.typeofObject obj)
      then Ok VUndefined
      else (try! next <- Js.get obj key; readUnknown next rest)%result
  end.

Definition readString (obj : value) (path : list string)
  : result (option string) :=
  (try! v <- readUnknown obj path;
   Ok (match v with
       | VString s => Some s
       | _ => None
       end))%result.

Definition asObject (v : value) : option value :=
  if Js.truthy v && Js.typeofObject v then Some v else None.

(** The argument of [normalizeStatus] when it is the result of
    [readString]. *)
Definition ofReadString (s : option string) : value :=
  match s with
  | Some text => VString text
  | None => VUndefined
  end.

(** One group of the size pattern: a digit from 1 to 9 followed by any
    number of digits, and nothing else. *)
Definition positiveDecimal (s : string) : bool :=
  match s with
  | EmptyString => false
  | String c _ => negb (Ascii.eqb c "0"%char) && Str.allDigits s
  end.

(** The pattern is two such groups separated by the letter x, anchored at
    both ends; each group goes through [Number]. *)
Definition parseSize (size : option string) : option (value * value) :=
  match size with
  | None | Some EmptyString => None
  | Some text =>
      match Str.splitAt "x"%char text with
      | Some (w, h) =>
          if positiveDecimal w && positiveDecimal h
          then Some (Js.NumberOfDigits w, Js.NumberOfDigits h)
          else None
      | None => None
      end
  end.

(** The names pushed on [missing], in the order of the required fields. *)
Definition missingFor (input : GenerateInput) (model : ModelDefinition)
    (field : RequiredField) : list string :=
  match field with
  | prompt_field => []
  | width_field =>
      match g_width input, defaultWidth model with
      | None, None => ["width"]
      | _, _ => []
      end
  | height_field =>
      match g_height input, defaultHeight model with
      | None, None => ["height"]
      | _, _ => []
      end
  | referenceImages_field =>
      match g_reference_images input with
      | None | Some [] => ["reference_images"]
      | Some _ => []
      end
  | imageUrl_field =>
      match g_image_url input with
      | None | Some EmptyString => ["image_url"]
      | Some _ => []
      end
  end.

Definition validateInputByModel (input : GenerateInput)
    (model : ModelDefinition) : result unit :=
  let missing := flat_map (missingFor input model) (requiredFields model) in
  match missing with
  | [] => Ok tt
  | _ =>
      Throw (Error ("Missing required fields for model "
                      ++ ModelKey_name (g_model input) ++ ": "
                      ++ Str.join ", " missing ++ ". "
                      ++ "Model requires: "
                      ++ describeRequiredFields (requiredFields model)))
  end.

(* ------------------------------------------------------------------ *)
(** ** The generate builder *)

(** [if (o !== undefined) payload[key] = o]. *)
Definition setDefined (payload : list (string * value)) (key : string)
    (o : option value) : list (string * value) :=
  match o with
  | Some v => Js.set payload key v
  | None => payload
  end.

Definition VStrings (l : list string) : value := VArray (map VString l).

(** [buildPayload] of the copy that follows the client in kreaClient.ts. *)
Definition buildPayload (input : GenerateInput) (model : ModelDefinition)
  : list (string * value) :=
  let payload :=
    Js.set (orElse (fixedPayload model) []) "prompt" (VString (g_prompt input)) in
  let size := parseSize (g_size input) in
  let payload :=
    match g_width input, size with
    | Some w, _ => Js.set payload "width" (VInt w)
    | None, Some (w, _) => Js.set payload "width" w
    | None, None =>
        if requires model width_field
        then setDefined payload "width" (option_map VInt (defaultWidth model))
        else payload
    end in
  let payload :=
    match g_height input, size with
    | Some h, _ => Js.set payload "height" (VInt h)
    | None, Some (_, h) => Js.set payload "height" h
    | None, None =>
        if requires model height_field
        then setDefined payload "height" (option_map VInt (defaultHeight model))
        else payload
    end in
  let payload := setDefined payload "seed" (option_map VInt (g_seed input)) in
  let payload :=
    setDefined payload "batchSize" (option_map VInt (g_batch_size input)) in
  let payload :=
    setDefined payload
      (if isQwenImage (g_model input) then "cfg_scale" else "guidance_scale_flux")
      (option_map VNumber (g_guidance_scale input)) in
  let payload :=
    setDefined payload
      (if isQwenImage (g_model input) then "num_inference_steps" else "steps")
      (option_map VInt (g_num_inference_steps input)) in
  let payload :=
    if isQwenImage (g_model input)
    then setDefined payload "negative_prompt"
           (option_map VString (g_negative_prompt input))
    else payload in
  let payload :=
    setDefined payload "styles"
      (option_map (fun s => VStrings [s]) (g_style input)) in
  let payload :=
    setDefined payload "styleImages"
      (option_map (fun s => VStrings [s]) (g_reference_image input)) in
  let payload :=
    setDefined payload "referenceImages"
      (option_map VStrings (g_reference_images input)) in
  setDefined payload "imageUrl" (option_map VString (g_image_url input)).

(* ------------------------------------------------------------------ *)
(** ** The upscale builder *)

Definition quoted (s : string) : string :=
  String "034"%char (s ++ String "034"%char EmptyString).

Definition resolveUpscaleModel (mode : UpscaleMode) (model : option string)
  : result string :=
  match mode with
  | standard =>
      let selected := orElse model "Standard V2" in
      if negb (existsb (String.eqb selected) UPSCALE_STANDARD_MODELS)
      then Throw (Error ("Invalid standard model " ++ quoted selected ++ "."))
      else Ok selected
  | generative =>
      let selected := orElse model "Redefine" in
      if negb (existsb (String.eqb selected) UPSCALE_GENERATIVE_MODELS)
      then Throw (Error ("Invalid generative model " ++ quoted selected ++ "."))
      else Ok selected
  | bloom =>
      let selected := orElse model "Reimagine" in
      if negb (String.eqb selected "Reimagine")
      then Throw (Error ("Bloom mode supports only model "
                           ++ quoted "Reimagine" ++ "."))
      else Ok selected
  end.

Record UpscaleRequest : Type := {
  r_mode : UpscaleMode;
  r_endpoint : string;
  r_normalizedModel : string;
  r_payload : list (string * value)
}.

(** [if (cond) throw new Error(message)]. *)
Definition throwIf (cond : bool) (message : string) : result unit :=
  if cond then Throw (Error message) else Ok tt.

(** [if (o !== undefined) { check; payload[key] = o }]. *)
Definition setChecked (payload : list (string * value)) (key : string)
    (o : option value) (check : value -> result unit)
  : result (list (string * value)) :=
  match o with
  | Some v => (try! _ <- check v; Ok (Js.set payload key v))%result
  | None => Ok payload
  end.

Definition isMode (a b : UpscaleMode) : bool := UpscaleMode_eqb a b.

Definition buildUpscaleRequest (input : UpscaleInput) : result UpscaleRequest :=
  let mode := orElse (u_mode input) standard in
  let endpoint :=
    if isMode mode standard then "/generate/enhance/topaz/standard-enhance"
    else if isMode mode generative
         then "/generate/enhance/topaz/generative-enhance"
         else "/generate/enhance/topaz/bloom-enhance" in
  let maxDimension := if isMode mode bloom then 10000 else 32000 in
  (try! _ <-
     throwIf ((u_width input >? maxDimension) || (u_height input >? maxDimension))
       ("Mode " ++ UpscaleMode_name mode ++ " supports up to "
          ++ Str.ofZ maxDimension ++ "x" ++ Str.ofZ maxDimension
          ++ ". Received " ++ Str.ofZ (u_width input) ++ "x"
          ++ Str.ofZ (u_height input) ++ ".");
   try! normalizedModel <- resolveUpscaleModel mode (u_model input);
   let payload :=
     [("width", VInt (u_width input)); ("height", VInt (u_height input));
      ("image_url", VString (u_image_url input));
      ("model", VString normalizedModel)] in
   let payload :=
     setDefined payload "batchSize" (option_map VInt (u_batch_size input)) in
   let payload := setDefined payload "seed" (option_map VInt (u_seed input)) in
   let payload :=
     setDefined payload "prompt" (option_map VString (u_prompt input)) in
   let payload :=
     setDefined payload "output_format"
       (option_map VString (u_output_format input)) in
   let payload :=
     setDefined payload "crop_to_fill" (option_map VBool (u_crop_to_fill input)) in
   let payload :=
     setDefined payload "upscaling_activated"
       (option_map VBool (u_upscaling_activated input)) in
   let payload :=
     setDefined payload "image_scaling_factor"
       (option_map VNumber (u_image_scaling_factor input)) in
   try! payload <-
     setChecked payload "sharpen" (option_map VNumber (u_sharpen input))
       (fun _ => throwIf (isMode mode bloom)
                   "sharpen is not supported in bloom mode.");
   try! payload <-
     setChecked payload "denoise" (option_map VNumber (u_denoise input))
       (fun _ => throwIf (isMode mode bloom)
                   "denoise is not supported in bloom mode.");
   try! payload <-
     setChecked payload "subject_detection"
       (option_map VString (u_subject_detection input))
       (fun _ => throwIf (isMode mode bloom)
                   "subject_detection is not supported in bloom mode.");
   try! payload <-
     setChecked payload "face_enhancement"
       (option_map VBool (u_face_enhancement input))
       (fun _ => throwIf (isMode mode bloom)
                   "face_enhancement is not supported in bloom mode.");
   try! payload <-
     setChecked payload "face_enhancement_creativity"
       (option_map VNumber (u_face_enhancement_creativity input))
       (fun _ => throwIf (isMode mode bloom)
                   "face_enhancement_creativity is not supported in bloom mode.");
   try! payload <-
     setChecked payload "face_enhancement_strength"
       (option_map VNumber (u_face_enhancement_strength input))
       (fun _ => throwIf (isMode mode bloom)
                   "face_enhancement_strength is not supported in bloom mode.");
   try! payload <-
     setChecked payload "strength" (option_map VNumber (u_strength input))
       (fun _ => throwIf (negb (isMode mode standard))
                   "strength is only supported in standard mode.");
   try! payload <-
     setChecked payload "fix_compression"
       (option_map VNumber (u_fix_compression input))
       (fun _ => throwIf (negb (isMode mode standard))
                   "fix_compression is only supported in standard mode.");
   try! payload <-
     setChecked payload "texture" (option_map VInt (u_texture input))
       (fun _ => throwIf (negb (isMode mode generative))
                   "texture is only supported in generative mode.");
   try! payload <-
     setChecked payload "detail" (option_map VNumber (u_detail input))
       (fun _ => throwIf (negb (isMode mode generative))
                   "detail is only supported in generative mode.");
   try! payload <-
     match u_creativity input with
     | Some c =>
         try! _ <- throwIf (isMode mode standard)
                     "creativity is only supported in generative or bloom mode.";
         try! _ <- throwIf (isMode mode generative && (c >? 6))
                     "generative mode supports creativity from 1 to 6.";
         Ok (Js.set payload "creativity" (VInt c))
     | None => Ok payload
     end;
   try! payload <-
     setChecked payload "face_preservation"
       (option_map VBool (u_face_preservation input))
       (fun _ => throwIf (negb (isMode mode bloom))
                   "face_preservation is only supported in bloom mode.");
   try! payload <-
     setChecked payload "color_preservation"
       (option_map VBool (u_color_preservation input))
       (fun _ => throwIf (negb (isMode mode bloom))
                   "color_preservation is only supported in bloom mode.");
   Ok {| r_mode := mode; r_endpoint := endpoint;
         r_normalizedModel := normalizedModel; r_payload := payload |})%result.

(* ------------------------------------------------------------------ *)
(** ** The job completion poller and the tool handlers *)

Record JobResult : Type := {
  job : value;
  rawResponse : value
}.

Record ToolResult : Type := {
  content_text : string;
  structuredContent : value
}.

(** [if (!jobId)]: no string, or the empty string. *)
Definition usableId (jobId : option string) : option string :=
  match jobId with
  | None | Some EmptyString => None
  | Some id => Some id
  end.

Section Server.

Context `{Platform}.
Variable env : environment.

(** The [while (Date.now() < deadline)] loop; [fuel] bounds the number of
    iterations the model follows, and [Unfinished] is the answer when it
    is used up. *)
Fixpoint pollLoop (fuel : nat) (client : KreaClient) (jobId : string)
    (pollIntervalMs deadline timeoutMs : Z) : M JobResult :=
  match fuel with
  | O => fun _ => Unfinished
  | S fuel' =>
      (let! now <- Date_now;
       if now <? deadline
       then
         let! rawResponse <- getJob env client jobId;
         let! job <- lift (pickJob rawResponse);
         let! status <- lift (readString job ["status"]);
         if isTerminalStatus (normalizeStatus (ofReadString status))
         then ret {| job := job; rawResponse := rawResponse |}
         else
           let! _ <- sleep env pollIntervalMs;
           pollLoop fuel' client jobId pollIntervalMs deadline timeoutMs
       else
         throw (Error ("Job " ++ jobId
                         ++ " did not reach a terminal status within "
                         ++ Str.ofZ timeoutMs ++ "ms.")))%effect
  end.

Definition waitForJobCompletion (fuel : nat) (client : KreaClient)
    (jobId : string) (initial : value) (pollIntervalMs timeoutMs : Z)
  : M JobResult :=
  let initialJob := orElse (asObject initial) (VObject []) in
  (let! status <- lift (readString initialJob ["status"]);
   let initialStatus := normalizeStatus (ofReadString status) in
   if isTerminalStatus initialStatus
   then ret {| job := initialJob;
               rawResponse := VObject [("job", initialJob)] |}
   else
     let! now <- Date_now;
     let deadline := now + timeoutMs in
     pollLoop fuel client jobId pollIntervalMs deadline timeoutMs)%effect.

(** The lines of the summary that depend on the final job. *)
Definition resultLines (imageUrls : list string) (error : value)
  : list string :=
  (match imageUrls with
   | [] => []
   | _ => ["Images: " ++ Str.join ", " imageUrls]
   end)
  ++ (if Js.truthy error
      then ["Error: " ++ interpolate (stringifyUnknown error)]
      else []).

Definition newline : string := String "010"%char EmptyString.

(** The handler of [krea_generate_image] in the copy that follows the
    client in kreaClient.ts. *)
Definition krea_generate_image (fuel : nat) (rawInput : GenerateInput)
  : M ToolResult :=
  let wait_for_completion := orElse (g_wait_for_completion rawInput) true in
  let poll_interval_ms :=
    orElse (g_poll_interval_ms rawInput) DEFAULT_POLL_INTERVAL_MS in
  let timeout_ms := orElse (g_timeout_ms rawInput) DEFAULT_TIMEOUT_MS in
  let input := rawInput in
  let model := KREA_IMAGE_MODELS (g_model input) in
  (let! _ <- lift (validateInputByModel input model);
   let payload := buildPayload input model in
   let! client <- lift (fromEnv env);
   let! createResponse <- generateImage env client (endpoint model) payload;
   let! createJob <- lift (pickJob createResponse);
   let! id <- lift (readString createJob ["id"]);
   let! jobId <-
     match id with
     | Some s => ret (Some s)
     | None => lift (readString createJob ["job_id"])
     end;
   match usableId jobId with
   | None =>
       throw (Error ("Krea response does not include job id. Response: "
                       ++ interpolate (stringifyUnknown createResponse)))
   | Some jobId =>
       if negb wait_for_completion
       then
         let! status <- lift (readString createJob ["status"]);
         let initialStatus := normalizeStatus (ofReadString status) in
         ret {| content_text :=
                  "Job " ++ jobId ++ " created with status: "
                    ++ initialStatus ++ ".";
                structuredContent :=
                  VObject
                    [("model", VString (ModelKey_name (g_model input)));
                     ("endpoint", VString (endpoint model));
                     ("payload_sent", VObject payload);
                     ("job_id", VString jobId);
                     ("status", VString initialStatus);
                     ("wait_for_completion", VBool false);
                     ("create_response", createResponse)] |}
       else
         let! finalJobResult <-
           waitForJobCompletion fuel client jobId createJob
             poll_interval_ms timeout_ms;
         let! result <- lift (readUnknown (job finalJobResult) ["result"]);
         let imageUrls := extractHttpUrls result in
         let! finalStatus <- lift (readString (job finalJobResult) ["status"]);
         let status := normalizeStatus (ofReadString finalStatus) in
         let! error <- lift (readUnknown (job finalJobResult) ["error"]);
         ret {| content_text :=
                  Str.join newline
                    (["Model: " ++ ModelKey_name (g_model input) ++ " ("
                        ++ title model ++ ")";
                      "Endpoint: " ++ endpoint model;
                      "Job ID: " ++ jobId;
                      "Status: " ++ status]
                       ++ resultLines imageUrls error);
                structuredContent :=
                  VObject
                    [("model", VString (ModelKey_name (g_model input)));
                     ("endpoint", VString (endpoint model));
                     ("payload_sent", VObject payload);
                     ("job_id", VString jobId);
                     ("status", VString status);
                     ("image_urls", VStrings imageUrls);
                     ("error", error);
                     ("final_job", job finalJobResult);
                     ("final_job_response", rawResponse finalJobResult)] |}
   end)%effect.

End Server.

(* ------------------------------------------------------------------ *)
(** ** The upscale handler *)

Section UpscaleServer.

Context `{Platform}.
Variable env : environment.

Definition krea_upscale_image (fuel : nat) (rawInput : UpscaleInput)
  : M ToolResult :=
  let wait_for_completion := orElse (u_wait_for_completion rawInput) true in
  let poll_interval_ms :=
    orElse (u_poll_interval_ms rawInput) DEFAULT_POLL_INTERVAL_MS in
  let timeout_ms := orElse (u_timeout_ms rawInput) DEFAULT_TIMEOUT_MS in
  let input := rawInput in
  (let! built <- lift (buildUpscaleRequest input);
   let endpoint := r_endpoint built in
   let mode := r_mode built in
   let normalizedModel := r_normalizedModel built in
   let payload := r_payload built in
   let! client <- lift (fromEnv env);
   let! createResponse <- generateImage env client endpoint payload;
   let! createJob <- lift (pickJob createResponse);
   let! id <- lift (readString createJob ["id"]);
   let! jobId <-
     match id with
     | Some s => ret (Some s)
     | None => lift (readString createJob ["job_id"])
     end;
   match usableId jobId with
   | None =>
       throw (Error ("Krea response does not include job id. Response: "
                       ++ interpolate (stringifyUnknown createResponse)))
   | Some jobId =>
       if negb wait_for_completion
       then
         let! status <- lift (readString createJob ["status"]);
         let initialStatus := normalizeStatus (ofReadString status) in
         ret {| content_text :=
                  "Upscale job " ++ jobId ++ " created with status: "
                    ++ initialStatus ++ ".";
                structuredContent :=
                  VObject
                    [("mode", VString (UpscaleMode_name mode));
                     ("model", VString normalizedModel);
                     ("endpoint", VString endpoint);
                     ("payload_sent", VObject payload);
                     ("job_id", VString jobId);
                     ("status", VString initialStatus);
                     ("wait_for_completion", VBool false);
                     ("create_response", createResponse)] |}
       else
         let! finalJobResult <-
           waitForJobCompletion env fuel client jobId createJob
             poll_interval_ms timeout_ms;
         let! result <- lift (readUnknown (job finalJobResult) ["result"]);
         let imageUrls := extractHttpUrls result in
         let! finalStatus <- lift (readString (job finalJobResult) ["status"]);
         let status := normalizeStatus (ofReadString finalStatus) in
         let! error <- lift (readUnknown (job finalJobResult) ["error"]);
         ret {| content_text :=
                  Str.join newline
                    (["Mode: " ++ UpscaleMode_name mode;
                      "Model: " ++ normalizedModel;
                      "Endpoint: " ++ endpoint;
                      "Job ID: " ++ jobId;
                      "Status: " ++ status]
                       ++ resultLines imageUrls error);
                structuredContent :=
                  VObject
                    [("mode", VString (UpscaleMode_name mode));
                     ("model", VString normalizedModel);
                     ("endpoint", VString endpoint);
                     ("payload_sent", VObject payload);
                     ("job_id", VString jobId);
                     ("status", VString status);
                     ("image_urls", VStrings imageUrls);
                     ("error", error);
                     ("final_job", job finalJobResult);
                     ("final_job_response", rawResponse finalJobResult)] |}
   end)%effect.

End UpscaleServer.

(* ------------------------------------------------------------------ *)
(** ** index.ts: the copy of the server without the upscale tool

    Only what differs from the other copy is embedded again: the payload
    builder and the handler of [krea_generate_image]. *)

Module Index.


(** [buildPayload] of index.ts: the size string is not parsed but sent
    on under the key [size]. *)
Definition buildPayload (input : GenerateInput) (model : ModelDefinition)
  : list (string * value) :=
  let payload :=
    Js.set (orElse (fixedPayload model) []) "prompt"
      (VString (g_prompt input)) in
  let payload :=
    match g_width input with
    | Some w => Js.set payload "width" (VInt w)
    | None =>
        if requires model width_field
        then setDefined payload "width" (option_map VInt (defaultWidth model))
        else payload
    end in
  let payload :=
    match g_height input with
    | Some h => Js.set payload "height" (VInt h)
    | None =>
        if requires model height_field
        then setDefined payload "height"
               (option_map VInt (defaultHeight model))
        else payload
    end in
  let payload := setDefined payload "seed" (option_map VInt (g_seed input)) in
  let payload :=
    setDefined payload "guidance_scale"
      (option_map VNumber (g_guidance_scale input)) in
  let payload :=
    setDefined payload "num_inference_steps"
      (option_map VInt (g_num_inference_steps input)) in
  let payload :=
    setDefined payload "negative_prompt"
      (option_map VString (g_negative_prompt input)) in
  let payload :=
    setDefined payload "size" (option_map VString (g_size input)) in
  let payload :=
    setDefined payload "style" (option_map VString (g_style input)) in
  let payload :=
    setDefined payload "referenceImage"
      (option_map VString (g_reference_image input)) in
  let payload :=
    setDefined payload "referenceImages"
      (option_map VStrings (g_reference_images input)) in
  let payload :=
    setDefined payload "imageUrl" (option_map VString (g_image_url input)) in
  setDefined payload "sync_mode" (option_map VBool (g_sync_mode input)).

Section Server.

Context `{Platform}.
Variable env : environment.

Definition krea_generate_image (fuel : nat) (rawInput : GenerateInput)
  : M ToolResult :=
  let wait_for_completion := orElse (g_wait_for_completion rawInput) true in
  let poll_interval_ms :=
    orElse (g_poll_interval_ms rawInput) DEFAULT_POLL_INTERVAL_MS in
  let timeout_ms := orElse (g_timeout_ms rawInput) DEFAULT_TIMEOUT_MS in
  let input := rawInput in
  let model := KREA_IMAGE_MODELS (g_model input) in
  (let! _ <- lift (validateInputByModel input model);
   let payload := buildPayload input model in
   let! client <- lift (fromEnv env);
   let! createResponse <- generateImage env client (endpoint model) payload;
   let! createJob <- lift (pickJob createResponse);
   let! jobId <- lift (readString createJob ["id"]);
   match usableId jobId with
   | None =>
       throw (Error ("Krea response does not include job.id. Response: "
                       ++ interpolate (stringifyUnknown createResponse)))
   | Some jobId =>
       if negb wait_for_completion
       then
         let! status <- lift (readString createJob ["status"]);
         let initialStatus := normalizeStatus (ofReadString status) in
         ret {| content_text :=
                  "Job " ++ jobId ++ " created with status: "
                    ++ initialStatus ++ ".";
                structuredContent :=
                  VObject
                    [("model", VString (ModelKey_name (g_model input)));
                     ("endpoint", VString (endpoint model));
                     ("payload_sent", VObject payload);
                     ("job_id", VString jobId);
                     ("status", VString initialStatus);
                     ("wait_for_completion", VBool false);
                     ("create_response", createResponse)] |}
       else
         let! finalJobResult <-
           waitForJobCompletion env fuel client jobId createJob
             poll_interval_ms timeout_ms;
         let! output <-
           lift (readUnknown (job finalJobResult) ["data"; "output"]);
         let imageUrls := extractHttpUrls output in
         let! finalStatus <-
           lift (readString (job finalJobResult) ["status"]);
         let status := normalizeStatus (ofReadString finalStatus) in
         let! error <- lift (readUnknown (job finalJobResult) ["error"]);
         ret {| content_text :=
                  Str.join newline
                    (["Model: " ++ ModelKey_name (g_model input) ++ " ("
                        ++ title model ++ ")";
                      "Endpoint: " ++ endpoint model;
                      "Job ID: " ++ jobId;
                      "Status: " ++ status]
                       ++ resultLines imageUrls error);
                structuredContent :=
                  VObject
                    [("model", VString (ModelKey_name (g_model input)));
                     ("endpoint", VString (endpoint model));
                     ("payload_sent", VObject payload);
                     ("job_id", VString jobId);
                     ("status", VString status);
                     ("image_urls", VStrings imageUrls);
                     ("error", error);
                     ("final_job", job finalJobResult);
                     ("final_job_response", rawResponse finalJobResult)] |}
   end)%effect.

End Server.

End Index.

(* ------------------------------------------------------------------ *)
(** ** The specification's reading of the builders

    The tables of the specification, as data, to compare the code with. *)

Module Spec.

(** All string leaves of a value, at any depth. *)
Fixpoint stringLeaves (v : value) : list string :=
  match v with
  | VString s => [s]
  | VArray items => flat_map stringLeaves items
  | VObject fields => flat_map (fun kv => stringLeaves (snd kv)) fields
  | _ => []
  end.

(** A value that is not an object for JavaScript: [typeof] is not
    ["object"], or the value is [null]. *)
Definition notAnObject (v : value) : bool :=
  match v with
  | VArray _ | VObject _ => false
  | _ => true
  end.

(** Precedence of one dimension: explicit value, else the one parsed
    from the size string, else the default when the field is required. *)
Definition resolveDimension {A} (explicit parsed : option A) (required : bool)
    (default : option A) : option A :=
  match explicit, parsed with
  | Some v, _ => Some v
  | None, Some v => Some v
  | None, None => if required then default else None
  end.


(** The field of a payload: its value when the key is there. *)
Definition field (payload : list (string * value)) (key : string)
  : option value :=
  if Js.hasKey payload key then Some (Js.lookup payload key) else None.

Definition endpointOf (mode : UpscaleMode) : string :=
  match mode with
  | standard => "/generate/enhance/topaz/standard-enhance"
  | generative => "/generate/enhance/topaz/generative-enhance"
  | bloom => "/generate/enhance/topaz/bloom-enhance"
  end.

Definition maxDimensionOf (mode : UpscaleMode) : Z :=
  match mode with
  | standard | generative => 32000
  | bloom => 10000
  end.

Definition modelsOf (mode : UpscaleMode) : list string :=
  match mode with
  | standard => UPSCALE_STANDARD_MODELS
  | generative => UPSCALE_GENERATIVE_MODELS
  | bloom => ["Reimagine"]
  end.

Definition defaultModelOf (mode : UpscaleMode) : string :=
  match mode with
  | standard => "Standard V2"
  | generative => "Redefine"
  | bloom => "Reimagine"
  end.

(** The mode-gated tuning parameters. *)
Inductive TuningParam : Type :=
| sharpen | denoise | subject_detection | face_enhancement
| face_enhancement_creativity | face_enhancement_strength
| strength | fix_compression | texture | detail | creativity
| face_preservation | color_preservation.

Definition paramName (p : TuningParam) : string :=
  match p with
  | sharpen => "sharpen"
  | denoise => "denoise"
  | subject_detection => "subject_detection"
  | face_enhancement => "face_enhancement"
  | face_enhancement_creativity => "face_enhancement_creativity"
  | face_enhancement_strength => "face_enhancement_strength"
  | strength => "strength"
  | fix_compression => "fix_compression"
  | texture => "texture"
  | detail => "detail"
  | creativity => "creativity"
  | face_preservation => "face_preservation"
  | color_preservation => "color_preservation"
  end.

(** The table of the specification: the modes that accept a parameter. *)
Definition allowedModes (p : TuningParam) : list UpscaleMode :=
  match p with
  | sharpen | denoise | subject_detection | face_enhancement
  | face_enhancement_creativity | face_enhancement_strength =>
      [standard; generative]
  | strength | fix_compression => [standard]
  | texture | detail => [generative]
  | creativity => [generative; bloom]
  | face_preservation | color_preservation => [bloom]
  end.

Definition isSome {A} (o : option A) : bool :=
  match o with
  | Some _ => true
  | None => false
  end.

Definition supplied (input : UpscaleInput) (p : TuningParam) : bool :=
  match p with
  | sharpen => isSome (u_sharpen input)
  | denoise => isSome (u_denoise input)
  | subject_detection => isSome (u_subject_detection input)
  | face_enhancement => isSome (u_face_enhancement input)
  | face_enhancement_creativity => isSome (u_face_enhancement_creativity input)
  | face_enhancement_strength => isSome (u_face_enhancement_strength input)
  | strength => isSome (u_strength input)
  | fix_compression => isSome (u_fix_compression input)
  | texture => isSome (u_texture input)
  | detail => isSome (u_detail input)
  | creativity => isSome (u_creativity input)
  | face_preservation => isSome (u_face_preservation input)
  | color_preservation => isSome (u_color_preservation input)
  end.

Definition modeOf (input : UpscaleInput) : UpscaleMode :=
  orElse (u_mode input) standard.

(** The constraints on an upscale request. *)
Inductive Constraint : Type :=
| DimensionLimit
| ModelName
| Gate (p : TuningParam)
| CreativityRange.

Definition violated (input : UpscaleInput) (c : Constraint) : bool :=
  let mode := modeOf input in
  match c with
  | DimensionLimit =>
      (maxDimensionOf mode <? u_width input)
      || (maxDimensionOf mode <? u_height input)
  | ModelName =>
      negb (existsb (String.eqb (orElse (u_model input) (defaultModelOf mode)))
              (modelsOf mode))
  | Gate p =>
      supplied input p && negb (existsb (UpscaleMode_eqb mode) (allowedModes p))
  | CreativityRange =>
      match mode, u_creativity input with
      | generative, Some c => 6 <? c
      | _, _ => false
      end
  end.

(** The order in which the builder meets the constraints. *)
Definition checkOrder : list Constraint :=
  [DimensionLimit; ModelName;
   Gate sharpen; Gate denoise; Gate subject_detection; Gate face_enhancement;
   Gate face_enhancement_creativity; Gate face_enhancement_strength;
   Gate strength; Gate fix_compression; Gate texture; Gate detail;
   Gate creativity; CreativityRange;
   Gate face_preservation; Gate color_preservation].

Definition firstViolated (input : UpscaleInput) : option Constraint :=
  find (violated input) checkOrder.

(** The message of the error for a gated parameter. *)
Definition gateMessage (p : TuningParam) : string :=
  match p with
  | sharpen | denoise | subject_detection | face_enhancement
  | face_enhancement_creativity | face_enhancement_strength =>
      paramName p ++ " is not supported in bloom mode."
  | strength | fix_compression =>
      paramName p ++ " is only supported in standard mode."
  | texture | detail =>
      paramName p ++ " is only supported in generative mode."
  | creativity =>
      paramName p ++ " is only supported in generative or bloom mode."
  | face_preservation | color_preservation =>
      paramName p ++ " is only supported in bloom mode."
  end.

(** The message of the error for each constraint. *)
Definition message (input : UpscaleInput) (c : Constraint) : string :=
  let mode := modeOf input in
  match c with
  | DimensionLimit =>
      "Mode " ++ UpscaleMode_name mode ++ " supports up to "
        ++ Str.ofZ (maxDimensionOf mode) ++ "x" ++ Str.ofZ (maxDimensionOf mode)
        ++ ". Received " ++ Str.ofZ (u_width input) ++ "x"
        ++ Str.ofZ (u_height input) ++ "."
  | ModelName =>
      match mode with
      | standard =>
          "Invalid standard model "
            ++ quoted (orElse (u_model input) (defaultModelOf mode)) ++ "."
      | generative =>
          "Invalid generative model "
            ++ quoted (orElse (u_model input) (defaultModelOf mode)) ++ "."
      | bloom => "Bloom mode supports only model " ++ quoted "Reimagine" ++ "."
      end
  | Gate p => gateMessage p
  | CreativityRange => "generative mode supports creativity from 1 to 6."
  end.

(** A job record whose status, once normalised, is terminal. *)
Definition terminalJob (j : value) : Prop :=
  exists status,
    readString j ["status"] = Ok status
    /\ isTerminalStatus (normalizeStatus (ofReadString status)) = true.

(** The errors of the transport. *)
Definition transportError (e : exn) : Prop :=
  match e with
  | KreaApiError _ _ _ | FetchError _ => True
  | TypeError _ | Error _ => False
  end.

(** The error of a poll that ran out of time. *)
Definition timeoutError (jobId : string) (timeoutMs : Z) : exn :=
  Error ("Job " ++ jobId ++ " did not reach a terminal status within "
           ++ Str.ofZ timeoutMs ++ "ms.").

(** The error of a response without a job id, in the copy of the server
    with the upscale tool and in index.ts. *)
Definition missingJobId (details : option string) : exn :=
  Error ("Krea response does not include job id. Response: "
           ++ match details with
              | Some text => text
              | None => "undefined"
              end).

Definition missingJobDotId (details : option string) : exn :=
  Error ("Krea response does not include job.id. Response: "
           ++ match details with
              | Some text => text
              | None => "undefined"
              end).

(** Time only moves forward: requests and timers take no negative time. *)
Definition timePasses (env : environment) : Prop :=
  (forall k, 0 <= net_ms env k) /\ (forall k, 0 <= timer_lag env k).

Section Rounds.

Context `{Platform}.
Variable env : environment.
Variables (client : KreaClient) (jobId : string).
Variables (pollIntervalMs deadline : Z).

(** [quietRounds n w w']: from the world [w], [n] iterations of the poll
    loop in which the job is not finished lead to the world [w']. Each
    starts before the deadline, fetches the job, finds a status that is
    not terminal and sleeps for the poll interval. *)
Inductive quietRounds : nat -> world -> world -> Prop :=
| quiet_none (w : world) : quietRounds 0 w w
| quiet_next (n : nat) (w w1 w2 w3 : world) (raw j : value)
    (status : option string) :
    clock w < deadline ->
    getJob env client jobId w = Returned raw w1 ->
    pickJob raw = Ok j ->
    readString j ["status"] = Ok status ->
    isTerminalStatus (normalizeStatus (ofReadString status)) = false ->
    sleep env pollIntervalMs w1 = Returned tt w2 ->
    quietRounds n w2 w3 ->
    quietRounds (S n) w w3.

End Rounds.

End Spec.

(* ------------------------------------------------------------------ *)
(** ** A platform and environments to run the examples on *)

Module Demo.

Definition isSchemeChar (c : ascii) : bool :=
  let n := Str.code (Str.lowerChar c) in
  ((97 <=? n) && (n <=? 122) || Str.isDigit c
   || (n =? 43) || (n =? 45) || (n =? 46))%N.

Fixpoint allSchemeChars (s : string) : bool :=
  match s with
  | EmptyString => true
  | String c rest => isSchemeChar c && allSchemeChars rest
  end.

(** Recognises [scheme://rest] with a non-empty rest that has no blank. *)
Definition protocol (s : string) : option string :=
  match Str.splitAt ":"%char s with
  | Some (String c scheme, rest) =>
      if negb (Str.isDigit c) && allSchemeChars (String c scheme)
         && String.prefix "//" rest && (2 <? String.length rest)%nat
         && negb (Str.includes rest " ")
      then Some (Str.toLowerCase (String c scheme) ++ ":")
      else None
  | _ => None
  end.

Fixpoint render (v : value) : string :=
  match v with
  | VUndefined | VNull | VInfinity => "null"
  | VBool true => "true"
  | VBool false => "false"
  | VNumber q =>
      if (Zpos (Qden q) =? 1) then Str.ofZ (Qnum q)
      else Str.ofZ (Qnum q) ++ "/" ++ Str.ofZ (Zpos (Qden q))
  | VString s => quoted s
  | VArray items => "[" ++ Str.join "," (map render items) ++ "]"
  | VObject fields =>
      "{" ++ Str.join ","
               (flat_map
                  (fun kv => match snd kv with
                             | VUndefined => []
                             | _ => [quoted (fst kv) ++ ":" ++ render (snd kv)]
                             end) fields)
        ++ "}"
  end.

Definition stringify (v : value) : option string :=
  match v with
  | VUndefined => None
  | _ => Some (render v)
  end.

(** The JSON documents the examples receive. *)
Definition completedJob : value :=
  VObject [("id", VString "j1"); ("status", VString "completed");
           ("result", VObject [("urls", VArray [VString "https://x.test/i.png"])])].

Definition runningJob : value :=
  VObject [("job_id", VString "j1"); ("status", VString "running")].

Definition failedJob : value :=
  VObject [("id", VString "j1"); ("status", VString "FAILED");
           ("error", VString "out of credits")].

Definition documents : list value := [completedJob; runningJob; failedJob].

(** Parses the text of the documents above, and nothing else. *)
Definition parse (text : string) : option value :=
  find (fun d => String.eqb (render d) text) documents.

Definition hexDigit (n : N) : ascii :=
  if (n <? 10)%N then ascii_of_N (48 + n) else ascii_of_N (55 + n).

Definition percent (n : N) : string :=
  String "%"%char
    (String (hexDigit (n / 16)) (String (hexDigit (n mod 16)) EmptyString)).

Definition unreserved (c : ascii) : bool :=
  let n := Str.code c in
  ((65 <=? n) && (n <=? 90) || (97 <=? n) && (n <=? 122)
   || (48 <=? n) && (n <=? 57)
   || existsb (N.eqb n) [45; 95; 46; 33; 126; 42; 39; 40; 41])%N.

Fixpoint encode (s : string) : string :=
  match s with
  | EmptyString => EmptyString
  | String c rest =>
      let n := Str.code c in
      (if unreserved c then String c EmptyString
       else if (n <? 128)%N then percent n
            else percent (192 + n / 64) ++ percent (128 + n mod 64))
        ++ encode rest
  end.

#[export] Instance platform : Platform := {|
  URL_protocol := protocol;
  JSON_parse := parse;
  JSON_stringify := stringify;
  encodeURIComponent := encode
|}.

Definition respond (status : Z) (text : string) : fetch_outcome :=
  Responds {| resp_status := status; resp_text := text |}.

(** An environment with an API key where the [k]-th request gets the
    [k]-th of [answers] (an empty 200 response after them), every request
    takes [latency] milliseconds and timers fire on time. *)
Definition environmentOf (base : option string) (answers : list fetch_outcome)
    (latency : Z) : environment :=
  {| KREA_API_KEY := Some "secret";
     KREA_API_BASE_URL := base;
     net := fun k _ => nth k answers (respond 200 "");
     net_ms := fun _ => latency;
     timer_lag := fun _ => 0 |}.

Definition client : KreaClient := newKreaClient "secret" DEFAULT_BASE_URL.

Definition generateInput (key : ModelKey) (text : string)
    (width height : option Z) (size : option string) : GenerateInput :=
  {| g_model := key; g_prompt := text; g_width := width; g_height := height;
     g_seed := None; g_batch_size := None; g_guidance_scale := None;
     g_num_inference_steps := None; g_negative_prompt := None;
     g_size := size; g_style := None; g_reference_image := None;
     g_reference_images := None; g_image_url := None; g_sync_mode := None;
     g_wait_for_completion := None; g_poll_interval_ms := None;
     g_timeout_ms := None |}.

Definition upscaleInput (mode : option UpscaleMode) (w h : Z)
    (sharpness : option Q) (creative : option Z) : UpscaleInput :=
  {| u_mode := mode; u_image_url := "https://x.test/i.png";
     u_width := w; u_height := h; u_model := None; u_batch_size := None;
     u_seed := None; u_prompt := None; u_output_format := None;
     u_subject_detection := None; u_face_enhancement := None;
     u_face_enhancement_creativity := None;
     u_face_enhancement_strength := None; u_crop_to_fill := None;
     u_upscaling_activated := None; u_image_scaling_factor := None;
     u_sharpen := sharpness; u_denoise := None; u_fix_compression := None;
     u_strength := None; u_creativity := creative; u_texture := None;
     u_detail := None; u_face_preservation := None;
     u_color_preservation := None; u_wait_for_completion := None;
     u_poll_interval_ms := None; u_timeout_ms := None |}.

(** The value of the specification's example for URL extraction. *)
Definition nested : value :=
  VObject
    [("a", VString "https://x.test/i.png");
     ("b", VArray [VString "not a url"; VString "http://y.test/j.png"]);
     ("c", VObject [("d", VString "ftp://bad")])].

End Demo.

(* ------------------------------------------------------------------ *)
(** ** Stages of a tool invocation *)

Section Stages.

Context `{Platform}.
Variable env : environment.

(** The invocation passed validation, found its client and got
    [createResponse] as the answer to its create request, which took the
    world from [w] to [w1]. *)
Definition generateSubmitted (input : GenerateInput) (w : world)
    (createResponse : value) (w1 : world) : Prop :=
  let model := KREA_IMAGE_MODELS (g_model input) in
  validateInputByModel input model = Ok tt
  /\ exists client,
      fromEnv env = Ok client
      /\ generateImage env client (endpoint model) (buildPayload input model) w
         = Returned createResponse w1.

Definition indexGenerateSubmitted (input : GenerateInput) (w : world)
    (createResponse : value) (w1 : world) : Prop :=
  let model := KREA_IMAGE_MODELS (g_model input) in
  validateInputByModel input model = Ok tt
  /\ exists client,
      fromEnv env = Ok client
      /\ generateImage env client (endpoint model)
           (Index.buildPayload input model) w
         = Returned createResponse w1.

Definition upscaleSubmitted (input : UpscaleInput) (w : world)
    (createResponse : value) (w1 : world) : Prop :=
  exists built client,
    buildUpscaleRequest input = Ok built
    /\ fromEnv env = Ok client
    /\ generateImage env client (r_endpoint built) (r_payload built) w
       = Returned createResponse w1.

(** [readString(createJob, "id") ?? readString(createJob, "job_id")]. *)
Definition idThenJobId (id job_id : option string) : option string :=
  match id with
  | Some s => Some s
  | None => job_id
  end.

(** The outcome of a handler that waited for the job [jobId], given how
    the poll for that job ended: the error of the poll is passed on, and
    the job the poll returned is reported, under the job id polled, in
    the world the poll left. *)
Definition followsPoll (jobId : string) (polled : run JobResult)
    (outcome : run ToolResult) : Prop :=
  match polled with
  | Returned final w2 =>
      exists out,
        outcome = Returned out w2
        /\ Js.get (structuredContent out) "job_id" = Ok (VString jobId)
        /\ Js.get (structuredContent out) "final_job" = Ok (job final)
        /\ Js.get (structuredContent out) "final_job_response"
           = Ok (rawResponse final)
  | Threw e w2 => outcome = Threw e w2
  | Unfinished => outcome = Unfinished
  end.

End Stages.

(* ------------------------------------------------------------------ *)
(** ** models.ts: the keys of the catalog *)

(** [Object.keys(KREA_IMAGE_MODELS)], in the order of the source. *)
Definition MODEL_KEYS : list ModelKey :=
  [flux_1_dev; flux_kontext_max; nano_banana_pro; nano_banana;
   flux_1_1_pro; flux_1_1_pro_ultra; ideogram_2a; ideogram_3;
   imagen_3; imagen_4; imagen_4_fast; imagen_4_ultra;
   runway_gen_4_image; chatgpt_image_1; seedream_3; seedream_4;
   seededit_3; qwen_image; zimage].

(* ------------------------------------------------------------------ *)
(** ** Readings of the builders, the handlers and the poller

    What the code is compared with in the second part of the
    properties. *)

Module Reading.

(** The payload key a required field ends under. *)
Definition payloadKey (f : RequiredField) : string :=
  match f with
  | prompt_field => "prompt"
  | width_field => "width"
  | height_field => "height"
  | referenceImages_field => "referenceImages"
  | imageUrl_field => "imageUrl"
  end.

(** A required field has a value to send: the input gives one or, for a
    dimension, the model has a default. *)
Definition available (input : GenerateInput) (model : ModelDefinition)
    (f : RequiredField) : bool :=
  match f with
  | prompt_field => true
  | width_field => Spec.isSome (g_width input) || Spec.isSome (defaultWidth model)
  | height_field =>
      Spec.isSome (g_height input) || Spec.isSome (defaultHeight model)
  | referenceImages_field =>
      match g_reference_images input with
      | Some (_ :: _) => true
      | _ => false
      end
  | imageUrl_field =>
      match g_image_url input with
      | Some s => negb (String.eqb s "")
      | None => false
      end
  end.

(** The name under which the input gives a required field, as the
    validation error spells it. *)
Definition inputName (f : RequiredField) : string :=
  match f with
  | prompt_field => "prompt"
  | width_field => "width"
  | height_field => "height"
  | referenceImages_field => "reference_images"
  | imageUrl_field => "image_url"
  end.

(** The required fields of a model that have no value to send, by their
    input names, in the order the model lists them. *)
Definition missingNames (input : GenerateInput) (model : ModelDefinition)
  : list string :=
  map inputName
    (filter (fun f => negb (available input model f)) (requiredFields model)).

(** The keys the generate builder of each copy can set. *)
Definition generateKeys : list string :=
  ["prompt"; "width"; "height"; "seed"; "batchSize"; "cfg_scale";
   "guidance_scale_flux"; "num_inference_steps"; "steps"; "negative_prompt";
   "styles"; "styleImages"; "referenceImages"; "imageUrl"].

Definition indexGenerateKeys : list string :=
  ["prompt"; "width"; "height"; "seed"; "guidance_scale";
   "num_inference_steps"; "negative_prompt"; "size"; "style";
   "referenceImage"; "referenceImages"; "imageUrl"; "sync_mode"].

(** The value the input gives a gated tuning parameter. *)
Definition paramValue (input : UpscaleInput) (p : Spec.TuningParam)
  : option value :=
  match p with
  | Spec.sharpen => option_map VNumber (u_sharpen input)
  | Spec.denoise => option_map VNumber (u_denoise input)
  | Spec.subject_detection => option_map VString (u_subject_detection input)
  | Spec.face_enhancement => option_map VBool (u_face_enhancement input)
  | Spec.face_enhancement_creativity =>
      option_map VNumber (u_face_enhancement_creativity input)
  | Spec.face_enhancement_strength =>
      option_map VNumber (u_face_enhancement_strength input)
  | Spec.strength => option_map VNumber (u_strength input)
  | Spec.fix_compression => option_map VNumber (u_fix_compression input)
  | Spec.texture => option_map VInt (u_texture input)
  | Spec.detail => option_map VNumber (u_detail input)
  | Spec.creativity => option_map VInt (u_creativity input)
  | Spec.face_preservation => option_map VBool (u_face_preservation input)
  | Spec.color_preservation => option_map VBool (u_color_preservation input)
  end.

(** The ungated optional parameters, under their payload keys. *)
Definition freeParams (input : UpscaleInput) : list (string * option value) :=
  [("batchSize", option_map VInt (u_batch_size input));
   ("seed", option_map VInt (u_seed input));
   ("prompt", option_map VString (u_prompt input));
   ("output_format", option_map VString (u_output_format input));
   ("crop_to_fill", option_map VBool (u_crop_to_fill input));
   ("upscaling_activated", option_map VBool (u_upscaling_activated input));
   ("image_scaling_factor", option_map VNumber (u_image_scaling_factor input))].

(** The gated parameters, in the order the builder assigns them. *)
Definition gatedOrder : list Spec.TuningParam :=
  [Spec.sharpen; Spec.denoise; Spec.subject_detection; Spec.face_enhancement;
   Spec.face_enhancement_creativity; Spec.face_enhancement_strength;
   Spec.strength; Spec.fix_compression; Spec.texture; Spec.detail;
   Spec.creativity; Spec.face_preservation; Spec.color_preservation].

(** The payload of an upscale request that passes every check: the four
    base fields, then every supplied parameter in the builder's order. *)
Definition upscalePayload (input : UpscaleInput) (normalizedModel : string)
  : list (string * value) :=
  fold_left (fun payload kv => setDefined payload (fst kv) (snd kv))
    (freeParams input
       ++ map (fun p => (Spec.paramName p, paramValue input p)) gatedOrder)
    [("width", VInt (u_width input)); ("height", VInt (u_height input));
     ("image_url", VString (u_image_url input));
     ("model", VString normalizedModel)].

Section Requests.

Context `{Platform}.

(** The request of [getJob]. *)
Definition pollRequest (client : KreaClient) (jobId : string) : http_request :=
  {| req_method := "GET";
     req_url := baseUrl client ++ "/jobs/" ++ encodeURIComponent jobId;
     req_headers := [("Authorization", "Bearer " ++ apiKey client);
                     ("Content-Type", "application/json")];
     req_body := None |}.

(** The request of [generateImage]. *)
Definition createRequest (client : KreaClient) (endpoint : string)
    (payload : list (string * value)) : http_request :=
  {| req_method := "POST";
     req_url := baseUrl client ++ endpoint;
     req_headers := [("Authorization", "Bearer " ++ apiKey client);
                     ("Content-Type", "application/json")];
     req_body := JSON_stringify (VObject payload) |}.

(** The status a tool result reports. *)
Definition reportedStatus (out : ToolResult) : result value :=
  Js.get (structuredContent out) "status".

End Requests.

(** No API key in the environment: unset, or empty. *)
Definition noApiKey (env : environment) : Prop :=
  KREA_API_KEY env = None \/ KREA_API_KEY env = Some "".

(** Every world an effectful computation can end in satisfies [P]. *)
Definition leaves {A} (r : run A) (P : world -> Prop) : Prop :=
  match r with
  | Returned _ w' | Threw _ w' => P w'
  | Unfinished => True
  end.

(** The requests of an invocation that started in [w]: none, or the
    create request followed by job requests, all for one job id; and no
    job request and no timer when the caller does not wait. *)
Definition invocationTraffic `{Platform} (env : environment) (w : world)
    (endpoint : string) (payload : list (string * value)) (waits : bool)
    (w' : world) : Prop :=
  (requests w' = requests w /\ sleeps w' = sleeps w)
  \/ exists client jobId m,
      fromEnv env = Ok client
      /\ requests w'
         = (requests w
              ++ createRequest client endpoint payload
              :: repeat (pollRequest client jobId) m)%list
      /\ (waits = false -> m = 0%nat /\ sleeps w' = sleeps w).

(** An environment without an API key, for the examples. *)
Definition keyless : environment :=
  {| KREA_API_KEY := None;
     KREA_API_BASE_URL := None;
     net := fun _ _ => Demo.respond 200 "";
     net_ms := fun _ => 0;
     timer_lag := fun _ => 0 |}.

End Reading.

(* ------------------------------------------------------------------ *)
(** * Properties *)

(** ** Response accessors never throw *)

Lemma get_of_object (v : value) (key : string) :
  Js.truthy v && Js.typeofObject v = true ->
  exists r, Js.get v key = Ok r.
Proof.
  destruct v; cbn; rewrite ?andb_false_r; try discriminate; intros _.
  - destruct (String.eqb key "length"); [eauto|].
    destruct (Js.arrayIndex key); eauto.
  - eauto.
Qed.

Lemma readUnknown_total (path : list string) :
  forall obj, exists r, readUnknown obj path = Ok r.
Proof.
  induction path as [|key rest IH]; intros obj; cbn [readUnknown].
  - eauto.
  - destruct (Js.truthy obj && Js.typeofObject obj) eqn:E.
    + apply andb_true_iff in E as E'. destruct E' as [-> ->]. cbn [negb orb].
      destruct (get_of_object obj key E) as [next ->]. cbn [rbind]. apply IH.
    + replace (negb (Js.truthy obj) || negb (Js.typeofObject obj)) with true.
      * eauto.
      * symmetry. rewrite <- negb_andb, E. reflexivity.
Qed.

Lemma readString_total (path : list string) (obj : value) :
  exists r, readString obj path = Ok r.
Proof.
  unfold readString. destruct (readUnknown_total path obj) as [v ->].
  cbn [rbind]. eauto.
Qed.

Lemma pickJob_total (rawResponse : value) :
  exists j, pickJob rawResponse = Ok j
            /\ Js.truthy j && Js.typeofObject j = true.
Proof.
  unfold pickJob.
  destruct (Js.truthy rawResponse && Js.typeofObject rawResponse) eqn:E.
  - destruct (get_of_object rawResponse "job" E) as [j ->]. cbn [rbind].
    destruct (Js.truthy j && Js.typeofObject j) eqn:Ej; eauto.
  - eexists; split; reflexivity.
Qed.

Lemma pickJob_notAnObject (v : value) :
  Spec.notAnObject v = true -> pickJob v = Ok (VObject []).
Proof.
  unfold pickJob.
  destruct v; cbn [Spec.notAnObject Js.truthy Js.typeofObject];
    try discriminate; intros _; rewrite ?andb_false_r; reflexivity.
Qed.

(** ** URL extraction *)

Section UrlExtraction.

Context `{Platform}.

Lemma setAdd_In (s t : string) (found : list string) :
  In t (setAdd s found) <-> t = s \/ In t found.
Proof.
  unfold setAdd. destruct (existsb (String.eqb s) found) eqn:E.
  - split; [tauto|]. intros [->|Hin]; [|exact Hin].
    apply existsb_exists in E as [x [Hx Heq]].
    apply String.eqb_eq in Heq. subst x. exact Hx.
  - rewrite in_app_iff. cbn. intuition congruence.
Qed.

Lemma setAdd_NoDup (s : string) (found : list string) :
  NoDup found -> NoDup (setAdd s found).
Proof.
  intros Hnd. unfold setAdd. destruct (existsb (String.eqb s) found) eqn:E.
  - exact Hnd.
  - apply NoDup_rev in Hnd. rewrite <- (rev_involutive (found ++ [s])).
    apply NoDup_rev. rewrite rev_app_distr. cbn. constructor; [|exact Hnd].
    intros Hin. apply in_rev in Hin.
    assert (existsb (String.eqb s) found = true) as E'.
    { apply existsb_exists. exists s. split; [exact Hin|apply String.eqb_refl]. }
    congruence.
Qed.

Lemma pushAll_eq (items stack : list value) :
  pushAll items stack = (rev items ++ stack)%list.
Proof.
  unfold pushAll. revert stack.
  induction items as [|x items IH]; intros stack; cbn; [reflexivity|].
  rewrite IH, <- app_assoc. reflexivity.
Qed.

Lemma leaves_pushAll (s : string) (items stack : list value) :
  In s (flat_map Spec.stringLeaves (pushAll items stack))
  <-> In s (flat_map Spec.stringLeaves items)
      \/ In s (flat_map Spec.stringLeaves stack).
Proof.
  rewrite pushAll_eq, flat_map_app, in_app_iff.
  rewrite !in_flat_map. setoid_rewrite <- in_rev. reflexivity.
Qed.

(** What the loop computes from any stack and any set found so far. *)
Lemma extractLoop_spec (stack : list value) (found : list string) :
  NoDup found ->
  NoDup (extractLoop stack found)
  /\ forall s, In s (extractLoop stack found)
               <-> In s found
                   \/ (In s (flat_map Spec.stringLeaves stack)
                       /\ looksLikeUrl s = true).
Proof.
  funelim (extractLoop stack found); intros Hnd.
  all: try (specialize (H0 Hnd) as [IHnd IHin]; split; [exact IHnd|];
            intros t; rewrite IHin; cbn [flat_map Spec.stringLeaves app];
            tauto).
  - split; [exact Hnd|]. intros t. cbn. tauto.
  - assert (NoDup (if looksLikeUrl s then setAdd s found else found)) as Hnd'.
    { destruct (looksLikeUrl s); [apply setAdd_NoDup|]; exact Hnd. }
    specialize (H0 Hnd') as [IHnd IHin]. split; [exact IHnd|].
    intros t. rewrite IHin. cbn [flat_map Spec.stringLeaves app In].
    destruct (looksLikeUrl s) eqn:E.
    + rewrite setAdd_In. split.
      * intros [[->|Hf]|[Hl Hu]]; auto.
      * intros [Hf|[[<-|Hl] Hu]]; auto.
    + split.
      * intros [Hf|[Hl Hu]]; auto.
      * intros [Hf|[[<-|Hl] Hu]]; auto. congruence.
  - specialize (H0 Hnd) as [IHnd IHin]. split; [exact IHnd|].
    intros t. rewrite IHin, leaves_pushAll.
    cbn [flat_map Spec.stringLeaves]. rewrite in_app_iff. tauto.
  - specialize (H0 Hnd) as [IHnd IHin]. split; [exact IHnd|].
    intros t. rewrite IHin, leaves_pushAll.
    cbn [flat_map Spec.stringLeaves Js.values]. rewrite in_app_iff.
    rewrite flat_map_concat_map, map_map, <- flat_map_concat_map. tauto.
Qed.

End UrlExtraction.

(** C8. For every JSON value, [extractHttpUrls] returns, without repeats,
    exactly the string leaves found anywhere in the value that the platform
    parses as a URL whose protocol is [http:] or [https:]; everything else
    (other leaves, other schemes, text that is no URL) is left out.  On the
    value of the specification's example the result is the two URLs
    [https://x.test/i.png] and [http://y.test/j.png], the second first. *)
Theorem extractHttpUrls_exactly_the_url_leaves `{Platform} :
  (forall v,
      NoDup (extractHttpUrls v)
      /\ forall s, In s (extractHttpUrls v)
                   <-> In s (Spec.stringLeaves v) /\ looksLikeUrl s = true)
  /\ (forall s, looksLikeUrl s = true
                <-> URL_protocol s = Some "http:"
                    \/ URL_protocol s = Some "https:")
  /\ (URL_protocol "https://x.test/i.png" = Some "https:" ->
      URL_protocol "not a url" = None ->
      URL_protocol "http://y.test/j.png" = Some "http:" ->
      URL_protocol "ftp://bad" = Some "ftp:" ->
      extractHttpUrls Demo.nested
      = ["http://y.test/j.png"; "https://x.test/i.png"]).
Proof.
  split; [|split].
  - intros v. unfold extractHttpUrls.
    destruct (extractLoop_spec [v] [] (NoDup_nil _)) as [Hnd Hin].
    split; [exact Hnd|]. intros s. rewrite Hin. cbn [flat_map In].
    rewrite app_nil_r. tauto.
  - intros s. unfold looksLikeUrl. destruct (URL_protocol s) as [p|].
    + rewrite orb_true_iff, !String.eqb_eq.
      split; intros [E|E]; [left|right|left|right]; congruence.
    + split; [discriminate|]. intros [E|E]; discriminate.
  - intros Hx Hn Hy Hf. unfold extractHttpUrls, Demo.nested.
    repeat (simp extractLoop;
            cbn [pushAll fold_left Js.values map snd]).
    unfold looksLikeUrl. rewrite Hx, Hn, Hy, Hf. reflexivity.
Qed.

Lemma extractHttpUrls_example_witness :
  extractHttpUrls (H := Demo.platform) Demo.nested
  = ["http://y.test/j.png"; "https://x.test/i.png"].
Proof.
  apply (proj2 (proj2 (@extractHttpUrls_exactly_the_url_leaves Demo.platform)));
    reflexivity.
Defined.

(** ** The client's base URL *)

Lemma endsWith_slash_split (s : string) :
  Str.endsWith s "/" = true -> s = Str.dropLast s ++ "/".
Proof.
  induction s as [|c rest IH]; [discriminate|].
  cbn [Str.endsWith]. destruct (String.eqb (String c rest) "/") eqn:E.
  - apply String.eqb_eq in E. inversion E; subst. reflexivity.
  - intros Hrest. specialize (IH Hrest). destruct rest as [|d rest'].
    + discriminate.
    + cbn [Str.dropLast append] in *. f_equal. exact IH.
Qed.

Lemma endsWith_append_slash (s : string) : Str.endsWith (s ++ "/") "/" = true.
Proof.
  induction s as [|c rest IH]; [reflexivity|].
  cbn [append Str.endsWith]. rewrite IH.
  destruct (String.eqb (String c (rest ++ "/")) "/"); reflexivity.
Qed.

Lemma dropLast_append_slash (s : string) : Str.dropLast (s ++ "/") = s.
Proof.
  induction s as [|c rest IH]; [reflexivity|].
  cbn [append Str.dropLast]. rewrite IH.
  destruct rest; reflexivity.
Qed.

(** C10, as amended. The constructor removes exactly one trailing slash.
    For a base URL that ends in one slash and not in two, a client built
    from it behaves on every request exactly as a client built from the
    base URL without that slash: same URLs, same outcome; and the stored
    base then does not end in a slash. *)
Theorem trailing_slash_is_stripped_once `{Platform} (env : environment)
    (key base path method : string) (body : option string) (w : world) :
  Str.endsWith base "/" = true ->
  Str.endsWith (Str.dropLast base) "/" = false ->
  request env (newKreaClient key base) path method body w
  = request env (newKreaClient key (Str.dropLast base)) path method body w
  /\ baseUrl (newKreaClient key base) = Str.dropLast base
  /\ base = Str.dropLast base ++ "/"
  /\ Str.endsWith (baseUrl (newKreaClient key base)) "/" = false
  /\ (forall b, baseUrl (newKreaClient key (b ++ "/")) = b).
Proof.
  intros Hone Hnot.
  assert (newKreaClient key base = newKreaClient key (Str.dropLast base)) as E.
  { unfold newKreaClient. rewrite Hone, Hnot. reflexivity. }
  repeat split.
  - rewrite E. reflexivity.
  - unfold newKreaClient. cbn [baseUrl]. rewrite Hone. reflexivity.
  - apply endsWith_slash_split, Hone.
  - unfold newKreaClient. cbn [baseUrl]. rewrite Hone. exact Hnot.
  - intros b. unfold newKreaClient. cbn [baseUrl].
    rewrite endsWith_append_slash. apply dropLast_append_slash.
Qed.

Lemma trailing_slash_witness :
  let env := Demo.environmentOf None [] 0 in
  let base := "https://api.krea.ai/v1/" in
  request (H := Demo.platform) env (newKreaClient "secret" base) "/jobs/j1"
    "GET" None (initial_world 0)
  = request (H := Demo.platform) env (newKreaClient "secret" (Str.dropLast base))
      "/jobs/j1" "GET" None (initial_world 0)
  /\ baseUrl (newKreaClient "secret" base) = Str.dropLast base
  /\ base = Str.dropLast base ++ "/"
  /\ Str.endsWith (baseUrl (newKreaClient "secret" base)) "/" = false
  /\ (forall b, baseUrl (newKreaClient "secret" (b ++ "/")) = b).
Proof.
  apply (@trailing_slash_is_stripped_once Demo.platform); reflexivity.
Defined.

(** C10 as stated fails on a base URL that ends in two slashes: built from
    it, a client keeps one slash and requests [.../v1//jobs/j1]; built from
    the base URL with one slash removed, a client strips the other one too
    and requests [.../v1/jobs/j1]. *)
Lemma double_slash_counterexample :
  let env := Demo.environmentOf None [] 0 in
  let base := "https://api.krea.ai/v1//" in
  Str.endsWith base "/" = true
  /\ Str.dropLast base = "https://api.krea.ai/v1/"
  /\ map req_url
       (sent (getJob (H := Demo.platform) env (newKreaClient "secret" base)
                "j1" (initial_world 0)))
     = ["https://api.krea.ai/v1//jobs/j1"]
  /\ map req_url
       (sent (getJob (H := Demo.platform) env
                (newKreaClient "secret" (Str.dropLast base)) "j1"
                (initial_world 0)))
     = ["https://api.krea.ai/v1/jobs/j1"].
Proof.
  repeat split.
Qed.

(** ** The transport *)

Section Transport.

Context `{Platform}.
Variable env : environment.
Variables (client : KreaClient) (path method : string) (body : option string).
Variable w : world.

(** The request [request] sends, and the world after its answer. *)
Let req : http_request :=
  {| req_method := method;
     req_url := baseUrl client ++ path;
     req_headers := [("Authorization", "Bearer " ++ apiKey client);
                     ("Content-Type", "application/json")];
     req_body := body |}.
Let k : nat := List.length (requests w).
Let w' : world :=
  {| clock := clock w + net_ms env k;
     requests := requests w ++ [req];
     sleeps := sleeps w |}.

Lemma resp_ok_range (r : http_response) :
  resp_ok r = true <-> 200 <= resp_status r <= 299.
Proof. unfold resp_ok. rewrite andb_true_iff, !Z.leb_le. tauto. Qed.

Lemma trim_blank (text : string) :
  (0 <? String.length (Str.trim text))%nat = false <-> Str.trim text = "".
Proof.
  destruct (Str.trim text); cbn; split; try discriminate; reflexivity.
Qed.

(** C7, as amended. [request] makes exactly one attempt: whatever the
    outcome, one request has been sent.  A value is returned only for a
    response whose status is between 200 and 299; any other status throws
    a [KreaApiError] with that status and the string form of the body
    value.  The body value is the parsed JSON, or the raw text when the
    text does not parse, provided the text is not blank; a body that is
    empty or white space only gives [undefined], and is not parsed. *)
Theorem request_single_attempt_and_status :
  sent (request env client path method body w) = (requests w ++ [req])%list
  /\ (forall v w1, request env client path method body w = Returned v w1 ->
        exists r, net env k req = Responds r
                  /\ 200 <= resp_status r <= 299 /\ w1 = w')
  /\ (forall message, net env k req = Rejects message ->
        request env client path method body w = Threw (FetchError message) w')
  /\ (forall r, net env k req = Responds r ->
        let text := resp_text r in
        let answer (jsonBody : value) :=
          if resp_ok r then Returned jsonBody w'
          else Threw (KreaApiError
                        ("Krea API error " ++ Str.ofZ (resp_status r))
                        (resp_status r) (stringifyUnknown jsonBody)) w' in
        (Str.trim text <> "" -> JSON_parse text = None ->
         request env client path method body w = answer (VString text)
         /\ stringifyUnknown (VString text) = Some text)
        /\ (forall parsed,
               Str.trim text <> "" -> JSON_parse text = Some parsed ->
               request env client path method body w = answer parsed)
        /\ (Str.trim text = "" ->
            request env client path method body w = answer VUndefined)).
Proof.
  unfold request, bind, fetch. fold k. fold req. fold w'.
  destruct (net env k req) as [r|message] eqn:Enet.
  - assert (forall jsonBody,
               (if negb (resp_ok r)
                then throw (KreaApiError
                              ("Krea API error " ++ Str.ofZ (resp_status r))
                              (resp_status r) (stringifyUnknown jsonBody))
                else ret jsonBody) w'
               = (if resp_ok r then Returned jsonBody w'
                  else Threw (KreaApiError
                                ("Krea API error " ++ Str.ofZ (resp_status r))
                                (resp_status r) (stringifyUnknown jsonBody)) w'))
      as Hanswer.
    { intros jsonBody. destruct (resp_ok r); reflexivity. }
    rewrite Hanswer. split; [|split; [|split]].
    + destruct (resp_ok r); reflexivity.
    + intros v w1. destruct (resp_ok r) eqn:Eok; [|discriminate].
      intros [= <- <-]. exists r. apply resp_ok_range in Eok. auto.
    + discriminate.
    + intros r' [= <-]. cbn zeta. split; [|split].
      * intros Hnb Hp. split; [|reflexivity].
        destruct ((0 <? String.length (Str.trim (resp_text r)))%nat) eqn:Eb.
        -- rewrite Hp. reflexivity.
        -- apply trim_blank in Eb. contradiction.
      * intros parsed Hnb Hp.
        destruct ((0 <? String.length (Str.trim (resp_text r)))%nat) eqn:Eb.
        -- rewrite Hp. reflexivity.
        -- apply trim_blank in Eb. contradiction.
      * intros Hb. apply trim_blank in Hb. rewrite Hb. reflexivity.
  - split; [|split; [|split]]; try discriminate.
    + reflexivity.
    + intros message' [= <-]. reflexivity.
Qed.

End Transport.

Lemma request_error_witness :
  let env := Demo.environmentOf None [Demo.respond 502 "Bad gateway"] 7 in
  request (H := Demo.platform) env Demo.client "/jobs/j1" "GET" None
    (initial_world 0)
  = Threw (KreaApiError "Krea API error 502" 502 (Some "Bad gateway"))
      {| clock := 7;
         requests := [{| req_method := "GET";
                         req_url := "https://api.krea.ai/v1/jobs/j1";
                         req_headers := [("Authorization", "Bearer secret");
                                         ("Content-Type", "application/json")];
                         req_body := None |}];
         sleeps := [] |}
  /\ stringifyUnknown (H := Demo.platform) (VString "Bad gateway")
     = Some "Bad gateway".
Proof.
  cbv zeta.
  pose proof (@request_single_attempt_and_status Demo.platform
                (Demo.environmentOf None [Demo.respond 502 "Bad gateway"] 7)
                Demo.client "/jobs/j1" "GET" None (initial_world 0)) as T.
  cbv zeta in T. destruct T as (_ & _ & _ & T).
  specialize (T {| resp_status := 502; resp_text := "Bad gateway" |} eq_refl).
  destruct T as (T & _ & _). apply T.
  - discriminate.
  - reflexivity.
Defined.

(** C7 as stated fails on a body that is not empty but blank: the answer
    [200] with the one-space body, which is no JSON text, gives [undefined]
    and not the raw text. *)
Lemma blank_body_counterexample :
  let env := Demo.environmentOf None [Demo.respond 200 " "] 7 in
  String.length " " = 1%nat
  /\ JSON_parse (Platform := Demo.platform) " " = None
  /\ exists w1,
      request (H := Demo.platform) env Demo.client "/jobs/j1" "GET" None
        (initial_world 0) = Returned VUndefined w1.
Proof.
  cbv zeta. split; [reflexivity|]. split; [reflexivity|].
  eexists. reflexivity.
Qed.

(** ** Payload fields *)

Lemma field_set (payload : list (string * value)) (key key' : string)
    (v : value) :
  Spec.field (Js.set payload key v) key'
  = if String.eqb key key' then Some v else Spec.field payload key'.
Proof.
  unfold Spec.field. induction payload as [|[k old] rest IH].
  - cbn. destruct (String.eqb key key'); reflexivity.
  - cbn [Js.set]. destruct (String.eqb k key) eqn:Ek.
    + apply String.eqb_eq in Ek. subst k. cbn [Js.hasKey Js.lookup].
      destruct (String.eqb key key'); reflexivity.
    + cbn [Js.hasKey Js.lookup]. destruct (String.eqb k key') eqn:Ek'.
      * apply String.eqb_eq in Ek'. subst k. rewrite String.eqb_sym, Ek.
        reflexivity.
      * cbn [orb]. exact IH.
Qed.

Lemma field_setDefined (payload : list (string * value)) (key key' : string)
    (o : option value) :
  Spec.field (setDefined payload key o) key'
  = match o with
    | Some v => if String.eqb key key' then Some v else Spec.field payload key'
    | None => Spec.field payload key'
    end.
Proof. destruct o; [apply field_set|reflexivity]. Qed.

Lemma field_absent (payload : list (string * value)) (key : string) :
  Js.hasKey payload key = false -> Spec.field payload key = None.
Proof. unfold Spec.field. intros ->. reflexivity. Qed.

(** ** The size pattern *)

Lemma splitAt_sound (sep : ascii) (s a b : string) :
  Str.splitAt sep s = Some (a, b) -> s = a ++ String sep b.
Proof.
  revert a. induction s as [|c rest IH]; intros a; cbn; [discriminate|].
  destruct (Ascii.eqb c sep) eqn:E.
  - apply Ascii.eqb_eq in E. subst c. intros [= <- <-]. reflexivity.
  - destruct (Str.splitAt sep rest) as [[l r]|]; [|discriminate].
    intros [= <- <-]. cbn. f_equal. apply IH. reflexivity.
Qed.

Lemma splitAt_digits (a b : string) :
  Str.allDigits a = true ->
  Str.splitAt "x"%char (a ++ String "x"%char b) = Some (a, b).
Proof.
  induction a as [|c rest IH]; cbn [append Str.splitAt Str.allDigits].
  - reflexivity.
  - intros Hd. apply andb_true_iff in Hd as [Hc Hrest].
    destruct (Ascii.eqb c "x") eqn:E.
    + apply Ascii.eqb_eq in E. subst c. discriminate.
    + rewrite (IH Hrest). reflexivity.
Qed.

Lemma positiveDecimal_digits (s : string) :
  positiveDecimal s = true -> Str.allDigits s = true.
Proof.
  destruct s; cbn [positiveDecimal]; [discriminate|].
  intros Hp. apply andb_true_iff in Hp. tauto.
Qed.

(** [Number] of a digit text is its decimal value as long as that is
    below [2^53]. *)
Lemma NumberOfDigits_exact (digits : string) :
  Str.digitsValue 0 digits < 2 ^ 53 ->
  Js.NumberOfDigits digits = VInt (Str.digitsValue 0 digits).
Proof.
  intros Hlt. unfold Js.NumberOfDigits, Js.roundToDouble.
  apply Z.ltb_lt in Hlt. rewrite Hlt. reflexivity.
Qed.

(** [parseSize] accepts exactly the texts made of two positive decimals
    around one letter x, and gives [Number] of each. *)
Lemma parseSize_pattern (s : string) (w h : value) :
  parseSize (Some s) = Some (w, h)
  <-> exists a b, s = a ++ "x" ++ b
                  /\ positiveDecimal a = true /\ positiveDecimal b = true
                  /\ w = Js.NumberOfDigits a /\ h = Js.NumberOfDigits b.
Proof.
  split.
  - unfold parseSize. destruct s as [|c rest]; [discriminate|].
    destruct (Str.splitAt "x" (String c rest)) as [[a b]|] eqn:E;
      [|discriminate].
    destruct (positiveDecimal a && positiveDecimal b) eqn:Ep; [|discriminate].
    intros [= <- <-]. apply andb_true_iff in Ep as [Ha Hb].
    exists a, b. apply splitAt_sound in E. auto.
  - intros (a & b & -> & Ha & Hb & -> & ->).
    unfold parseSize.
    destruct (a ++ "x" ++ b) as [|c rest] eqn:E.
    + destruct a; discriminate.
    + rewrite <- E. change (a ++ "x" ++ b) with (a ++ String "x"%char b).
      rewrite (splitAt_digits a b (positiveDecimal_digits a Ha)).
      rewrite Ha, Hb. reflexivity.
Qed.

(** ** The generate builder: width and height *)

Lemma field_setDefined_other (payload : list (string * value))
    (key key' : string) (o : option value) :
  String.eqb key key' = false ->
  Spec.field (setDefined payload key o) key' = Spec.field payload key'.
Proof.
  intros E. rewrite field_setDefined. destruct o; [rewrite E|]; reflexivity.
Qed.

Lemma field_set_other (payload : list (string * value))
    (key key' : string) (v : value) :
  String.eqb key key' = false ->
  Spec.field (Js.set payload key v) key' = Spec.field payload key'.
Proof. intros E. rewrite field_set, E. reflexivity. Qed.

Lemma field_set_same (payload : list (string * value)) (key : string)
    (v : value) :
  Spec.field (Js.set payload key v) key = Some v.
Proof. rewrite field_set, String.eqb_refl. reflexivity. Qed.

Ltac other_fields :=
  repeat first [ rewrite field_setDefined_other by reflexivity
               | rewrite field_set_other by reflexivity ].

Lemma catalog_fixes_no_dimension (key : ModelKey) :
  Js.hasKey (orElse (fixedPayload (KREA_IMAGE_MODELS key)) []) "width" = false
  /\ Js.hasKey (orElse (fixedPayload (KREA_IMAGE_MODELS key)) []) "height"
     = false.
Proof. destruct key; split; reflexivity. Qed.

(** C2, as amended. With a model whose fixed payload sets no dimension (as
    every model of the catalog), the copy of the generate builder in
    kreaClient.ts resolves the width as: the explicit input width, else the
    width parsed from a size string made of two positive decimals around
    the letter x, else the model default when width is a required field,
    else no width key; and the height in the same way, independently.  The
    parsed width is [Number] of the digits before the x: their decimal
    value when that is below [2^53].  The copy in index.ts does not parse
    the size string: there the width is the explicit width, else the
    default when required, and the size string is sent on under the key
    [size]. *)
Theorem dimension_precedence (input : GenerateInput) (model : ModelDefinition) :
  Js.hasKey (orElse (fixedPayload model) []) "width" = false ->
  Js.hasKey (orElse (fixedPayload model) []) "height" = false ->
  Spec.field (buildPayload input model) "width"
  = Spec.resolveDimension (option_map VInt (g_width input))
      (option_map fst (parseSize (g_size input)))
      (requires model width_field) (option_map VInt (defaultWidth model))
  /\ Spec.field (buildPayload input model) "height"
     = Spec.resolveDimension (option_map VInt (g_height input))
         (option_map snd (parseSize (g_size input)))
         (requires model height_field) (option_map VInt (defaultHeight model))
  /\ (forall s w h,
         parseSize (Some s) = Some (w, h)
         <-> exists a b, s = a ++ "x" ++ b
                         /\ positiveDecimal a = true
                         /\ positiveDecimal b = true
                         /\ w = Js.NumberOfDigits a
                         /\ h = Js.NumberOfDigits b)
  /\ (forall digits,
         Str.digitsValue 0 digits < 2 ^ 53 ->
         Js.NumberOfDigits digits = VInt (Str.digitsValue 0 digits))
  /\ Spec.field (Index.buildPayload input model) "width"
     = Spec.resolveDimension (option_map VInt (g_width input)) None
         (requires model width_field) (option_map VInt (defaultWidth model))
  /\ Spec.field (Index.buildPayload input model) "height"
     = Spec.resolveDimension (option_map VInt (g_height input)) None
         (requires model height_field) (option_map VInt (defaultHeight model))
  /\ (forall s, g_size input = Some s ->
                Spec.field (Index.buildPayload input model) "size"
                = Some (VString s)).
Proof.
  intros Hw Hh.
  pose proof (field_absent _ _ Hw) as Bw.
  pose proof (field_absent _ _ Hh) as Bh.
  split; [|split; [|split; [|split; [|split; [|split]]]]].
  - unfold buildPayload. cbv zeta.
    destruct (isQwenImage (g_model input)); other_fields.
    all: destruct (g_height input), (g_width input),
           (parseSize (g_size input)) as [[pw ph]|],
           (requires model height_field), (requires model width_field),
           (defaultHeight model), (defaultWidth model);
      cbn [option_map setDefined Spec.resolveDimension fst snd];
      other_fields; rewrite ?field_set_same, ?Bw; reflexivity.
  - unfold buildPayload. cbv zeta.
    destruct (isQwenImage (g_model input)); other_fields.
    all: destruct (g_height input), (g_width input),
           (parseSize (g_size input)) as [[pw ph]|],
           (requires model height_field), (requires model width_field),
           (defaultHeight model), (defaultWidth model);
      cbn [option_map setDefined Spec.resolveDimension fst snd];
      other_fields; rewrite ?field_set_same, ?Bh; reflexivity.
  - apply parseSize_pattern.
  - apply NumberOfDigits_exact.
  - unfold Index.buildPayload. cbv zeta. other_fields.
    destruct (g_height input), (g_width input),
      (requires model height_field), (requires model width_field),
      (defaultHeight model), (defaultWidth model);
      cbn [option_map setDefined Spec.resolveDimension];
      other_fields; rewrite ?field_set_same, ?Bw; reflexivity.
  - unfold Index.buildPayload. cbv zeta. other_fields.
    destruct (g_height input), (g_width input),
      (requires model height_field), (requires model width_field),
      (defaultHeight model), (defaultWidth model);
      cbn [option_map setDefined Spec.resolveDimension];
      other_fields; rewrite ?field_set_same, ?Bh; reflexivity.
  - intros s Hs. unfold Index.buildPayload. cbv zeta. other_fields.
    rewrite Hs. cbn [option_map setDefined]. apply field_set_same.
Qed.

Lemma dimension_precedence_witness :
  let model := KREA_IMAGE_MODELS flux_1_1_pro in
  let bare := Demo.generateInput flux_1_1_pro "x" None None None in
  let wide := Demo.generateInput flux_1_1_pro "x" (Some 512) None None in
  let sized :=
    Demo.generateInput flux_1_1_pro "x" None (Some 640) (Some "512x768") in
  (Spec.field (buildPayload bare model) "width" = Some (VInt 1024)
   /\ Spec.field (buildPayload bare model) "height" = Some (VInt 1024))
  /\ (Spec.field (buildPayload wide model) "width" = Some (VInt 512)
      /\ Spec.field (buildPayload wide model) "height" = Some (VInt 1024))
  /\ (Spec.field (buildPayload sized model) "width" = Some (VInt 512)
      /\ Spec.field (buildPayload sized model) "height" = Some (VInt 640)).
Proof.
  cbv zeta. split; [|split].
  - destruct (dimension_precedence
                (Demo.generateInput flux_1_1_pro "x" None None None)
                (KREA_IMAGE_MODELS flux_1_1_pro) eq_refl eq_refl)
      as (Hw & Hh & _).
    split; [exact Hw|exact Hh].
  - destruct (dimension_precedence
                (Demo.generateInput flux_1_1_pro "x" (Some 512) None None)
                (KREA_IMAGE_MODELS flux_1_1_pro) eq_refl eq_refl)
      as (Hw & Hh & _).
    split; [exact Hw|exact Hh].
  - destruct (dimension_precedence
                (Demo.generateInput flux_1_1_pro "x" None (Some 640)
                   (Some "512x768"))
                (KREA_IMAGE_MODELS flux_1_1_pro) eq_refl eq_refl)
      as (Hw & Hh & _).
    split; [exact Hw|exact Hh].
Defined.

(** C2 as stated fails on the builder of index.ts: with the size string
    [512x768] and no explicit dimension, for a model that requires both
    with defaults 1024, the payload has width and height 1024 and the
    size string under [size], where the size string parses as 512 by 768. *)
Lemma unparsed_size_counterexample :
  let model := KREA_IMAGE_MODELS flux_1_1_pro in
  let input := Demo.generateInput flux_1_1_pro "x" None None (Some "512x768") in
  parseSize (g_size input) = Some (VInt 512, VInt 768)
  /\ Spec.field (Index.buildPayload input model) "width" = Some (VInt 1024)
  /\ Spec.field (Index.buildPayload input model) "height" = Some (VInt 1024)
  /\ Spec.field (Index.buildPayload input model) "size"
     = Some (VString "512x768")
  /\ Spec.field (buildPayload input model) "width" = Some (VInt 512)
  /\ Spec.field (buildPayload input model) "height" = Some (VInt 768).
Proof.
  cbv zeta. repeat split.
Qed.

(** ** The upscale builder *)

Lemma setChecked_pass (payload : list (string * value)) (key : string)
    (o : option value) :
  setChecked payload key o (fun _ => Ok tt) = Ok (setDefined payload key o).
Proof. destruct o; reflexivity. Qed.

Lemma setChecked_fail (payload : list (string * value)) (key : string)
    (o : option value) (e : exn) :
  setChecked payload key o (fun _ => Throw e)
  = if Spec.isSome o then Throw e else Ok payload.
Proof. destruct o; reflexivity. Qed.

Lemma isSome_map {A B} (f : A -> B) (o : option A) :
  Spec.isSome (option_map f o) = Spec.isSome o.
Proof. destruct o; reflexivity. Qed.

(** One guarded assignment of the builder, against the table. *)
Ltac gate_step :=
  first
    [ rewrite setChecked_pass
    | rewrite setChecked_fail, isSome_map;
      match goal with
      | |- context [if Spec.isSome ?o then Throw _ else _] =>
          destruct o; cbn [Spec.isSome]
      end
    | match goal with
      | |- context [match u_creativity ?i with _ => _ end] =>
          destruct (u_creativity i) as [c|]; cbn [Spec.isSome andb throwIf];
          rewrite ?Z.gtb_ltb;
          try match goal with
              | |- context [6 <? c] => destruct (6 <? c)
              end
      end ];
  cbn [rbind throwIf]; try reflexivity.

(** The builder against the table: it fails with the error of the first
    violated constraint, in the order it meets them, and builds a request
    for the mode's endpoint when none is violated. *)
Lemma buildUpscaleRequest_first_violation (input : UpscaleInput) :
  match Spec.firstViolated input with
  | Some c => buildUpscaleRequest input = Throw (Error (Spec.message input c))
  | None =>
      exists r, buildUpscaleRequest input = Ok r
                /\ r_mode r = Spec.modeOf input
                /\ r_endpoint r = Spec.endpointOf (Spec.modeOf input)
  end.
Proof.
  unfold Spec.firstViolated, Spec.checkOrder, buildUpscaleRequest.
  cbv zeta. rewrite !Z.gtb_ltb.
  unfold Spec.message, resolveUpscaleModel.
  destruct (u_mode input) as [[| |]|] eqn:Em.
  all: cbn [find Spec.violated negb existsb Spec.allowedModes orb].
  all: unfold Spec.modeOf; rewrite Em.
  all: cbn [orElse isMode UpscaleMode_eqb Spec.maxDimensionOf Spec.supplied
              Spec.modelsOf Spec.defaultModelOf UpscaleMode_name negb andb].
  all: try (change (existsb (String.eqb (orElse (u_model input) "Reimagine"))
                      ["Reimagine"])
             with (String.eqb (orElse (u_model input) "Reimagine") "Reimagine"
                   || false)).
  all: rewrite ?andb_false_r, ?andb_true_r, ?orb_false_r.
  all: match goal with
       | |- context [throwIf ?c _] => destruct c; cbn [throwIf rbind]
       end; try reflexivity.
  all: match goal with
       | |- context [if negb ?c then Throw _ else Ok _] =>
           destruct c; cbn [negb rbind]
       end; try reflexivity.
  all: repeat gate_step.
  all: eexists; split; [reflexivity|split; reflexivity].
Qed.

Lemma find_first {A} (f : A -> bool) (l : list A) (x : A) :
  find f l = Some x ->
  f x = true
  /\ exists before after,
      l = (before ++ x :: after)%list
      /\ forall y, In y before -> f y = false.
Proof.
  induction l as [|a l IH]; cbn [find]; [discriminate|].
  destruct (f a) eqn:Ea.
  - intros [= <-]. split; [exact Ea|]. exists [], l. split; [reflexivity|].
    intros y Hy. contradiction Hy.
  - intros Hx. destruct (IH Hx) as (Hfx & before & after & -> & Hb).
    split; [exact Hfx|]. exists (a :: before), after. split; [reflexivity|].
    intros y [<-|Hy]; auto.
Qed.

Lemma find_none_or_some {A} (f : A -> bool) (l : list A) (x : A) :
  In x l -> f x = true -> exists y, find f l = Some y.
Proof.
  intros Hin Hx. destruct (find f l) as [y|] eqn:E; [eauto|].
  pose proof (find_none f l E x Hin) as Hf. congruence.
Qed.

Lemma gate_in_checkOrder (p : Spec.TuningParam) :
  In (Spec.Gate p) Spec.checkOrder.
Proof. destruct p; cbn; tauto. Qed.

Section UpscaleHandler.

Context `{Platform}.
Variable env : environment.

(** A request that fails validation is never sent. *)
Lemma upscale_rejected_before_network (fuel : nat) (input : UpscaleInput)
    (e : exn) (w : world) :
  buildUpscaleRequest input = Throw e ->
  krea_upscale_image env fuel input w = Threw e w.
Proof.
  intros E. unfold krea_upscale_image. cbv zeta. unfold bind at 1.
  rewrite E. reflexivity.
Qed.

End UpscaleHandler.

(** The error of the dimension limit is the error of no other
    constraint. *)
Lemma dimension_message_is_its_own (input : UpscaleInput)
    (c : Spec.Constraint) :
  Spec.message input c = Spec.message input Spec.DimensionLimit ->
  c = Spec.DimensionLimit.
Proof.
  destruct c as [| |p|]; [reflexivity| | |];
    unfold Spec.message; cbv zeta.
  - destruct (Spec.modeOf input); cbn [append]; discriminate.
  - destruct p; cbn [Spec.gateMessage Spec.paramName append]; discriminate.
  - cbn [append]. discriminate.
Qed.

(** Nothing in the table is violated when the dimensions are within the
    limit and no other constraint is violated. *)
Lemma within_limit_none_violated (input : UpscaleInput) :
  u_width input <= Spec.maxDimensionOf (Spec.modeOf input) ->
  u_height input <= Spec.maxDimensionOf (Spec.modeOf input) ->
  (forall c, In c Spec.checkOrder -> c <> Spec.DimensionLimit ->
             Spec.violated input c = false) ->
  Spec.firstViolated input = None.
Proof.
  intros Hw Hh Hrest. unfold Spec.firstViolated.
  destruct (find (Spec.violated input) Spec.checkOrder) as [c|] eqn:E;
    [|reflexivity].
  apply find_some in E as [Hin Hv].
  destruct c as [| |p|].
  - cbn [Spec.violated] in Hv. apply orb_true_iff in Hv.
    rewrite !Z.ltb_lt in Hv. lia.
  - rewrite (Hrest _ Hin) in Hv; discriminate.
  - rewrite (Hrest _ Hin) in Hv; discriminate.
  - rewrite (Hrest _ Hin) in Hv; discriminate.
Qed.

(** C6. The mode fixes the endpoint, one path per mode, and the largest
    width and height: 32000 in standard and generative mode, 10000 in
    bloom mode.  A width or height above the limit of the mode fails the
    build with the error of the dimension limit, and the handler then
    throws with nothing sent; the build fails with that error for no other
    input, so a width and a height equal to the limit are allowed.  A
    request that is built carries the endpoint of its mode and dimensions
    within the limit; and a request is built, for the endpoint of the
    mode, whenever the dimensions are within the limit and no other
    constraint is violated, as when nothing but the mode, the image and
    the dimensions is given. *)
Theorem upscale_mode_fixes_endpoint_and_limit `{Platform} (env : environment)
    (fuel : nat) (input : UpscaleInput) (w : world) :
  let mode := Spec.modeOf input in
  (Spec.maxDimensionOf mode < u_width input
   \/ Spec.maxDimensionOf mode < u_height input ->
   buildUpscaleRequest input
   = Throw (Error (Spec.message input Spec.DimensionLimit))
   /\ krea_upscale_image env fuel input w
      = Threw (Error (Spec.message input Spec.DimensionLimit)) w)
  /\ (buildUpscaleRequest input
      = Throw (Error (Spec.message input Spec.DimensionLimit)) ->
      Spec.maxDimensionOf mode < u_width input
      \/ Spec.maxDimensionOf mode < u_height input)
  /\ (forall r, buildUpscaleRequest input = Ok r ->
                r_mode r = mode
                /\ r_endpoint r = Spec.endpointOf mode
                /\ u_width input <= Spec.maxDimensionOf mode
                /\ u_height input <= Spec.maxDimensionOf mode)
  /\ (u_width input <= Spec.maxDimensionOf mode ->
      u_height input <= Spec.maxDimensionOf mode ->
      (forall c, In c Spec.checkOrder -> c <> Spec.DimensionLimit ->
                 Spec.violated input c = false) ->
      exists r, buildUpscaleRequest input = Ok r
                /\ r_mode r = mode
                /\ r_endpoint r = Spec.endpointOf mode)
  /\ (forall m width height,
         width <= Spec.maxDimensionOf m ->
         height <= Spec.maxDimensionOf m ->
         exists r,
           buildUpscaleRequest (Demo.upscaleInput (Some m) width height None None)
           = Ok r
           /\ r_mode r = m
           /\ r_endpoint r = Spec.endpointOf m)
  /\ (Spec.endpointOf standard = "/generate/enhance/topaz/standard-enhance"
      /\ Spec.endpointOf generative
         = "/generate/enhance/topaz/generative-enhance"
      /\ Spec.endpointOf bloom = "/generate/enhance/topaz/bloom-enhance")
  /\ (forall m1 m2, Spec.endpointOf m1 = Spec.endpointOf m2 -> m1 = m2)
  /\ (forall m, Spec.maxDimensionOf m
                = if UpscaleMode_eqb m bloom then 10000 else 32000).
Proof.
  cbv zeta. pose proof (buildUpscaleRequest_first_violation input) as R.
  split; [|split; [|split; [|split; [|split; [|split; [|split]]]]]].
  - intros Hbig.
    assert (Spec.firstViolated input = Some Spec.DimensionLimit) as E.
    { unfold Spec.firstViolated, Spec.checkOrder. cbn [find Spec.violated].
      replace ((Spec.maxDimensionOf (Spec.modeOf input) <? u_width input)
               || (Spec.maxDimensionOf (Spec.modeOf input) <? u_height input))
        with true; [reflexivity|].
      symmetry. apply orb_true_iff. rewrite !Z.ltb_lt. exact Hbig. }
    rewrite E in R. split; [exact R|].
    apply upscale_rejected_before_network, R.
  - intros Hthrow. destruct (Spec.firstViolated input) as [c|] eqn:E.
    + rewrite Hthrow in R. injection R as R.
      symmetry in R. apply dimension_message_is_its_own in R. subst c.
      apply find_some in E as [_ Hv]. cbn [Spec.violated] in Hv.
      apply orb_true_iff in Hv. rewrite !Z.ltb_lt in Hv. exact Hv.
    + destruct R as (r & Hr & _). congruence.
  - intros r Hr. destruct (Spec.firstViolated input) as [c|] eqn:E.
    + congruence.
    + destruct R as (r' & Hr' & Hm & He).
      assert (r' = r) as -> by congruence.
      split; [exact Hm|]. split; [exact He|].
      pose proof (find_none _ _ E Spec.DimensionLimit) as Hd.
      cbn [Spec.violated] in Hd.
      assert (In Spec.DimensionLimit Spec.checkOrder) as Hin by (cbn; tauto).
      specialize (Hd Hin). apply orb_false_iff in Hd as [Hw Hh].
      apply Z.ltb_ge in Hw, Hh. split; assumption.
  - intros Hw Hh Hrest.
    rewrite (within_limit_none_violated input Hw Hh Hrest) in R. exact R.
  - intros m width height Hw Hh.
    pose proof (buildUpscaleRequest_first_violation
                  (Demo.upscaleInput (Some m) width height None None)) as P.
    rewrite within_limit_none_violated in P; [exact P|exact Hw|exact Hh|].
    intros c Hin Hc. cbn [Spec.checkOrder In] in Hin.
    repeat (destruct Hin as [<-|Hin]; [try congruence; destruct m; reflexivity|]).
    contradiction.
  - repeat split.
  - intros [] []; cbn; intros E; try reflexivity; discriminate.
  - intros []; reflexivity.
Qed.

Lemma bloom_width_20000_witness :
  let input := Demo.upscaleInput (Some bloom) 20000 1000 None None in
  let edge := Demo.upscaleInput (Some bloom) 10000 10000 None None in
  (buildUpscaleRequest input
   = Throw (Error "Mode bloom supports up to 10000x10000. Received 20000x1000.")
   /\ krea_upscale_image (H := Demo.platform) (Demo.environmentOf None [] 0)
        0 input (initial_world 0)
      = Threw (Error "Mode bloom supports up to 10000x10000. Received 20000x1000.")
          (initial_world 0))
  /\ exists r, buildUpscaleRequest edge = Ok r
               /\ r_mode r = bloom
               /\ r_endpoint r = "/generate/enhance/topaz/bloom-enhance".
Proof.
  cbv zeta. split.
  - apply (proj1 (@upscale_mode_fixes_endpoint_and_limit Demo.platform
                    (Demo.environmentOf None [] 0) 0
                    (Demo.upscaleInput (Some bloom) 20000 1000 None None)
                    (initial_world 0))).
    left. reflexivity.
  - destruct (@upscale_mode_fixes_endpoint_and_limit Demo.platform
                (Demo.environmentOf None [] 0) 0
                (Demo.upscaleInput (Some bloom) 20000 1000 None None)
                (initial_world 0)) as (_ & _ & _ & _ & Hplain & _).
    apply (Hplain bloom 10000 10000); discriminate.
Defined.

(** C1. Supplying a gated tuning parameter to a mode outside the ones the
    table allows always fails the build, and the handler then throws with
    nothing sent.  The error is the one of the first violated constraint,
    in the order the builder meets them (dimension limit, model name, then
    the parameters), and nothing later is looked at; the error of a gated
    parameter begins with the name of that parameter.  In generative mode
    a creativity above 6 violates the range constraint, and a creativity
    of 6 violates none: with no other constraint violated the build
    succeeds. *)
Theorem upscale_gating_fails_fast `{Platform} (env : environment)
    (fuel : nat) (input : UpscaleInput) (w : world) :
  (forall p, Spec.violated input (Spec.Gate p) = true ->
     exists c, Spec.firstViolated input = Some c
               /\ buildUpscaleRequest input
                  = Throw (Error (Spec.message input c))
               /\ krea_upscale_image env fuel input w
                  = Threw (Error (Spec.message input c)) w)
  /\ (forall c, Spec.firstViolated input = Some c ->
        buildUpscaleRequest input = Throw (Error (Spec.message input c))
        /\ Spec.violated input c = true
        /\ exists before after,
            Spec.checkOrder = (before ++ c :: after)%list
            /\ forall c', In c' before -> Spec.violated input c' = false)
  /\ (forall p, String.prefix (Spec.paramName p)
                  (Spec.message input (Spec.Gate p)) = true)
  /\ (forall c, Spec.modeOf input = generative -> u_creativity input = Some c ->
        (6 < c ->
         exists k, Spec.firstViolated input = Some k
                   /\ buildUpscaleRequest input
                      = Throw (Error (Spec.message input k)))
        /\ (c <= 6 ->
            Spec.violated input (Spec.Gate Spec.creativity) = false
            /\ Spec.violated input Spec.CreativityRange = false))
  /\ ((forall c, In c Spec.checkOrder -> Spec.violated input c = false) ->
      exists r, buildUpscaleRequest input = Ok r).
Proof.
  pose proof (buildUpscaleRequest_first_violation input) as R.
  split; [|split; [|split; [|split]]].
  - intros p Hp.
    destruct (find_none_or_some (Spec.violated input) Spec.checkOrder
                (Spec.Gate p) (gate_in_checkOrder p) Hp) as [c Hc].
    exists c. fold (Spec.firstViolated input) in Hc. rewrite Hc in R.
    split; [exact Hc|]. split; [exact R|].
    apply upscale_rejected_before_network, R.
  - intros c Hc. rewrite Hc in R. split; [exact R|].
    apply find_first. exact Hc.
  - intros p. destruct p; reflexivity.
  - intros c Hm Hc. split.
    + intros Hbig.
      assert (Spec.violated input Spec.CreativityRange = true) as Hv.
      { cbn [Spec.violated]. rewrite Hm, Hc. apply Z.ltb_lt, Hbig. }
      assert (In Spec.CreativityRange Spec.checkOrder) as Hin.
      { cbn. tauto. }
      destruct (find_none_or_some _ _ _ Hin Hv) as [k Hk].
      exists k. fold (Spec.firstViolated input) in Hk. rewrite Hk in R.
      split; [exact Hk|exact R].
    + intros Hsmall. cbn [Spec.violated]. rewrite Hm, Hc.
      split; [apply andb_false_r|apply Z.ltb_ge, Hsmall].
  - intros Hall. destruct (Spec.firstViolated input) as [c|] eqn:E.
    + apply find_some in E as [Hin Hv]. rewrite (Hall c Hin) in Hv.
      discriminate.
    + destruct R as (r & Hr & _). exists r. exact Hr.
Qed.

Lemma upscale_gating_witness :
  let env := Demo.environmentOf None [] 0 in
  let sharp := Demo.upscaleInput (Some bloom) 1024 1024 (Some (1 # 2)) None in
  let six := Demo.upscaleInput (Some generative) 1024 1024 None (Some 6) in
  let seven := Demo.upscaleInput (Some generative) 1024 1024 None (Some 7) in
  let plain := Demo.upscaleInput (Some standard) 1024 1024 None (Some 3) in
  (exists c, Spec.firstViolated sharp = Some c
             /\ buildUpscaleRequest sharp
                = Throw (Error (Spec.message sharp c))
             /\ krea_upscale_image (H := Demo.platform) env 0 sharp
                  (initial_world 0)
                = Threw (Error (Spec.message sharp c)) (initial_world 0))
  /\ buildUpscaleRequest sharp
     = Throw (Error "sharpen is not supported in bloom mode.")
  /\ buildUpscaleRequest plain
     = Throw (Error "creativity is only supported in generative or bloom mode.")
  /\ buildUpscaleRequest seven
     = Throw (Error "generative mode supports creativity from 1 to 6.")
  /\ exists r, buildUpscaleRequest six = Ok r.
Proof.
  cbv zeta. split; [|split; [|split; [|split]]].
  - apply (proj1 (@upscale_gating_fails_fast Demo.platform
                    (Demo.environmentOf None [] 0) 0
                    (Demo.upscaleInput (Some bloom) 1024 1024 (Some (1 # 2)) None)
                    (initial_world 0)) Spec.sharpen).
    reflexivity.
  - apply (proj1 (proj2 (@upscale_gating_fails_fast Demo.platform
                           (Demo.environmentOf None [] 0) 0
                           (Demo.upscaleInput (Some bloom) 1024 1024
                              (Some (1 # 2)) None)
                           (initial_world 0))) (Spec.Gate Spec.sharpen)).
    reflexivity.
  - apply (proj1 (proj2 (@upscale_gating_fails_fast Demo.platform
                           (Demo.environmentOf None [] 0) 0
                           (Demo.upscaleInput (Some standard) 1024 1024
                              None (Some 3))
                           (initial_world 0))) (Spec.Gate Spec.creativity)).
    reflexivity.
  - apply (proj1 (proj2 (@upscale_gating_fails_fast Demo.platform
                           (Demo.environmentOf None [] 0) 0
                           (Demo.upscaleInput (Some generative) 1024 1024
                              None (Some 7))
                           (initial_world 0))) Spec.CreativityRange).
    reflexivity.
  - apply (proj2 (proj2 (proj2 (proj2
             (@upscale_gating_fails_fast Demo.platform
                (Demo.environmentOf None [] 0) 0
                (Demo.upscaleInput (Some generative) 1024 1024 None (Some 6))
                (initial_world 0)))))).
    intros c Hin. cbn in Hin.
    repeat (destruct Hin as [<-|Hin]; [reflexivity|]). contradiction Hin.
Defined.

(** ** The job completion poller *)

Section Poller.

Context `{Platform}.
Variable env : environment.
Variables (client : KreaClient) (jobId : string).
Variables (pollIntervalMs timeoutMs : Z).

Lemma request_outcome (c : KreaClient) (path method : string)
    (body : option string) (w : world) :
  exists req,
    (exists v, request env c path method body w = Returned v (afterFetch env w req))
    \/ (exists e, request env c path method body w = Threw e (afterFetch env w req)
                  /\ Spec.transportError e).
Proof.
  eexists. unfold request, bind, fetch.
  match goal with
  | |- context [net env ?k ?r] => destruct (net env k r) as [r'|message]
  end.
  - destruct (resp_ok r'); cbn [negb].
    + left. eexists. reflexivity.
    + right. eexists. split; [reflexivity|exact I].
  - right. eexists. split; [reflexivity|exact I].
Qed.

Lemma lift_ok {A} (r : result A) (a : A) (w : world) :
  r = Ok a -> lift r w = Returned a w.
Proof. intros ->. reflexivity. Qed.

(** What one run of the loop can end in, from any world and with any
    amount of fuel. *)
Lemma pollLoop_outcome (deadline : Z) (fuel : nat) :
  forall w,
    match pollLoop env fuel client jobId pollIntervalMs deadline timeoutMs w with
    | Returned r w' =>
        Spec.terminalJob (job r)
        /\ pickJob (rawResponse r) = Ok (job r)
        /\ exists n, sleeps w' = (sleeps w ++ repeat pollIntervalMs n)%list
                     /\ List.length (requests w')
                        = (List.length (requests w) + S n)%nat
    | Threw e w' =>
        exists n,
          sleeps w' = (sleeps w ++ repeat pollIntervalMs n)%list
          /\ ((e = Spec.timeoutError jobId timeoutMs
               /\ deadline <= clock w'
               /\ List.length (requests w')
                  = (List.length (requests w) + n)%nat)
              \/ (Spec.transportError e
                  /\ List.length (requests w')
                     = (List.length (requests w) + S n)%nat))
    | Unfinished => True
    end.
Proof.
  induction fuel as [|fuel' IH]; intros w; cbn [pollLoop]; [exact I|].
  unfold bind at 1, Date_now.
  destruct (clock w <? deadline) eqn:Enow.
  - unfold bind at 1, getJob.
    destruct (request_outcome client ("/jobs/" ++ encodeURIComponent jobId)
                "GET" None w) as [req [[raw ->]|[e [-> He]]]].
    + destruct (pickJob_total raw) as [j [Hj _]].
      unfold bind at 1. rewrite (lift_ok _ _ _ Hj).
      destruct (readString_total ["status"] j) as [st Hst].
      unfold bind at 1. rewrite (lift_ok _ _ _ Hst).
      destruct (isTerminalStatus (normalizeStatus (ofReadString st))) eqn:Et.
      * cbn [ret job rawResponse]. split; [exists st; auto|].
        split; [exact Hj|]. exists 0%nat. cbn [repeat afterFetch requests sleeps].
        rewrite app_nil_r, length_app. split; [reflexivity|].
        cbn [List.length]. lia.
      * unfold bind at 1, sleep.
        match goal with
        | |- context [pollLoop env fuel' _ _ _ _ _ ?w2] =>
            specialize (IH w2);
            destruct (pollLoop env fuel' client jobId pollIntervalMs deadline
                        timeoutMs w2) as [r w'|e w'|]
        end; [| |exact I].
        -- destruct IH as (Ht & Hp & n & Hs & Hr). split; [exact Ht|].
           split; [exact Hp|]. exists (S n).
           cbn [sleeps requests afterFetch] in Hs, Hr.
           rewrite Hs, Hr, <- app_assoc, length_app. cbn [repeat app List.length].
           split; [reflexivity|lia].
        -- destruct IH as (n & Hs & Hcase). exists (S n).
           cbn [sleeps requests afterFetch] in Hs, Hcase.
           rewrite Hs, <- app_assoc. cbn [repeat app]. split; [reflexivity|].
           rewrite length_app in Hcase. cbn [List.length] in Hcase.
           destruct Hcase as [(He & Hd & Hr)|(He & Hr)]; [left|right].
           ++ split; [exact He|]. split; [exact Hd|]. lia.
           ++ split; [exact He|]. lia.
    + exists 0%nat. cbn [repeat afterFetch requests sleeps].
      rewrite app_nil_r, length_app. split; [reflexivity|]. right.
      split; [exact He|]. cbn [List.length]. lia.
  - cbn [throw]. exists 0%nat. cbn [repeat]. rewrite app_nil_r.
    split; [reflexivity|]. left. split; [reflexivity|].
    apply Z.ltb_ge in Enow. split; [exact Enow|lia].
Qed.

(** The loop goes through rounds in which the job is not finished and is
    then where they left it. *)
Lemma pollLoop_after_quiet (deadline : Z) (n : nat) (w w' : world) :
  Spec.quietRounds env client jobId pollIntervalMs deadline n w w' ->
  forall fuel,
    pollLoop env (n + fuel) client jobId pollIntervalMs deadline timeoutMs w
    = pollLoop env fuel client jobId pollIntervalMs deadline timeoutMs w'.
Proof.
  intros Hq.
  induction Hq as [w0|n w0 w1 w2 w3 raw j st Hnow Hget Hpick Hst Hnon Hsleep
                     Hq IH]; intros fuel; [reflexivity|].
  cbn [Nat.add pollLoop]. unfold bind at 1, Date_now.
  apply Z.ltb_lt in Hnow. rewrite Hnow.
  unfold bind at 1. rewrite Hget.
  unfold bind at 1. rewrite (lift_ok _ _ _ Hpick).
  unfold bind at 1. rewrite (lift_ok _ _ _ Hst). rewrite Hnon.
  unfold bind at 1. rewrite Hsleep. apply IH.
Qed.

(** One round of the loop: past the deadline it throws the timeout error;
    before it, it fetches the job, passes on the error of the fetch, and
    returns a job that is terminal with the response it came in. *)
Lemma pollLoop_round (deadline : Z) (fuel : nat) (w : world) :
  (deadline <= clock w ->
   pollLoop env (S fuel) client jobId pollIntervalMs deadline timeoutMs w
   = Threw (Spec.timeoutError jobId timeoutMs) w)
  /\ (clock w < deadline ->
      (forall e w1,
          getJob env client jobId w = Threw e w1 ->
          pollLoop env (S fuel) client jobId pollIntervalMs deadline timeoutMs w
          = Threw e w1)
      /\ (forall raw w1 j,
             getJob env client jobId w = Returned raw w1 ->
             pickJob raw = Ok j ->
             Spec.terminalJob j ->
             pollLoop env (S fuel) client jobId pollIntervalMs deadline
               timeoutMs w
             = Returned {| job := j; rawResponse := raw |} w1)).
Proof.
  split.
  - intros Hlate. cbn [pollLoop]. unfold bind at 1, Date_now.
    apply Z.ltb_ge in Hlate. rewrite Hlate. reflexivity.
  - intros Hnow. apply Z.ltb_lt in Hnow. split.
    + intros e w1 Hget. cbn [pollLoop]. unfold bind at 1, Date_now.
      rewrite Hnow. unfold bind at 1. rewrite Hget. reflexivity.
    + intros raw w1 j Hget Hpick (st & Hst & Hterm).
      cbn [pollLoop]. unfold bind at 1, Date_now. rewrite Hnow.
      unfold bind at 1. rewrite Hget.
      unfold bind at 1. rewrite (lift_ok _ _ _ Hpick).
      unfold bind at 1. rewrite (lift_ok _ _ _ Hst). rewrite Hterm.
      reflexivity.
Qed.

End Poller.

Section PollerBounds.

Context `{Platform}.
Variables (client : KreaClient) (jobId : string).
Variables (pollIntervalMs timeoutMs : Z).

(** With time moving forward and a positive interval, fuel beyond the
    milliseconds left to the deadline is never used up. *)
Lemma pollLoop_finishes (env : environment) (deadline : Z) :
  Spec.timePasses env -> 1 <= pollIntervalMs ->
  forall fuel w,
    (Z.to_nat (deadline - clock w) < fuel)%nat ->
    pollLoop env fuel client jobId pollIntervalMs deadline timeoutMs w
    <> Unfinished.
Proof.
  intros [Hnet Hlag] Hp. induction fuel as [|fuel' IH]; intros w Hfuel;
    [lia|]. cbn [pollLoop]. unfold bind at 1, Date_now.
  destruct (clock w <? deadline) eqn:Enow; [|discriminate].
  apply Z.ltb_lt in Enow. unfold bind at 1, getJob.
  destruct (request_outcome env client ("/jobs/" ++ encodeURIComponent jobId)
              "GET" None w) as [req [[raw ->]|[e [-> He]]]]; [|discriminate].
  destruct (pickJob_total raw) as [j [Hj _]].
  unfold bind at 1. rewrite (lift_ok _ _ _ Hj).
  destruct (readString_total ["status"] j) as [st Hst].
  unfold bind at 1. rewrite (lift_ok _ _ _ Hst).
  destruct (isTerminalStatus (normalizeStatus (ofReadString st)));
    [discriminate|].
  unfold bind at 1, sleep. apply IH. cbn [clock sleeps afterFetch].
  specialize (Hnet (List.length (requests w))).
  specialize (Hlag (List.length (sleeps (afterFetch env w req)))).
  cbn [sleeps afterFetch] in Hlag. lia.
Qed.

(** An environment that answers every request at once with an empty 200
    response, and whose timers fire on time. *)
Let idle : environment := Demo.environmentOf None [] 0.

Lemma idle_getJob (w : world) :
  exists req,
    getJob idle client jobId w
    = Returned VUndefined
        {| clock := clock w; requests := requests w ++ [req];
           sleeps := sleeps w |}.
Proof.
  eexists. unfold getJob, request, bind, fetch, idle, Demo.environmentOf.
  cbn [net net_ms].
  replace (nth (List.length (requests w)) [] (Demo.respond 200 ""))
    with (Demo.respond 200 "") by (destruct (List.length (requests w)); reflexivity).
  cbn. rewrite Z.add_0_r. reflexivity.
Qed.

(** The loop has no bound of its own: against a job that never finishes
    it goes round once per interval until the deadline. *)
Lemma idle_poll_runs_to_deadline (n : nat) :
  1 <= pollIntervalMs ->
  forall w,
    exists w',
      pollLoop idle (S n) client jobId pollIntervalMs
        (clock w + Z.of_nat n * pollIntervalMs) timeoutMs w
      = Threw (Spec.timeoutError jobId timeoutMs) w'
      /\ List.length (requests w') = (List.length (requests w) + n)%nat
      /\ sleeps w' = (sleeps w ++ repeat pollIntervalMs n)%list
      /\ clock w' = clock w + Z.of_nat n * pollIntervalMs.
Proof.
  intros Hp. induction n as [|n IH]; intros w.
  - exists w. cbn [pollLoop]. unfold bind at 1, Date_now.
    replace (clock w <? clock w + Z.of_nat 0 * pollIntervalMs) with false
      by (symmetry; apply Z.ltb_ge; lia).
    cbn [repeat]. rewrite app_nil_r. repeat split; lia.
  - remember (S n) as fuel eqn:Efuel. cbn [pollLoop].
    unfold bind at 1, Date_now.
    replace (clock w <? clock w + Z.of_nat fuel * pollIntervalMs) with true
      by (symmetry; apply Z.ltb_lt; nia).
    destruct (idle_getJob w) as [req Hget].
    unfold bind at 1. rewrite Hget.
    unfold bind at 1. cbn [pickJob Js.truthy andb lift ret].
    unfold bind at 1. cbn [readString readUnknown Js.truthy Js.typeofObject
                             negb orb Js.get Js.lookup rbind lift ret
                             ofReadString normalizeStatus].
    change (isTerminalStatus "unknown") with false. cbv iota.
    unfold bind at 1, sleep. cbn [clock requests sleeps].
    match goal with
    | |- context [pollLoop idle fuel _ _ _ _ _ ?w2] =>
        destruct (IH w2) as (w' & Hrun & Hreq & Hsl & Hcl);
        cbn [clock requests sleeps] in Hrun, Hreq, Hsl, Hcl
    end.
    exists w'. subst fuel.
    replace (clock w + Z.of_nat (S n) * pollIntervalMs)
      with (clock w + pollIntervalMs + timer_lag idle (List.length (sleeps w))
            + Z.of_nat n * pollIntervalMs)
      by (unfold idle, Demo.environmentOf; cbn [timer_lag]; lia).
    split; [exact Hrun|]. rewrite Hreq, Hsl, Hcl, length_app, <- app_assoc.
    cbn [List.length repeat app]. unfold idle, Demo.environmentOf.
    cbn [timer_lag]. repeat split; lia.
Qed.

End PollerBounds.

(** C4. When the status of the job record given to the poller normalises
    to a terminal value (completed, failed or cancelled), the poller
    returns that record at once: the world is unchanged, so no request is
    sent and no timer is waited for, whatever the fuel. *)
Theorem terminal_initial_job_returns_at_once `{Platform} (env : environment)
    (fuel : nat) (client : KreaClient) (jobId : string) (initial : value)
    (pollIntervalMs timeoutMs : Z) (w : world) (status : option string) :
  let initialJob := orElse (asObject initial) (VObject []) in
  readString initialJob ["status"] = Ok status ->
  isTerminalStatus (normalizeStatus (ofReadString status)) = true ->
  waitForJobCompletion env fuel client jobId initial pollIntervalMs timeoutMs w
  = Returned {| job := initialJob;
                rawResponse := VObject [("job", initialJob)] |} w
  /\ initialJob = initial
  /\ sent (waitForJobCompletion env fuel client jobId initial pollIntervalMs
             timeoutMs w) = requests w
  /\ (forall s, isTerminalStatus s = true
                <-> s = "completed" \/ s = "failed" \/ s = "cancelled").
Proof.
  cbv zeta. intros Hst Hterm.
  assert (waitForJobCompletion env fuel client jobId initial pollIntervalMs
            timeoutMs w
          = Returned {| job := orElse (asObject initial) (VObject []);
                        rawResponse :=
                          VObject [("job", orElse (asObject initial)
                                             (VObject []))] |} w) as E.
  { unfold waitForJobCompletion. cbv zeta. unfold bind at 1.
    rewrite (lift_ok _ _ _ Hst), Hterm. reflexivity. }
  split; [exact E|]. split; [|split; [rewrite E; reflexivity|]].
  - revert Hst. unfold asObject.
    destruct (Js.truthy initial && Js.typeofObject initial);
      cbn [orElse]; [reflexivity|].
    intros [= <-]. discriminate Hterm.
  - intros s. unfold isTerminalStatus. rewrite !orb_true_iff, !String.eqb_eq.
    tauto.
Qed.

Lemma terminal_initial_job_witness :
  let initial := VObject [("id", VString "j1"); ("status", VString "Completed")] in
  let run :=
    waitForJobCompletion (H := Demo.platform) (Demo.environmentOf None [] 0)
      0 Demo.client "j1" initial 2000 180000 (initial_world 0) in
  run = Returned {| job := initial; rawResponse := VObject [("job", initial)] |}
          (initial_world 0)
  /\ initial = initial
  /\ sent run = []
  /\ (forall s, isTerminalStatus s = true
                <-> s = "completed" \/ s = "failed" \/ s = "cancelled").
Proof.
  cbv zeta.
  apply (@terminal_initial_job_returns_at_once Demo.platform
           (Demo.environmentOf None [] 0) 0 Demo.client "j1"
           (VObject [("id", VString "j1"); ("status", VString "Completed")])
           2000 180000 (initial_world 0) (Some "Completed"));
    reflexivity.
Defined.

(** C5. The poller never returns a job whose status is not terminal.
    When the initial status is not terminal, the deadline is the time at
    the start plus the timeout, and the poller goes round: after any
    number of rounds in which the job fetched was not terminal and the
    poll interval was waited for, a round that starts at or after the
    deadline throws the timeout error, which names the job id and the
    timeout; a round that starts before the deadline fetches the job,
    passes on the error of the fetch if it fails, and returns the job with
    the response it came in if its status is terminal (completed, failed
    or cancelled, in any letter case).  So every run ends in one of these
    three ways, after waits that are all the poll interval.  With time
    moving forward and an interval of at least one millisecond the loop
    finishes; and it has no bound on its rounds other than the
    deadline. *)
Theorem poller_returns_terminal_or_times_out `{Platform} (env : environment)
    (client : KreaClient) (jobId : string) (initial : value)
    (pollIntervalMs timeoutMs : Z) :
  let initialJob := orElse (asObject initial) (VObject []) in
  let run fuel w :=
    waitForJobCompletion env fuel client jobId initial pollIntervalMs
      timeoutMs w in
  (forall fuel w r w',
      run fuel w = Returned r w' ->
      Spec.terminalJob (job r) /\ pickJob (rawResponse r) = Ok (job r))
  /\ (forall status,
         readString initialJob ["status"] = Ok status ->
         isTerminalStatus (normalizeStatus (ofReadString status)) = false ->
         forall n w w',
           Spec.quietRounds env client jobId pollIntervalMs
             (clock w + timeoutMs) n w w' ->
           forall fuel,
             (clock w + timeoutMs <= clock w' ->
              run (n + S fuel)%nat w
              = Threw (Spec.timeoutError jobId timeoutMs) w')
             /\ (clock w' < clock w + timeoutMs ->
                 (forall e w'',
                     getJob env client jobId w' = Threw e w'' ->
                     run (n + S fuel)%nat w = Threw e w'')
                 /\ (forall raw w'' j,
                        getJob env client jobId w' = Returned raw w'' ->
                        pickJob raw = Ok j ->
                        Spec.terminalJob j ->
                        run (n + S fuel)%nat w
                        = Returned {| job := j; rawResponse := raw |} w'')))
  /\ (forall status,
         readString initialJob ["status"] = Ok status ->
         isTerminalStatus (normalizeStatus (ofReadString status)) = false ->
         forall fuel w,
           match run fuel w with
           | Returned r w' =>
               exists n,
                 sleeps w' = (sleeps w ++ repeat pollIntervalMs n)%list
                 /\ List.length (requests w')
                    = (List.length (requests w) + S n)%nat
           | Threw e w' =>
               exists n,
                 sleeps w' = (sleeps w ++ repeat pollIntervalMs n)%list
                 /\ ((e = Spec.timeoutError jobId timeoutMs
                      /\ clock w + timeoutMs <= clock w'
                      /\ List.length (requests w')
                         = (List.length (requests w) + n)%nat)
                     \/ (Spec.transportError e
                         /\ List.length (requests w')
                            = (List.length (requests w) + S n)%nat))
           | Unfinished => True
           end)
  /\ (Spec.timePasses env -> 1 <= pollIntervalMs ->
      forall fuel w, (Z.to_nat timeoutMs < fuel)%nat -> run fuel w <> Unfinished)
  /\ (1 <= pollIntervalMs ->
      forall n : nat,
        exists w',
          waitForJobCompletion (Demo.environmentOf None [] 0) (S n) client
            jobId (VObject []) pollIntervalMs (Z.of_nat n * pollIntervalMs)
            (initial_world 0)
          = Threw (Spec.timeoutError jobId (Z.of_nat n * pollIntervalMs)) w'
          /\ List.length (requests w') = n
          /\ sleeps w' = repeat pollIntervalMs n)
  /\ Spec.timeoutError jobId timeoutMs
     = Error ("Job " ++ jobId ++ " did not reach a terminal status within "
                ++ Str.ofZ timeoutMs ++ "ms.").
Proof.
  cbv zeta.
  destruct (readString_total ["status"] (orElse (asObject initial) (VObject [])))
    as [st Hst].
  assert (forall fuel w,
             waitForJobCompletion env fuel client jobId initial pollIntervalMs
               timeoutMs w
             = if isTerminalStatus (normalizeStatus (ofReadString st))
               then Returned
                      {| job := orElse (asObject initial) (VObject []);
                         rawResponse :=
                           VObject [("job", orElse (asObject initial)
                                              (VObject []))] |} w
               else pollLoop env fuel client jobId pollIntervalMs
                      (clock w + timeoutMs) timeoutMs w) as Hrun.
  { intros fuel w. unfold waitForJobCompletion. cbv zeta. unfold bind at 1.
    rewrite (lift_ok _ _ _ Hst).
    destruct (isTerminalStatus (normalizeStatus (ofReadString st)));
      reflexivity. }
  split; [|split; [|split; [|split; [|split]]]].
  - intros fuel w r w'. rewrite Hrun.
    destruct (isTerminalStatus (normalizeStatus (ofReadString st))) eqn:Et.
    + intros [= <- <-]. cbn [job rawResponse]. split; [exists st; auto|].
      unfold asObject. destruct (Js.truthy initial && Js.typeofObject initial)
        eqn:Ei; cbn [orElse]; unfold pickJob; cbn.
      * rewrite Ei. reflexivity.
      * reflexivity.
    + intros Hr.
      pose proof (pollLoop_outcome env client jobId pollIntervalMs timeoutMs
                    (clock w + timeoutMs) fuel w) as Hout.
      rewrite Hr in Hout. tauto.
  - intros status Hstatus Hnon n w w' Hq fuel. rewrite Hrun.
    assert (status = st) as -> by congruence. rewrite Hnon.
    rewrite (pollLoop_after_quiet env client jobId pollIntervalMs timeoutMs
               (clock w + timeoutMs) n w w' Hq (S fuel)).
    apply pollLoop_round.
  - intros status Hstatus Hnon fuel w. rewrite Hrun.
    assert (status = st) as -> by congruence. rewrite Hnon.
    pose proof (pollLoop_outcome env client jobId pollIntervalMs timeoutMs
                  (clock w + timeoutMs) fuel w) as Hout.
    destruct (pollLoop env fuel client jobId pollIntervalMs
                (clock w + timeoutMs) timeoutMs w) as [r w'|e w'|];
      [tauto|exact Hout|exact I].
  - intros Htime Hp fuel w Hfuel. rewrite Hrun.
    destruct (isTerminalStatus (normalizeStatus (ofReadString st)));
      [discriminate|].
    apply pollLoop_finishes; try assumption.
    replace (clock w + timeoutMs - clock w) with timeoutMs by lia.
    exact Hfuel.
  - intros Hp n.
    destruct (idle_poll_runs_to_deadline client jobId pollIntervalMs
                (Z.of_nat n * pollIntervalMs) n Hp (initial_world 0))
      as (w' & Hloop & Hreq & Hsl & _).
    exists w'. split; [|split; [exact Hreq|exact Hsl]].
    unfold waitForJobCompletion. cbv zeta. exact Hloop.
  - reflexivity.
Qed.

Lemma poller_witness :
  let env :=
    Demo.environmentOf None
      [Demo.respond 200 (Demo.render Demo.runningJob);
       Demo.respond 200 (Demo.render Demo.completedJob)] 3 in
  let run :=
    waitForJobCompletion (H := Demo.platform) env 51 Demo.client "j1"
      Demo.runningJob 10 50 (initial_world 0) in
  (exists w', run = Returned {| job := Demo.completedJob;
                                rawResponse := Demo.completedJob |} w'
              /\ List.length (requests w') = 2%nat
              /\ sleeps w' = [10] /\ clock w' = 16)
  /\ Spec.terminalJob Demo.completedJob
  /\ run <> Unfinished
  /\ (exists w',
         waitForJobCompletion (H := Demo.platform)
           (Demo.environmentOf None [] 0) 6 Demo.client "j1" (VObject [])
           10 50 (initial_world 0)
         = Threw (Error "Job j1 did not reach a terminal status within 50ms.") w'
         /\ List.length (requests w') = 5%nat
         /\ sleeps w' = [10; 10; 10; 10; 10])
  /\ (exists w',
         waitForJobCompletion (H := Demo.platform)
           (Demo.environmentOf None
              [Demo.respond 200 (Demo.render Demo.failedJob)] 3)
           1 Demo.client "j1" Demo.runningJob 10 50 (initial_world 0)
         = Returned {| job := Demo.failedJob; rawResponse := Demo.failedJob |} w'
         /\ List.length (requests w') = 1%nat
         /\ sleeps w' = []).
Proof.
  cbv zeta.
  pose proof (@poller_returns_terminal_or_times_out Demo.platform
                (Demo.environmentOf None
                   [Demo.respond 200 (Demo.render Demo.runningJob);
                    Demo.respond 200 (Demo.render Demo.completedJob)] 3)
                Demo.client "j1" Demo.runningJob 10 50) as T.
  cbv zeta in T. destruct T as (Tterminal & _ & _ & Tfinish & Tcap & _).
  pose (get := {| req_method := "GET";
                  req_url := "https://api.krea.ai/v1/jobs/j1";
                  req_headers := [("Authorization", "Bearer secret");
                                  ("Content-Type", "application/json")];
                  req_body := None |}).
  pose (w2 := {| clock := 16; requests := [get; get]; sleeps := [10] |}).
  pose (w1 := {| clock := 3; requests := [get]; sleeps := [] |}).
  split; [|split; [|split; [|split]]].
  - exists w2. split; [vm_compute; reflexivity|]. repeat split.
  - refine (proj1 (Tterminal 51%nat (initial_world 0)
                     {| job := Demo.completedJob;
                        rawResponse := Demo.completedJob |} w2 _)).
    vm_compute. reflexivity.
  - apply Tfinish.
    + split; intros k; cbn; lia.
    + lia.
    + cbn. lia.
  - apply (Tcap ltac:(lia) 5%nat).
  - exists w1. split; [|split; reflexivity].
    pose proof (@poller_returns_terminal_or_times_out Demo.platform
                  (Demo.environmentOf None
                     [Demo.respond 200 (Demo.render Demo.failedJob)] 3)
                  Demo.client "j1" Demo.runningJob 10 50) as F.
    cbv zeta in F. destruct F as (_ & Fround & _).
    refine (proj2 (proj2 (Fround (Some "running") eq_refl eq_refl 0%nat
                            (initial_world 0) (initial_world 0)
                            (Spec.quiet_none _ _ _ _ _ _) 0%nat) _)
              Demo.failedJob w1 Demo.failedJob _ _ _).
    + reflexivity.
    + vm_compute. reflexivity.
    + reflexivity.
    + exists (Some "FAILED"). split; reflexivity.
Defined.

(** ** The handlers after the create request *)

Section Handlers.

Context `{Platform}.
Variable env : environment.
Variables (fuel : nat) (w w1 : world).
Variables (createResponse createJob : value) (id job_id : option string).
Hypothesis Hpick : pickJob createResponse = Ok createJob.
Hypothesis Hid : readString createJob ["id"] = Ok id.
Hypothesis Hjob_id : readString createJob ["job_id"] = Ok job_id.

Ltac next_lift E := unfold bind at 1; rewrite (lift_ok _ _ _ E).

Lemma lift_idThenJobId (v : world) :
  match id with
  | Some s => ret (Some s)
  | None => lift (readString createJob ["job_id"])
  end v = Returned (idThenJobId id job_id) v.
Proof. destruct id; [reflexivity|]. rewrite Hjob_id. reflexivity. Qed.

Lemma generate_missing_id (input : GenerateInput) :
  generateSubmitted env input w createResponse w1 ->
  usableId (idThenJobId id job_id) = None ->
  krea_generate_image env fuel input w
  = Threw (Spec.missingJobId (stringifyUnknown createResponse)) w1.
Proof.
  intros (Hval & client & Hclient & Hsubmit) Hnone.
  unfold krea_generate_image. cbv zeta.
  next_lift Hval. next_lift Hclient. unfold bind at 1. rewrite Hsubmit.
  next_lift Hpick. next_lift Hid. unfold bind at 1.
  rewrite lift_idThenJobId, Hnone. reflexivity.
Qed.

Lemma upscale_missing_id (input : UpscaleInput) :
  upscaleSubmitted env input w createResponse w1 ->
  usableId (idThenJobId id job_id) = None ->
  krea_upscale_image env fuel input w
  = Threw (Spec.missingJobId (stringifyUnknown createResponse)) w1.
Proof.
  intros (built & client & Hbuilt & Hclient & Hsubmit) Hnone.
  unfold krea_upscale_image. cbv zeta.
  next_lift Hbuilt. next_lift Hclient. unfold bind at 1. rewrite Hsubmit.
  next_lift Hpick. next_lift Hid. unfold bind at 1.
  rewrite lift_idThenJobId, Hnone. reflexivity.
Qed.

Lemma index_missing_id (input : GenerateInput) :
  indexGenerateSubmitted env input w createResponse w1 ->
  usableId id = None ->
  Index.krea_generate_image env fuel input w
  = Threw (Spec.missingJobDotId (stringifyUnknown createResponse)) w1.
Proof.
  intros (Hval & client & Hclient & Hsubmit) Hnone.
  unfold Index.krea_generate_image. cbv zeta.
  next_lift Hval. next_lift Hclient. unfold bind at 1. rewrite Hsubmit.
  next_lift Hpick. next_lift Hid. rewrite Hnone. reflexivity.
Qed.

(** Without waiting, the handlers answer with the job id they took. *)
Lemma generate_created (input : GenerateInput) (jobId : string) :
  generateSubmitted env input w createResponse w1 ->
  usableId (idThenJobId id job_id) = Some jobId ->
  g_wait_for_completion input = Some false ->
  exists out,
    krea_generate_image env fuel input w = Returned out w1
    /\ Js.get (structuredContent out) "job_id" = Ok (VString jobId).
Proof.
  intros (Hval & client & Hclient & Hsubmit) Hsome Hwait.
  destruct (readString_total ["status"] createJob) as [st Hst].
  eexists. unfold krea_generate_image. cbv zeta.
  next_lift Hval. next_lift Hclient. unfold bind at 1. rewrite Hsubmit.
  next_lift Hpick. next_lift Hid. unfold bind at 1.
  rewrite lift_idThenJobId, Hsome, Hwait. cbn [orElse negb].
  next_lift Hst. split; reflexivity.
Qed.

Lemma upscale_created (input : UpscaleInput) (jobId : string) :
  upscaleSubmitted env input w createResponse w1 ->
  usableId (idThenJobId id job_id) = Some jobId ->
  u_wait_for_completion input = Some false ->
  exists out,
    krea_upscale_image env fuel input w = Returned out w1
    /\ Js.get (structuredContent out) "job_id" = Ok (VString jobId).
Proof.
  intros (built & client & Hbuilt & Hclient & Hsubmit) Hsome Hwait.
  destruct (readString_total ["status"] createJob) as [st Hst].
  eexists. unfold krea_upscale_image. cbv zeta.
  next_lift Hbuilt. next_lift Hclient. unfold bind at 1. rewrite Hsubmit.
  next_lift Hpick. next_lift Hid. unfold bind at 1.
  rewrite lift_idThenJobId, Hsome, Hwait. cbn [orElse negb].
  next_lift Hst. split; reflexivity.
Qed.

Lemma index_created (input : GenerateInput) (jobId : string) :
  indexGenerateSubmitted env input w createResponse w1 ->
  usableId id = Some jobId ->
  g_wait_for_completion input = Some false ->
  exists out,
    Index.krea_generate_image env fuel input w = Returned out w1
    /\ Js.get (structuredContent out) "job_id" = Ok (VString jobId).
Proof.
  intros (Hval & client & Hclient & Hsubmit) Hsome Hwait.
  destruct (readString_total ["status"] createJob) as [st Hst].
  eexists. unfold Index.krea_generate_image. cbv zeta.
  next_lift Hval. next_lift Hclient. unfold bind at 1. rewrite Hsubmit.
  next_lift Hpick. next_lift Hid.
  rewrite Hsome, Hwait. cbn [orElse negb].
  next_lift Hst. split; reflexivity.
Qed.

Ltac next_lift_in E Eo :=
  unfold bind at 1 in Eo; rewrite (lift_ok _ _ _ E) in Eo.

(** The end of a handler that waited, where [Eo] says what the handler
    does from the poll on. *)
Ltac report_poll Eo :=
  unfold followsPoll; unfold bind at 1 in Eo;
  match type of Eo with
  | context [match ?polled with _ => _ end] =>
      destruct polled as [final w2|e w2|]; [|exact Eo|exact Eo]
  end;
  let res := fresh "res" in
  let Hres := fresh "Hres" in
  let fs := fresh "fs" in
  let Hfs := fresh "Hfs" in
  let err := fresh "err" in
  let Herr := fresh "Herr" in
  match type of Eo with
  | context [readUnknown (job ?final) ?path] =>
      destruct (readUnknown_total path (job final)) as [res Hres];
      destruct (readString_total ["status"] (job final)) as [fs Hfs];
      destruct (readUnknown_total ["error"] (job final)) as [err Herr]
  end;
  next_lift_in Hres Eo; next_lift_in Hfs Eo; next_lift_in Herr Eo;
  eexists; split; [exact Eo|]; split; [|split]; reflexivity.

(** Waiting, the handlers poll the job id they took and report what the
    poll gave. *)
Lemma generate_waited (input : GenerateInput) (jobId : string)
    (client : KreaClient) :
  generateSubmitted env input w createResponse w1 ->
  usableId (idThenJobId id job_id) = Some jobId ->
  orElse (g_wait_for_completion input) true = true ->
  fromEnv env = Ok client ->
  followsPoll jobId
    (waitForJobCompletion env fuel client jobId createJob
       (orElse (g_poll_interval_ms input) DEFAULT_POLL_INTERVAL_MS)
       (orElse (g_timeout_ms input) DEFAULT_TIMEOUT_MS) w1)
    (krea_generate_image env fuel input w).
Proof.
  intros (Hval & client' & Hclient & Hsubmit) Hsome Hwait Hc.
  assert (client' = client) as -> by congruence.
  remember (krea_generate_image env fuel input w) as outcome eqn:Eo.
  unfold krea_generate_image in Eo. cbv zeta in Eo.
  next_lift_in Hval Eo. next_lift_in Hclient Eo.
  unfold bind at 1 in Eo. rewrite Hsubmit in Eo.
  next_lift_in Hpick Eo. next_lift_in Hid Eo. unfold bind at 1 in Eo.
  rewrite lift_idThenJobId, Hsome, Hwait in Eo. cbn [negb] in Eo.
  report_poll Eo.
Qed.

Lemma upscale_waited (input : UpscaleInput) (jobId : string)
    (client : KreaClient) :
  upscaleSubmitted env input w createResponse w1 ->
  usableId (idThenJobId id job_id) = Some jobId ->
  orElse (u_wait_for_completion input) true = true ->
  fromEnv env = Ok client ->
  followsPoll jobId
    (waitForJobCompletion env fuel client jobId createJob
       (orElse (u_poll_interval_ms input) DEFAULT_POLL_INTERVAL_MS)
       (orElse (u_timeout_ms input) DEFAULT_TIMEOUT_MS) w1)
    (krea_upscale_image env fuel input w).
Proof.
  intros (built & client' & Hbuilt & Hclient & Hsubmit) Hsome Hwait Hc.
  assert (client' = client) as -> by congruence.
  remember (krea_upscale_image env fuel input w) as outcome eqn:Eo.
  unfold krea_upscale_image in Eo. cbv zeta in Eo.
  next_lift_in Hbuilt Eo. next_lift_in Hclient Eo.
  unfold bind at 1 in Eo. rewrite Hsubmit in Eo.
  next_lift_in Hpick Eo. next_lift_in Hid Eo. unfold bind at 1 in Eo.
  rewrite lift_idThenJobId, Hsome, Hwait in Eo. cbn [negb] in Eo.
  report_poll Eo.
Qed.

Lemma index_waited (input : GenerateInput) (jobId : string)
    (client : KreaClient) :
  indexGenerateSubmitted env input w createResponse w1 ->
  usableId id = Some jobId ->
  orElse (g_wait_for_completion input) true = true ->
  fromEnv env = Ok client ->
  followsPoll jobId
    (waitForJobCompletion env fuel client jobId createJob
       (orElse (g_poll_interval_ms input) DEFAULT_POLL_INTERVAL_MS)
       (orElse (g_timeout_ms input) DEFAULT_TIMEOUT_MS) w1)
    (Index.krea_generate_image env fuel input w).
Proof.
  intros (Hval & client' & Hclient & Hsubmit) Hsome Hwait Hc.
  assert (client' = client) as -> by congruence.
  remember (Index.krea_generate_image env fuel input w) as outcome eqn:Eo.
  unfold Index.krea_generate_image in Eo. cbv zeta in Eo.
  next_lift_in Hval Eo. next_lift_in Hclient Eo.
  unfold bind at 1 in Eo. rewrite Hsubmit in Eo.
  next_lift_in Hpick Eo. next_lift_in Hid Eo.
  rewrite Hsome, Hwait in Eo. cbn [negb] in Eo.
  report_poll Eo.
Qed.

End Handlers.

(** C3, as amended. In the copy of the server with the upscale tool, both
    handlers take the job id from [id], and from [job_id] when [id] holds
    no string; when that gives nothing (neither holds a string, or the
    string is empty) the invocation throws the error of the missing job
    id, whose message ends with the string form of the raw response, in
    the world the create request left: nothing is polled.  The id taken
    is the one the handler goes on with: not waiting, it answers with that
    id at once; waiting, it polls the job of that id and passes on the
    error of the poll or reports the job the poll returned, under that
    id.  The handler of index.ts reads [id] only: it throws its own error
    of the missing [job.id] whatever [job_id] holds, and goes on with
    [id] when that is a string that is not empty. *)
Theorem job_id_from_id_then_job_id `{Platform} (env : environment)
    (fuel : nat) (w w1 : world) (createResponse createJob : value)
    (id job_id : option string) :
  pickJob createResponse = Ok createJob ->
  readString createJob ["id"] = Ok id ->
  readString createJob ["job_id"] = Ok job_id ->
  (forall input, generateSubmitted env input w createResponse w1 ->
     (usableId (idThenJobId id job_id) = None ->
      krea_generate_image env fuel input w
      = Threw (Spec.missingJobId (stringifyUnknown createResponse)) w1)
     /\ (forall jobId,
            usableId (idThenJobId id job_id) = Some jobId ->
            g_wait_for_completion input = Some false ->
            exists out,
              krea_generate_image env fuel input w = Returned out w1
              /\ Js.get (structuredContent out) "job_id"
                 = Ok (VString jobId))
     /\ (forall jobId client,
            usableId (idThenJobId id job_id) = Some jobId ->
            orElse (g_wait_for_completion input) true = true ->
            fromEnv env = Ok client ->
            followsPoll jobId
              (waitForJobCompletion env fuel client jobId createJob
                 (orElse (g_poll_interval_ms input) DEFAULT_POLL_INTERVAL_MS)
                 (orElse (g_timeout_ms input) DEFAULT_TIMEOUT_MS) w1)
              (krea_generate_image env fuel input w)))
  /\ (forall input, upscaleSubmitted env input w createResponse w1 ->
        (usableId (idThenJobId id job_id) = None ->
         krea_upscale_image env fuel input w
         = Threw (Spec.missingJobId (stringifyUnknown createResponse)) w1)
        /\ (forall jobId,
               usableId (idThenJobId id job_id) = Some jobId ->
               u_wait_for_completion input = Some false ->
               exists out,
                 krea_upscale_image env fuel input w = Returned out w1
                 /\ Js.get (structuredContent out) "job_id"
                    = Ok (VString jobId))
        /\ (forall jobId client,
               usableId (idThenJobId id job_id) = Some jobId ->
               orElse (u_wait_for_completion input) true = true ->
               fromEnv env = Ok client ->
               followsPoll jobId
                 (waitForJobCompletion env fuel client jobId createJob
                    (orElse (u_poll_interval_ms input) DEFAULT_POLL_INTERVAL_MS)
                    (orElse (u_timeout_ms input) DEFAULT_TIMEOUT_MS) w1)
                 (krea_upscale_image env fuel input w)))
  /\ (forall input, indexGenerateSubmitted env input w createResponse w1 ->
        (usableId id = None ->
         Index.krea_generate_image env fuel input w
         = Threw (Spec.missingJobDotId (stringifyUnknown createResponse)) w1)
        /\ (forall jobId,
               usableId id = Some jobId ->
               g_wait_for_completion input = Some false ->
               exists out,
                 Index.krea_generate_image env fuel input w = Returned out w1
                 /\ Js.get (structuredContent out) "job_id"
                    = Ok (VString jobId))
        /\ (forall jobId client,
               usableId id = Some jobId ->
               orElse (g_wait_for_completion input) true = true ->
               fromEnv env = Ok client ->
               followsPoll jobId
                 (waitForJobCompletion env fuel client jobId createJob
                    (orElse (g_poll_interval_ms input) DEFAULT_POLL_INTERVAL_MS)
                    (orElse (g_timeout_ms input) DEFAULT_TIMEOUT_MS) w1)
                 (Index.krea_generate_image env fuel input w)))
  /\ (id = None -> job_id = None -> usableId (idThenJobId id job_id) = None)
  /\ (forall s, s <> "" ->
        usableId (idThenJobId (Some s) job_id) = Some s
        /\ usableId (idThenJobId None (Some s)) = Some s)
  /\ Spec.missingJobId (stringifyUnknown createResponse)
     = Error ("Krea response does not include job id. Response: "
                ++ interpolate (stringifyUnknown createResponse)).
Proof.
  intros Hpick Hid Hjob.
  split; [|split; [|split; [|split; [|split]]]].
  - intros input Hsub. split; [|split].
    + apply (generate_missing_id env fuel w w1 createResponse createJob
               id job_id Hpick Hid Hjob input Hsub).
    + intros jobId. apply (generate_created env fuel w w1 createResponse
                             createJob id job_id Hpick Hid Hjob input jobId Hsub).
    + intros jobId client.
      apply (generate_waited env fuel w w1 createResponse createJob id job_id
               Hpick Hid Hjob input jobId client Hsub).
  - intros input Hsub. split; [|split].
    + apply (upscale_missing_id env fuel w w1 createResponse createJob
               id job_id Hpick Hid Hjob input Hsub).
    + intros jobId. apply (upscale_created env fuel w w1 createResponse
                             createJob id job_id Hpick Hid Hjob input jobId Hsub).
    + intros jobId client.
      apply (upscale_waited env fuel w w1 createResponse createJob id job_id
               Hpick Hid Hjob input jobId client Hsub).
  - intros input Hsub. split; [|split].
    + apply (index_missing_id env fuel w w1 createResponse createJob id
               Hpick Hid input Hsub).
    + intros jobId. apply (index_created env fuel w w1 createResponse
                             createJob id Hpick Hid input jobId Hsub).
    + intros jobId client.
      apply (index_waited env fuel w w1 createResponse createJob id
               Hpick Hid input jobId client Hsub).
  - intros -> ->. reflexivity.
  - intros s Hs. destruct s; [contradiction|]. split; reflexivity.
  - reflexivity.
Qed.

Lemma missing_job_id_witness :
  let env := Demo.environmentOf None [Demo.respond 200 "oops"] 3 in
  let input := Demo.generateInput flux_1_dev "x" None None None in
  let post :=
    {| req_method := "POST";
       req_url := "https://api.krea.ai/v1/generate/image/bfl/flux-1-dev";
       req_headers := [("Authorization", "Bearer secret");
                       ("Content-Type", "application/json")];
       req_body := Some (Demo.render (VObject [("prompt", VString "x")])) |} in
  let polled :=
    Demo.environmentOf None
      [Demo.respond 200 (Demo.render Demo.runningJob);
       Demo.respond 200 (Demo.render Demo.completedJob)] 3 in
  let w1 := {| clock := 3; requests := [post]; sleeps := [] |} in
  krea_generate_image (H := Demo.platform) env 5 input (initial_world 0)
  = Threw (Error "Krea response does not include job id. Response: oops") w1
  /\ followsPoll "j1"
       (waitForJobCompletion (H := Demo.platform) polled 5 Demo.client "j1"
          Demo.runningJob 2000 180000 w1)
       (krea_generate_image (H := Demo.platform) polled 5 input
          (initial_world 0))
  /\ exists w2,
       waitForJobCompletion (H := Demo.platform) polled 5 Demo.client "j1"
         Demo.runningJob 2000 180000 w1
       = Returned {| job := Demo.completedJob;
                     rawResponse := Demo.completedJob |} w2.
Proof.
  cbv zeta. split; [|split].
  - refine (proj1 (proj1 (@job_id_from_id_then_job_id Demo.platform
                            (Demo.environmentOf None [Demo.respond 200 "oops"] 3)
                            5 (initial_world 0) _ (VString "oops") (VObject [])
                            None None eq_refl eq_refl eq_refl)
                     (Demo.generateInput flux_1_dev "x" None None None) _)
              eq_refl).
    split; [reflexivity|]. exists Demo.client. split; reflexivity.
  - refine (proj2 (proj2 (proj1 (@job_id_from_id_then_job_id Demo.platform
                                   (Demo.environmentOf None
                                      [Demo.respond 200
                                         (Demo.render Demo.runningJob);
                                       Demo.respond 200
                                         (Demo.render Demo.completedJob)] 3)
                                   5 (initial_world 0) _ Demo.runningJob
                                   Demo.runningJob None (Some "j1")
                                   eq_refl eq_refl eq_refl)
                            (Demo.generateInput flux_1_dev "x" None None None)
                            _))
              "j1" Demo.client eq_refl eq_refl eq_refl).
    split; [reflexivity|]. exists Demo.client. split; reflexivity.
  - eexists. vm_compute. reflexivity.
Defined.

(** C3 as stated fails on the handler of index.ts: a create response that
    carries its id under [job_id] only is refused there, while the other
    copy takes the id and goes on to poll the job. *)
Lemma job_id_ignored_counterexample :
  let env :=
    Demo.environmentOf None
      [Demo.respond 200 (Demo.render Demo.runningJob);
       Demo.respond 200 (Demo.render Demo.completedJob)] 3 in
  let input := Demo.generateInput flux_1_dev "x" None None None in
  readString Demo.runningJob ["job_id"] = Ok (Some "j1")
  /\ (exists w1,
         Index.krea_generate_image (H := Demo.platform) env 5 input
           (initial_world 0)
         = Threw (Spec.missingJobDotId (Some (Demo.render Demo.runningJob))) w1
         /\ List.length (requests w1) = 1%nat)
  /\ (exists out w2,
         krea_generate_image (H := Demo.platform) env 5 input (initial_world 0)
         = Returned out w2
         /\ Js.get (structuredContent out) "job_id" = Ok (VString "j1")
         /\ List.length (requests w2) = 2%nat).
Proof.
  cbv zeta. split; [reflexivity|]. split.
  - eexists. split; [vm_compute; reflexivity|reflexivity].
  - eexists. eexists. split; [vm_compute; reflexivity|]. split; reflexivity.
Qed.

(** C9. For a create response that is not an object (undefined, null, a
    boolean, a number or a string, such as the raw text of a body that is
    no JSON), [pickJob] gives the empty record; reading [id], [job_id] or
    [status] of it gives [undefined], so the status normalises to
    [unknown]; and each handler throws its error of the missing job id in
    the world the create request left.  Reading a response never throws,
    whatever the value and the path. *)
Theorem non_object_response_is_missing_job_id `{Platform} (env : environment)
    (fuel : nat) (w w1 : world) (createResponse : value) :
  Spec.notAnObject createResponse = true ->
  pickJob createResponse = Ok (VObject [])
  /\ (forall key, In key ["id"; "job_id"; "status"] ->
                  readUnknown (VObject []) [key] = Ok VUndefined
                  /\ readString (VObject []) [key] = Ok None)
  /\ normalizeStatus (ofReadString None) = "unknown"
  /\ isTerminalStatus "unknown" = false
  /\ (forall input, generateSubmitted env input w createResponse w1 ->
        krea_generate_image env fuel input w
        = Threw (Spec.missingJobId (stringifyUnknown createResponse)) w1)
  /\ (forall input, upscaleSubmitted env input w createResponse w1 ->
        krea_upscale_image env fuel input w
        = Threw (Spec.missingJobId (stringifyUnknown createResponse)) w1)
  /\ (forall input, indexGenerateSubmitted env input w createResponse w1 ->
        Index.krea_generate_image env fuel input w
        = Threw (Spec.missingJobDotId (stringifyUnknown createResponse)) w1)
  /\ (forall v path, exists r, readUnknown v path = Ok r)
  /\ (forall v path, exists r, readString v path = Ok r)
  /\ (forall v, exists j, pickJob v = Ok j).
Proof.
  intros Hnot. pose proof (pickJob_notAnObject createResponse Hnot) as Hpick.
  split; [exact Hpick|]. split; [intros key _; split; reflexivity|].
  split; [reflexivity|]. split; [reflexivity|].
  split; [|split; [|split; [|split; [|split]]]].
  - intros input Hsub.
    apply (generate_missing_id env fuel w w1 createResponse (VObject [])
             None None Hpick eq_refl eq_refl input Hsub). reflexivity.
  - intros input Hsub.
    apply (upscale_missing_id env fuel w w1 createResponse (VObject [])
             None None Hpick eq_refl eq_refl input Hsub). reflexivity.
  - intros input Hsub.
    apply (index_missing_id env fuel w w1 createResponse (VObject [])
             None Hpick eq_refl input Hsub). reflexivity.
  - intros v path. apply readUnknown_total.
  - intros v path. apply readString_total.
  - intros v. destruct (pickJob_total v) as [j [Hj _]]. eauto.
Qed.

Lemma non_object_response_witness :
  let env := Demo.environmentOf None [Demo.respond 200 "oops"] 3 in
  let input := Demo.upscaleInput None 2048 2048 None None in
  exists w1,
    krea_upscale_image (H := Demo.platform) env 5 input (initial_world 0)
    = Threw (Error "Krea response does not include job id. Response: oops") w1
    /\ List.length (requests w1) = 1%nat /\ sleeps w1 = [].
Proof.
  cbv zeta.
  pose (env := Demo.environmentOf None [Demo.respond 200 "oops"] 3).
  pose (w1 :=
          afterFetch env (initial_world 0)
            {| req_method := "POST";
               req_url := "https://api.krea.ai/v1/generate/enhance/topaz/standard-enhance";
               req_headers := [("Authorization", "Bearer secret");
                               ("Content-Type", "application/json")];
               req_body :=
                 Demo.stringify
                   (VObject
                      [("width", VInt 2048); ("height", VInt 2048);
                       ("image_url", VString "https://x.test/i.png");
                       ("model", VString "Standard V2")]) |}).
  destruct (@non_object_response_is_missing_job_id Demo.platform env 5
              (initial_world 0) w1 (VString "oops") eq_refl)
    as (_ & _ & _ & _ & _ & Hupscale & _).
  exists w1. split; [|split; reflexivity].
  apply (Hupscale (Demo.upscaleInput None 2048 2048 None None)).
  eexists. exists Demo.client. split; [reflexivity|]. split; reflexivity.
Defined.

(* ------------------------------------------------------------------ *)
(** * Further properties *)

(** ** Status normalisation *)

Lemma lowerChar_idempotent (c : ascii) :
  Str.lowerChar (Str.lowerChar c) = Str.lowerChar c.
Proof.
  destruct c as [b0 b1 b2 b3 b4 b5 b6 b7].
  destruct b0, b1, b2, b3, b4, b5, b6, b7; reflexivity.
Qed.

Lemma toLowerCase_idempotent (s : string) :
  Str.toLowerCase (Str.toLowerCase s) = Str.toLowerCase s.
Proof.
  induction s as [|c rest IH]; cbn [Str.toLowerCase]; [reflexivity|].
  rewrite lowerChar_idempotent, IH. reflexivity.
Qed.

(** X1. Normalising a status twice changes nothing more; a value that is
    not a string is never terminal, and a string is terminal exactly when
    its lower-case form is one of the three terminal words, so letter case
    does not matter. *)
Theorem normalizeStatus_idempotent (v : value) :
  normalizeStatus (VString (normalizeStatus v)) = normalizeStatus v
  /\ (isTerminalStatus (normalizeStatus v) = true
      <-> exists s, v = VString s
                    /\ (Str.toLowerCase s = "completed"
                        \/ Str.toLowerCase s = "failed"
                        \/ Str.toLowerCase s = "cancelled")).
Proof.
  split.
  - destruct v; try reflexivity. cbn [normalizeStatus].
    rewrite toLowerCase_idempotent. reflexivity.
  - unfold isTerminalStatus. rewrite !orb_true_iff, !String.eqb_eq. split.
    + destruct v; cbn [normalizeStatus];
        try (intros [[E|E]|E]; discriminate E).
      intros Hs. exists s. split; [reflexivity|tauto].
    + intros (s & -> & Hs). cbn [normalizeStatus]. tauto.
Qed.

(** ** Validation of generate inputs *)

Lemma missingFor_available (input : GenerateInput) (model : ModelDefinition)
    (f : RequiredField) :
  missingFor input model f = [] <-> Reading.available input model f = true.
Proof.
  destruct f; cbn [missingFor Reading.available].
  - tauto.
  - destruct (g_width input), (defaultWidth model); cbn;
      split; try reflexivity; discriminate.
  - destruct (g_height input), (defaultHeight model); cbn;
      split; try reflexivity; discriminate.
  - destruct (g_reference_images input) as [[|x l]|];
      split; try reflexivity; discriminate.
  - destruct (g_image_url input) as [[|c s]|];
      split; try reflexivity; discriminate.
Qed.

Lemma flat_map_nil {A B} (f : A -> list B) (l : list A) :
  flat_map f l = [] <-> forall x, In x l -> f x = [].
Proof.
  induction l as [|a l IH]; cbn [flat_map].
  - split; [intros _ x Hx; contradiction Hx|reflexivity].
  - split.
    + intros E. apply app_eq_nil in E as [Ea El]. intros x [<-|Hx]; [exact Ea|].
      apply IH; assumption.
    + intros Hall. rewrite (Hall a (or_introl eq_refl)).
      apply IH. intros x Hx. apply Hall. right. exact Hx.
Qed.

(** Validation passes exactly when every required field is available. *)
Lemma validateInputByModel_available (input : GenerateInput)
    (model : ModelDefinition) :
  validateInputByModel input model = Ok tt
  <-> forall f, In f (requiredFields model) ->
                Reading.available input model f = true.
Proof.
  unfold validateInputByModel. cbv zeta.
  destruct (flat_map (missingFor input model) (requiredFields model))
    as [|m ms] eqn:E.
  - split; [intros _|reflexivity]. intros f Hf.
    apply missingFor_available. revert f Hf. apply flat_map_nil. exact E.
  - split; [discriminate|]. intros Hall.
    assert (flat_map (missingFor input model) (requiredFields model) = [])
      as E'.
    { apply flat_map_nil. intros f Hf. apply missingFor_available.
      apply Hall, Hf. }
    congruence.
Qed.

(** X2. Validation passes exactly when every required field has a value
    to send.  Over the catalog this leaves two ways to fail: the model
    [runway_gen_4_image] without a non-empty list of reference images, and
    the model [seededit_3] without a non-empty image URL; the models that
    require dimensions all have defaults, so a dimension is never reported
    missing. *)
Theorem validation_passes_iff_available (input : GenerateInput) :
  (forall model,
      validateInputByModel input model = Ok tt
      <-> forall f, In f (requiredFields model) ->
                    Reading.available input model f = true)
  /\ (validateInputByModel input (KREA_IMAGE_MODELS (g_model input)) = Ok tt
      <-> match g_model input with
          | runway_gen_4_image =>
              exists url rest, g_reference_images input = Some (url :: rest)
          | seededit_3 =>
              exists url, g_image_url input = Some url /\ url <> ""
          | _ => True
          end).
Proof.
  pose proof (validateInputByModel_available input) as G.
  split; [exact G|]. rewrite G.
  destruct (g_model input); cbn [KREA_IMAGE_MODELS plainModel sizedModel
                                   requiredFields In].
  all: try (split; [intros _; exact I|];
            intros _ f Hf;
            repeat (destruct Hf as [<-|Hf];
                    [cbn; rewrite ?orb_true_r; reflexivity|]);
            contradiction Hf).
  - split.
    + intros Hall. specialize (Hall referenceImages_field).
      cbn [Reading.available] in Hall.
      destruct (g_reference_images input) as [[|url rest]|];
        try (discriminate Hall; tauto); eauto.
    + intros (url & rest & E) f Hf; cbn [In] in Hf;
        destruct Hf as [<-|[<-|[]]]; cbn [Reading.available];
        [reflexivity|]. rewrite E. reflexivity.
  - split.
    + intros Hall. specialize (Hall imageUrl_field).
      cbn [Reading.available] in Hall.
      destruct (g_image_url input) as [[|c s]|];
        try (discriminate Hall; tauto).
      exists (String c s). split; [reflexivity|discriminate].
    + intros (url & E & Hurl) f Hf; cbn [In] in Hf;
        destruct Hf as [<-|[<-|[]]]; cbn [Reading.available];
        [reflexivity|]. rewrite E. destruct url; [contradiction|reflexivity].
Qed.

(** ** Keys of the generate payload *)

Lemma hasKey_set (payload : list (string * value)) (key key' : string)
    (v : value) :
  Js.hasKey (Js.set payload key v) key'
  = String.eqb key key' || Js.hasKey payload key'.
Proof.
  induction payload as [|[k old] rest IH]; cbn [Js.set Js.hasKey].
  - reflexivity.
  - destruct (String.eqb k key) eqn:Ek; cbn [Js.hasKey].
    + apply String.eqb_eq in Ek. subst k.
      destruct (String.eqb key key'); reflexivity.
    + rewrite IH. destruct (String.eqb k key'), (String.eqb key key');
        reflexivity.
Qed.

Lemma hasKey_setDefined (payload : list (string * value)) (key key' : string)
    (o : option value) :
  Js.hasKey (setDefined payload key o) key'
  = Spec.isSome o && String.eqb key key' || Js.hasKey payload key'.
Proof. destruct o; cbn [setDefined Spec.isSome andb orb]; [apply hasKey_set|reflexivity]. Qed.

Lemma requires_In (model : ModelDefinition) (f : RequiredField) :
  In f (requiredFields model) -> requires model f = true.
Proof.
  intros Hf. unfold requires. apply existsb_exists. exists f.
  split; [exact Hf|]. destruct f; reflexivity.
Qed.

Lemma hasKey_set_same (payload : list (string * value)) (key : string)
    (v : value) :
  Js.hasKey (Js.set payload key v) key = true.
Proof. rewrite hasKey_set, String.eqb_refl. reflexivity. Qed.

Lemma hasKey_setDefined_some (payload : list (string * value)) (key : string)
    (v : value) :
  Js.hasKey (setDefined payload key (Some v)) key = true.
Proof. apply hasKey_set_same. Qed.

Lemma hasKey_set_keep (payload : list (string * value)) (key key' : string)
    (v : value) :
  Js.hasKey payload key' = true -> Js.hasKey (Js.set payload key v) key' = true.
Proof. intros E. rewrite hasKey_set, E. apply orb_true_r. Qed.

Lemma hasKey_setDefined_keep (payload : list (string * value))
    (key key' : string) (o : option value) :
  Js.hasKey payload key' = true ->
  Js.hasKey (setDefined payload key o) key' = true.
Proof. intros E. rewrite hasKey_setDefined, E. apply orb_true_r. Qed.

(** Follows a key down the assignments of a builder to the one that
    sets it. *)
Ltac find_key :=
  repeat first
    [ apply hasKey_set_same
    | apply hasKey_setDefined_some
    | match goal with
      | |- Js.hasKey (match ?x with _ => _ end) _ = true => destruct x
      end
    | apply hasKey_setDefined_keep
    | apply hasKey_set_keep ].

(** X3. After validation has passed, the payload of either copy of the
    generate builder holds every field the model requires, under its
    payload key. *)
Theorem validated_payload_has_required_fields (input : GenerateInput)
    (model : ModelDefinition) (f : RequiredField) :
  validateInputByModel input model = Ok tt ->
  In f (requiredFields model) ->
  Js.hasKey (buildPayload input model) (Reading.payloadKey f) = true
  /\ Js.hasKey (Index.buildPayload input model) (Reading.payloadKey f) = true.
Proof.
  intros Hval Hf.
  pose proof (proj1 (validateInputByModel_available input model) Hval f Hf)
    as Hav.
  pose proof (requires_In model f Hf) as Hreq.
  unfold buildPayload, Index.buildPayload. cbv zeta.
  destruct f; cbn [Reading.payloadKey Reading.available] in *; rewrite ?Hreq.
  - split; find_key.
  - destruct (g_width input), (defaultWidth model); try discriminate Hav;
      cbn [option_map]; split; find_key.
  - destruct (g_height input), (defaultHeight model); try discriminate Hav;
      cbn [option_map]; split; find_key.
  - destruct (g_reference_images input) as [[|url urls]|];
      try discriminate Hav; cbn [option_map]; split; find_key.
  - destruct (g_image_url input) as [[|c url]|];
      try discriminate Hav; cbn [option_map]; split; find_key.
Qed.

Lemma hasKey_set_inv (payload : list (string * value)) (key key' : string)
    (v : value) :
  Js.hasKey (Js.set payload key v) key' = true ->
  key' = key \/ Js.hasKey payload key' = true.
Proof.
  rewrite hasKey_set. destruct (String.eqb key key') eqn:E.
  - apply String.eqb_eq in E. auto.
  - auto.
Qed.

Lemma hasKey_setDefined_inv (payload : list (string * value))
    (key key' : string) (o : option value) :
  Js.hasKey (setDefined payload key o) key' = true ->
  key' = key \/ Js.hasKey payload key' = true.
Proof. destruct o; [apply hasKey_set_inv|auto]. Qed.

(** Takes a key of a built payload back to the assignment it comes from. *)
Ltac key_origin H :=
  repeat first
    [ apply hasKey_setDefined_inv in H;
      destruct H as [->|H]; [left; cbn; tauto|]
    | apply hasKey_set_inv in H;
      destruct H as [->|H]; [left; cbn; tauto|]
    | match type of H with
      | Js.hasKey (match ?x with _ => _ end) _ = true => destruct x
      end ].

(** X4. A generate payload has no key of its own invention: every key is
    one of the keys the builder of that copy can set, or a key of the
    model's fixed payload.  The copy in kreaClient.ts thus never sends
    [size] or [sync_mode], and the copy in index.ts never sends
    [batchSize]. *)
Theorem generate_payload_keys_are_known (input : GenerateInput)
    (model : ModelDefinition) (key : string) :
  (Js.hasKey (buildPayload input model) key = true ->
   In key Reading.generateKeys
   \/ Js.hasKey (orElse (fixedPayload model) []) key = true)
  /\ (Js.hasKey (Index.buildPayload input model) key = true ->
      In key Reading.indexGenerateKeys
      \/ Js.hasKey (orElse (fixedPayload model) []) key = true).
Proof.
  split; intros Hkey.
  - unfold buildPayload in Hkey. cbv zeta in Hkey.
    destruct (isQwenImage (g_model input)); key_origin Hkey; right; exact Hkey.
  - unfold Index.buildPayload in Hkey. cbv zeta in Hkey.
    key_origin Hkey; right; exact Hkey.
Qed.

Lemma required_payload_fields_witness :
  let input := Demo.generateInput flux_1_1_pro "x" None None None in
  let model := KREA_IMAGE_MODELS flux_1_1_pro in
  Js.hasKey (buildPayload input model) "width" = true
  /\ Js.hasKey (Index.buildPayload input model) "width" = true.
Proof.
  cbv zeta.
  apply (validated_payload_has_required_fields
           (Demo.generateInput flux_1_1_pro "x" None None None)
           (KREA_IMAGE_MODELS flux_1_1_pro) width_field).
  - reflexivity.
  - cbn. tauto.
Defined.

Lemma payload_keys_witness :
  let input := Demo.generateInput seedream_3 "x" (Some 512) None None in
  let model := KREA_IMAGE_MODELS seedream_3 in
  (In "width" Reading.generateKeys
   \/ Js.hasKey (orElse (fixedPayload model) []) "width" = true)
  /\ (In "model" Reading.indexGenerateKeys
      \/ Js.hasKey (orElse (fixedPayload model) []) "model" = true).
Proof.
  cbv zeta. split.
  - apply (proj1 (generate_payload_keys_are_known
                    (Demo.generateInput seedream_3 "x" (Some 512) None None)
                    (KREA_IMAGE_MODELS seedream_3) "width")).
    reflexivity.
  - apply (proj2 (generate_payload_keys_are_known
                    (Demo.generateInput seedream_3 "x" (Some 512) None None)
                    (KREA_IMAGE_MODELS seedream_3) "model")).
    reflexivity.
Defined.

(** ** Contents of the generate payload *)

Lemma field_setDefined_same (payload : list (string * value)) (key : string)
    (o : option value) :
  Spec.field (setDefined payload key o) key
  = match o with
    | Some v => Some v
    | None => Spec.field payload key
    end.
Proof. rewrite field_setDefined, String.eqb_refl. reflexivity. Qed.

Lemma catalog_fixes_model_only (k : ModelKey) (key : string) :
  String.eqb "model" key = false ->
  Spec.field (orElse (fixedPayload (KREA_IMAGE_MODELS k)) []) key = None.
Proof.
  intros E. destruct k; try reflexivity.
  unfold Spec.field. cbn [KREA_IMAGE_MODELS fixedPayload orElse Js.hasKey].
  rewrite E. reflexivity.
Qed.

(** Reads one field of a built payload. *)
Ltac read_field :=
  repeat first
    [ rewrite field_set_same
    | rewrite field_setDefined_same
    | rewrite field_setDefined_other by reflexivity
    | rewrite field_set_other by reflexivity
    | rewrite catalog_fixes_model_only by reflexivity
    | match goal with
      | |- context [Spec.field (match ?x with _ => _ end) _] => destruct x
      | |- context [match option_map _ ?o with _ => _ end] =>
          destruct o; cbn [option_map]
      end ];
  try reflexivity.

(** X5. What the builder of kreaClient.ts sends for a model of the
    catalog, besides width and height: the prompt as given; seed and
    batch size under [seed] and [batchSize]; the guidance scale under
    [cfg_scale] for [qwen_image] and under [guidance_scale_flux] for every
    other model, never under both; the number of steps under
    [num_inference_steps] for [qwen_image] and under [steps] otherwise; the
    negative prompt for [qwen_image] only; style and reference image each
    as a one-element list under [styles] and [styleImages]; the reference
    images and the image URL under [referenceImages] and [imageUrl]. *)
Theorem generate_payload_contents (input : GenerateInput) :
  let model := KREA_IMAGE_MODELS (g_model input) in
  let payload := buildPayload input model in
  let qwen := isQwenImage (g_model input) in
  Spec.field payload "prompt" = Some (VString (g_prompt input))
  /\ Spec.field payload "seed" = option_map VInt (g_seed input)
  /\ Spec.field payload "batchSize" = option_map VInt (g_batch_size input)
  /\ Spec.field payload "cfg_scale"
     = (if qwen then option_map VNumber (g_guidance_scale input) else None)
  /\ Spec.field payload "guidance_scale_flux"
     = (if qwen then None else option_map VNumber (g_guidance_scale input))
  /\ Spec.field payload "num_inference_steps"
     = (if qwen then option_map VInt (g_num_inference_steps input) else None)
  /\ Spec.field payload "steps"
     = (if qwen then None else option_map VInt (g_num_inference_steps input))
  /\ Spec.field payload "negative_prompt"
     = (if qwen then option_map VString (g_negative_prompt input) else None)
  /\ Spec.field payload "styles"
     = option_map (fun s => VStrings [s]) (g_style input)
  /\ Spec.field payload "styleImages"
     = option_map (fun s => VStrings [s]) (g_reference_image input)
  /\ Spec.field payload "referenceImages"
     = option_map VStrings (g_reference_images input)
  /\ Spec.field payload "imageUrl" = option_map VString (g_image_url input).
Proof.
  cbv zeta. unfold buildPayload. cbv zeta.
  destruct (isQwenImage (g_model input)).
  all: repeat split; read_field.
Qed.

(** X6. What the builder of index.ts sends for a model of the catalog,
    besides width and height: every optional input under one fixed key,
    whatever the model, the negative prompt and the sync flag included. *)
Theorem index_payload_contents (input : GenerateInput) :
  let model := KREA_IMAGE_MODELS (g_model input) in
  let payload := Index.buildPayload input model in
  Spec.field payload "prompt" = Some (VString (g_prompt input))
  /\ Spec.field payload "seed" = option_map VInt (g_seed input)
  /\ Spec.field payload "guidance_scale"
     = option_map VNumber (g_guidance_scale input)
  /\ Spec.field payload "num_inference_steps"
     = option_map VInt (g_num_inference_steps input)
  /\ Spec.field payload "negative_prompt"
     = option_map VString (g_negative_prompt input)
  /\ Spec.field payload "size" = option_map VString (g_size input)
  /\ Spec.field payload "style" = option_map VString (g_style input)
  /\ Spec.field payload "referenceImage"
     = option_map VString (g_reference_image input)
  /\ Spec.field payload "referenceImages"
     = option_map VStrings (g_reference_images input)
  /\ Spec.field payload "imageUrl" = option_map VString (g_image_url input)
  /\ Spec.field payload "sync_mode" = option_map VBool (g_sync_mode input)
  /\ Spec.field payload "batchSize" = None.
Proof.
  cbv zeta. unfold Index.buildPayload. cbv zeta.
  repeat split; read_field.
Qed.

(** ** The upscale builder: model names and the payload of a request *)

Lemma existsb_eqb_In (s : string) (l : list string) :
  existsb (String.eqb s) l = true <-> In s l.
Proof.
  rewrite existsb_exists. split.
  - intros (x & Hx & E). apply String.eqb_eq in E. subst x. exact Hx.
  - intros Hs. exists s. split; [exact Hs|apply String.eqb_refl].
Qed.

(** X7. [resolveUpscaleModel] answers with the model asked for, or the
    default of the mode when none is asked for, exactly when that name is
    one of the names of the mode, and throws otherwise; the default of
    each mode is always accepted. *)
Theorem resolveUpscaleModel_accepts_mode_names (mode : UpscaleMode)
    (model : option string) :
  (forall m, resolveUpscaleModel mode model = Ok m
             <-> m = orElse model (Spec.defaultModelOf mode)
                 /\ In m (Spec.modelsOf mode))
  /\ (~ In (orElse model (Spec.defaultModelOf mode)) (Spec.modelsOf mode)
      <-> exists message, resolveUpscaleModel mode model = Throw (Error message))
  /\ resolveUpscaleModel mode None = Ok (Spec.defaultModelOf mode).
Proof.
  assert (forall selected,
             negb (String.eqb selected "Reimagine")
             = negb (existsb (String.eqb selected) ["Reimagine"])) as Hbloom.
  { intros selected. cbn [existsb]. rewrite orb_false_r. reflexivity. }
  split; [|split].
  - intros m. unfold resolveUpscaleModel.
    destruct mode; cbv zeta; rewrite ?Hbloom;
      cbn [Spec.defaultModelOf Spec.modelsOf];
      match goal with
      | |- context [existsb (String.eqb ?s) ?l] =>
          destruct (existsb (String.eqb s) l) eqn:E
      end; cbn [negb].
    all: try (apply existsb_eqb_In in E; split;
              [intros [= <-]; auto|intros [-> _]; reflexivity]).
    all: split; [discriminate|]; intros [-> Hin];
      apply existsb_eqb_In in Hin; congruence.
  - unfold resolveUpscaleModel.
    destruct mode; cbv zeta; rewrite ?Hbloom;
      cbn [Spec.defaultModelOf Spec.modelsOf];
      rewrite <- existsb_eqb_In;
      match goal with
      | |- context [existsb (String.eqb ?s) ?l] =>
          destruct (existsb (String.eqb s) l)
      end; cbn [negb].
    all: split; try (intros Hn; exfalso; apply Hn; reflexivity);
      try (intros [message E]; discriminate E);
      try (intros _; eexists; reflexivity);
      try (intros _; discriminate).
  - destruct mode; reflexivity.
Qed.

(** One guarded assignment of a build that succeeds. *)
Ltac gate_ok_step :=
  first
    [ rewrite setChecked_pass
    | rewrite setChecked_fail, isSome_map;
      match goal with
      | |- context [if Spec.isSome ?o then Throw _ else _] =>
          destruct o; cbn [Spec.isSome]
      end
    | match goal with
      | |- context [match u_creativity ?i with _ => _ end] =>
          destruct (u_creativity i) as [c|]; cbn [Spec.isSome andb throwIf];
          try match goal with
              | |- context [c >? 6] => destruct (c >? 6)
              end
      end ];
  cbn [rbind throwIf]; try (intros E; discriminate E).

(** The request of a build that succeeds. *)
Lemma buildUpscaleRequest_ok (input : UpscaleInput) (r : UpscaleRequest) :
  buildUpscaleRequest input = Ok r ->
  r = {| r_mode := Spec.modeOf input;
         r_endpoint := Spec.endpointOf (Spec.modeOf input);
         r_normalizedModel :=
           orElse (u_model input) (Spec.defaultModelOf (Spec.modeOf input));
         r_payload :=
           Reading.upscalePayload input
             (orElse (u_model input)
                (Spec.defaultModelOf (Spec.modeOf input))) |}.
Proof.
  unfold buildUpscaleRequest, resolveUpscaleModel, Spec.modeOf. cbv zeta.
  unfold Reading.upscalePayload, Reading.freeParams, Reading.gatedOrder.
  cbn [map app fold_left fst snd Reading.paramValue Spec.paramName].
  destruct (u_mode input) as [[| |]|] eqn:Em.
  all: cbn [orElse isMode UpscaleMode_eqb negb andb Spec.defaultModelOf
              Spec.endpointOf].
  all: match goal with
       | |- context [throwIf ?c _] => destruct c; cbn [throwIf rbind]
       end; try (intros E; discriminate E).
  all: match goal with
       | |- context [if negb ?c then Throw _ else Ok _] =>
           destruct c; cbn [negb rbind]
       end; try (intros E; discriminate E).
  all: repeat gate_ok_step.
  all: intros [= <-]; reflexivity.
Qed.

Lemma UpscaleMode_eqb_eq (a b : UpscaleMode) :
  UpscaleMode_eqb a b = true <-> a = b.
Proof. destruct a, b; cbn; split; intros E; try reflexivity; discriminate E. Qed.

(** X8. An upscale request that is built carries exactly what was
    supplied: width, height, image URL and the resolved model name, then
    each optional parameter that was given, unchanged, under its own key
    (the batch size under [batchSize]), and no key for a parameter that was
    not given.  A gated parameter that was given is one the mode allows. *)
Theorem upscale_request_carries_supplied_parameters (input : UpscaleInput)
    (r : UpscaleRequest) :
  buildUpscaleRequest input = Ok r ->
  r_payload r = Reading.upscalePayload input (r_normalizedModel r)
  /\ r_normalizedModel r
     = orElse (u_model input) (Spec.defaultModelOf (Spec.modeOf input))
  /\ In (r_normalizedModel r) (Spec.modelsOf (Spec.modeOf input))
  /\ Spec.field (r_payload r) "width" = Some (VInt (u_width input))
  /\ Spec.field (r_payload r) "height" = Some (VInt (u_height input))
  /\ Spec.field (r_payload r) "image_url" = Some (VString (u_image_url input))
  /\ Spec.field (r_payload r) "model" = Some (VString (r_normalizedModel r))
  /\ (forall kv, In kv (Reading.freeParams input) ->
                 Spec.field (r_payload r) (fst kv) = snd kv)
  /\ (forall p, Spec.field (r_payload r) (Spec.paramName p)
                = Reading.paramValue input p)
  /\ (forall p, Spec.supplied input p = true ->
                In (Spec.modeOf input) (Spec.allowedModes p)).
Proof.
  intros Hr. pose proof (buildUpscaleRequest_ok input r Hr) as E.
  pose proof (buildUpscaleRequest_first_violation input) as R.
  destruct (Spec.firstViolated input) as [c|] eqn:Ef; [congruence|].
  clear R. subst r. cbn [r_payload r_normalizedModel].
  split; [reflexivity|]. split; [reflexivity|]. split.
  { pose proof (find_none _ _ Ef Spec.ModelName) as Hm.
    cbn [Spec.violated] in Hm. apply existsb_eqb_In.
    apply negb_false_iff, Hm. cbn. tauto. }
  unfold Reading.upscalePayload, Reading.freeParams, Reading.gatedOrder.
  cbn [map app fold_left fst snd Reading.paramValue Spec.paramName].
  split; [read_field|]. split; [read_field|]. split; [read_field|].
  split; [read_field|]. split; [|split].
  - intros kv Hkv. cbn [In] in Hkv.
    repeat (destruct Hkv as [<-|Hkv]; [cbn [fst snd]; read_field|]).
    contradiction Hkv.
  - intros p. destruct p; cbn [Reading.paramValue Spec.paramName]; read_field.
  - intros p Hp. pose proof (find_none _ _ Ef (Spec.Gate p)
                               (gate_in_checkOrder p)) as Hg.
    cbn [Spec.violated] in Hg. rewrite Hp in Hg. cbn [andb] in Hg.
    apply negb_false_iff, existsb_exists in Hg as (m & Hm & Heq).
    apply UpscaleMode_eqb_eq in Heq. subst m. exact Hm.
Qed.

Lemma upscale_request_witness :
  let input := Demo.upscaleInput (Some generative) 1024 2048 (Some (1 # 2))
                 (Some 6) in
  exists r,
    buildUpscaleRequest input = Ok r
    /\ Spec.field (r_payload r) "height" = Some (VInt 2048)
    /\ Spec.field (r_payload r) "model" = Some (VString "Redefine")
    /\ Spec.field (r_payload r) "sharpen" = Some (VNumber (1 # 2))
    /\ Spec.field (r_payload r) "creativity" = Some (VInt 6)
    /\ Spec.field (r_payload r) "denoise" = None.
Proof.
  cbv zeta. eexists. split; [reflexivity|].
  match goal with
  | |- context [r_payload ?r] =>
      pose proof (upscale_request_carries_supplied_parameters
                    (Demo.upscaleInput (Some generative) 1024 2048
                       (Some (1 # 2)) (Some 6)) r eq_refl)
        as (_ & _ & _ & _ & Hh & _ & Hm & _ & Hp & _)
  end.
  split; [exact Hh|]. split; [exact Hm|].
  split; [exact (Hp Spec.sharpen)|].
  split; [exact (Hp Spec.creativity)|exact (Hp Spec.denoise)].
Defined.

(** ** The handlers, the API key and the create request *)

Section HandlerEdges.

Context `{Platform}.
Variable env : environment.

Lemma fromEnv_noApiKey :
  Reading.noApiKey env ->
  fromEnv env = Throw (Error "KREA_API_KEY is not set.").
Proof. unfold fromEnv. intros [-> | ->]; reflexivity. Qed.

(** What [request] sends, and the two ways it can end. *)
Lemma request_sends (client : KreaClient) (path method : string)
    (body : option string) (w : world) :
  let req := {| req_method := method;
                req_url := baseUrl client ++ path;
                req_headers := [("Authorization", "Bearer " ++ apiKey client);
                                ("Content-Type", "application/json")];
                req_body := body |} in
  (exists v, request env client path method body w
             = Returned v (afterFetch env w req))
  \/ (exists e, request env client path method body w
                = Threw e (afterFetch env w req)
                /\ Spec.transportError e
                /\ forall r, net env (List.length (requests w)) req = Responds r ->
                             exists message text,
                               e = KreaApiError message (resp_status r) text
                               /\ resp_ok r = false).
Proof.
  cbv zeta. unfold request, bind, fetch, afterFetch.
  match goal with
  | |- context [net env ?k ?r] => destruct (net env k r) as [r'|message]
  end.
  - destruct (resp_ok r') eqn:Eok; cbn [negb].
    + left. eexists. reflexivity.
    + right. eexists. split; [reflexivity|]. split; [exact I|].
      intros r [= <-]. eauto.
  - right. eexists. split; [reflexivity|]. split; [exact I|]. discriminate.
Qed.

(** X9. Without an API key in the environment (unset or empty) no handler
    sends anything: each throws in the world it started in, and the error
    is the one of the missing key as soon as the input passes its own
    validation. *)
Theorem no_api_key_no_request (fuel : nat) (w : world) :
  Reading.noApiKey env ->
  (forall input,
      (exists e, krea_generate_image env fuel input w = Threw e w)
      /\ (validateInputByModel input (KREA_IMAGE_MODELS (g_model input)) = Ok tt ->
          krea_generate_image env fuel input w
          = Threw (Error "KREA_API_KEY is not set.") w))
  /\ (forall input,
         (exists e, Index.krea_generate_image env fuel input w = Threw e w)
         /\ (validateInputByModel input (KREA_IMAGE_MODELS (g_model input))
             = Ok tt ->
             Index.krea_generate_image env fuel input w
             = Threw (Error "KREA_API_KEY is not set.") w))
  /\ (forall input,
         (exists e, krea_upscale_image env fuel input w = Threw e w)
         /\ (forall r, buildUpscaleRequest input = Ok r ->
                       krea_upscale_image env fuel input w
                       = Threw (Error "KREA_API_KEY is not set.") w)).
Proof.
  intros Hkey. pose proof (fromEnv_noApiKey Hkey) as Hfrom.
  split; [|split]; intros input.
  - unfold krea_generate_image. cbv zeta. unfold bind at 1.
    destruct (validateInputByModel input (KREA_IMAGE_MODELS (g_model input)))
      as [[]|e]; cbn [lift ret throw].
    + unfold bind at 1. rewrite Hfrom. cbn [lift throw]. split; eauto.
    + split; [eauto|discriminate].
  - unfold Index.krea_generate_image. cbv zeta. unfold bind at 1.
    destruct (validateInputByModel input (KREA_IMAGE_MODELS (g_model input)))
      as [[]|e]; cbn [lift ret throw].
    + unfold bind at 1. rewrite Hfrom. cbn [lift throw]. split; eauto.
    + split; [eauto|discriminate].
  - unfold krea_upscale_image. cbv zeta. unfold bind at 1.
    destruct (buildUpscaleRequest input) as [r|e]; cbn [lift ret throw].
    + unfold bind at 1. rewrite Hfrom. cbn [lift throw]. split; eauto.
    + split; [eauto|discriminate].
Qed.

(** X10. A create request that fails is not tried again and nothing is
    polled: when the answer to the create request has a status outside
    200-299, the handler throws the [KreaApiError] with that status in the
    world right after that one request; and whatever error the create
    request ends with is the error of the invocation. *)
Theorem failed_create_request_is_final (fuel : nat) (w : world)
    (client : KreaClient) :
  fromEnv env = Ok client ->
  (forall input,
      validateInputByModel input (KREA_IMAGE_MODELS (g_model input)) = Ok tt ->
      let model := KREA_IMAGE_MODELS (g_model input) in
      let req := Reading.createRequest client (endpoint model)
                   (buildPayload input model) in
      (forall e w1,
          generateImage env client (endpoint model) (buildPayload input model) w
          = Threw e w1 ->
          krea_generate_image env fuel input w = Threw e w1)
      /\ (forall r,
             net env (List.length (requests w)) req = Responds r ->
             resp_ok r = false ->
             exists message text,
               krea_generate_image env fuel input w
               = Threw (KreaApiError message (resp_status r) text)
                   (afterFetch env w req)))
  /\ (forall input built,
         buildUpscaleRequest input = Ok built ->
         let req := Reading.createRequest client (r_endpoint built)
                      (r_payload built) in
         (forall e w1,
             generateImage env client (r_endpoint built) (r_payload built) w
             = Threw e w1 ->
             krea_upscale_image env fuel input w = Threw e w1)
         /\ (forall r,
                net env (List.length (requests w)) req = Responds r ->
                resp_ok r = false ->
                exists message text,
                  krea_upscale_image env fuel input w
                  = Threw (KreaApiError message (resp_status r) text)
                      (afterFetch env w req))).
Proof.
  intros Hclient. split.
  - intros input Hval. cbv zeta.
    assert (forall e w1,
               generateImage env client
                 (endpoint (KREA_IMAGE_MODELS (g_model input)))
                 (buildPayload input (KREA_IMAGE_MODELS (g_model input))) w
               = Threw e w1 ->
               krea_generate_image env fuel input w = Threw e w1) as Hpass.
    { intros e w1 Hsub. unfold krea_generate_image. cbv zeta.
      unfold bind at 1. rewrite (lift_ok _ _ _ Hval).
      unfold bind at 1. rewrite (lift_ok _ _ _ Hclient).
      unfold bind at 1. rewrite Hsub. reflexivity. }
    split; [exact Hpass|]. intros r Hnet Hbad.
    destruct (request_sends client
                (endpoint (KREA_IMAGE_MODELS (g_model input))) "POST"
                (JSON_stringify
                   (VObject (buildPayload input
                               (KREA_IMAGE_MODELS (g_model input))))) w)
      as [[v Hv]|(e & He & _ & Hshape)].
    + exfalso. unfold request, bind, fetch in Hv.
      unfold Reading.createRequest in Hnet. rewrite Hnet, Hbad in Hv.
      discriminate Hv.
    + destruct (Hshape r Hnet) as (message & text & -> & _).
      exists message, text. apply Hpass. exact He.
  - intros input built Hbuilt. cbv zeta.
    assert (forall e w1,
               generateImage env client (r_endpoint built) (r_payload built) w
               = Threw e w1 ->
               krea_upscale_image env fuel input w = Threw e w1) as Hpass.
    { intros e w1 Hsub. unfold krea_upscale_image. cbv zeta.
      unfold bind at 1. rewrite (lift_ok _ _ _ Hbuilt).
      unfold bind at 1. rewrite (lift_ok _ _ _ Hclient).
      unfold bind at 1. rewrite Hsub. reflexivity. }
    split; [exact Hpass|]. intros r Hnet Hbad.
    destruct (request_sends client (r_endpoint built) "POST"
                (JSON_stringify (VObject (r_payload built))) w)
      as [[v Hv]|(e & He & _ & Hshape)].
    + exfalso. unfold request, bind, fetch in Hv.
      unfold Reading.createRequest in Hnet. rewrite Hnet, Hbad in Hv.
      discriminate Hv.
    + destruct (Hshape r Hnet) as (message & text & -> & _).
      exists message, text. apply Hpass. exact He.
Qed.

End HandlerEdges.

Lemma no_api_key_witness :
  let input := Demo.generateInput flux_1_dev "x" None None None in
  krea_generate_image (H := Demo.platform) Reading.keyless 5 input
    (initial_world 0)
  = Threw (Error "KREA_API_KEY is not set.") (initial_world 0).
Proof.
  cbv zeta.
  apply (proj1 (@no_api_key_no_request Demo.platform Reading.keyless 5
                  (initial_world 0) (or_introl eq_refl))
           (Demo.generateInput flux_1_dev "x" None None None)).
  reflexivity.
Defined.

Lemma failed_create_request_witness :
  let env := Demo.environmentOf None [Demo.respond 503 "down"] 3 in
  let input := Demo.generateInput flux_1_dev "x" None None None in
  exists message text w1,
    krea_generate_image (H := Demo.platform) env 5 input (initial_world 0)
    = Threw (KreaApiError message 503 text) w1
    /\ List.length (requests w1) = 1%nat /\ sleeps w1 = [].
Proof.
  cbv zeta.
  destruct (proj2 (proj1 (@failed_create_request_is_final Demo.platform
                            (Demo.environmentOf None [Demo.respond 503 "down"] 3)
                            5 (initial_world 0) Demo.client eq_refl)
                     (Demo.generateInput flux_1_dev "x" None None None) eq_refl)
              {| resp_status := 503; resp_text := "down" |} eq_refl eq_refl)
    as (message & text & E).
  exists message, text. eexists. split; [exact E|]. split; reflexivity.
Defined.

(** ** The traffic of the poller *)

Section PollTraffic.

Context `{Platform}.
Variable env : environment.
Variables (client : KreaClient) (jobId : string).
Variables (pollIntervalMs timeoutMs : Z).

(** Every request of the loop is the job request, and the number of
    rounds is bounded by the time left. *)
Lemma pollLoop_traffic (deadline : Z) (fuel : nat) :
  forall w,
    match pollLoop env fuel client jobId pollIntervalMs deadline timeoutMs w with
    | Returned _ w' | Threw _ w' =>
        exists m,
          requests w'
          = (requests w ++ repeat (Reading.pollRequest client jobId) m)%list
          /\ (Spec.timePasses env -> 1 <= pollIntervalMs ->
              clock w <= clock w'
              /\ (m = 0%nat
                  \/ (Z.of_nat m - 1) * pollIntervalMs < deadline - clock w))
    | Unfinished => True
    end.
Proof.
  induction fuel as [|fuel' IH]; intros w; cbn [pollLoop]; [exact I|].
  unfold bind at 1, Date_now.
  destruct (clock w <? deadline) eqn:Enow.
  - apply Z.ltb_lt in Enow. unfold bind at 1, getJob.
    destruct (request_sends env client ("/jobs/" ++ encodeURIComponent jobId)
                "GET" None w) as [[raw ->]|(e & -> & _)].
    + destruct (pickJob_total raw) as [j [Hj _]].
      unfold bind at 1. rewrite (lift_ok _ _ _ Hj).
      destruct (readString_total ["status"] j) as [st Hst].
      unfold bind at 1. rewrite (lift_ok _ _ _ Hst).
      destruct (isTerminalStatus (normalizeStatus (ofReadString st))).
      * cbn [ret]. exists 1%nat. split; [reflexivity|].
        intros [Hnet _] _. cbn [clock afterFetch].
        specialize (Hnet (List.length (requests w))). split; [lia|right; lia].
      * unfold bind at 1, sleep.
        match goal with
        | |- context [pollLoop env fuel' _ _ _ _ _ ?w2] =>
            specialize (IH w2);
            destruct (pollLoop env fuel' client jobId pollIntervalMs deadline
                        timeoutMs w2) as [r w'|e w'|]
        end; [| |exact I].
        all: destruct IH as (m & Hreq & Hbound); exists (S m);
          cbn [requests clock sleeps afterFetch] in Hreq, Hbound;
          (split; [rewrite Hreq, <- app_assoc; reflexivity|]);
          intros Htime Hp; destruct (Hbound Htime Hp) as [Hclock Hm];
          destruct Htime as [Hnet Hlag];
          specialize (Hnet (List.length (requests w)));
          specialize (Hlag (List.length (sleeps w)));
          (split; [lia|right]);
          destruct Hm as [->|Hm]; [cbn; lia|nia].
    + exists 1%nat. split; [reflexivity|].
      intros [Hnet _] _. cbn [clock afterFetch].
      specialize (Hnet (List.length (requests w))). split; [lia|right; lia].
  - cbn [throw]. exists 0%nat. cbn [repeat]. rewrite app_nil_r.
    split; [reflexivity|]. intros _ _. split; [lia|left; reflexivity].
Qed.

Lemma waitForJobCompletion_traffic (initial : value) (fuel : nat) (w : world) :
  match waitForJobCompletion env fuel client jobId initial pollIntervalMs
          timeoutMs w with
  | Returned _ w' | Threw _ w' =>
      exists m,
        requests w'
        = (requests w ++ repeat (Reading.pollRequest client jobId) m)%list
        /\ (Spec.timePasses env -> 1 <= pollIntervalMs ->
            clock w <= clock w'
            /\ (m = 0%nat \/ (Z.of_nat m - 1) * pollIntervalMs < timeoutMs))
  | Unfinished => True
  end.
Proof.
  unfold waitForJobCompletion. cbv zeta.
  destruct (readString_total ["status"] (orElse (asObject initial) (VObject [])))
    as [st Hst].
  unfold bind at 1. rewrite (lift_ok _ _ _ Hst).
  destruct (isTerminalStatus (normalizeStatus (ofReadString st))).
  - cbn [ret]. exists 0%nat. cbn [repeat]. rewrite app_nil_r.
    split; [reflexivity|]. intros _ _. split; [lia|left; reflexivity].
  - unfold bind at 1, Date_now.
    pose proof (pollLoop_traffic (clock w + timeoutMs) fuel w) as T.
    destruct (pollLoop env fuel client jobId pollIntervalMs
                (clock w + timeoutMs) timeoutMs w) as [r w'|e w'|];
      [| |exact I].
    all: destruct T as (m & Hreq & Hbound); exists m; split; [exact Hreq|];
      intros Htime Hp; destruct (Hbound Htime Hp) as [Hclock Hm];
      split; [exact Hclock|]; destruct Hm as [->|Hm]; [left; reflexivity|];
      right; lia.
Qed.

(** X11. While it waits for a job, the poller only reads: every request
    it sends is the same GET of [/jobs/<encoded job id>] under the client's
    base URL, with the bearer key and no body. *)
Theorem polling_only_reads_the_job (initial : value) (fuel : nat) (w : world) :
  match waitForJobCompletion env fuel client jobId initial pollIntervalMs
          timeoutMs w with
  | Returned _ w' | Threw _ w' =>
      exists m,
        requests w'
        = (requests w ++ repeat (Reading.pollRequest client jobId) m)%list
  | Unfinished => True
  end
  /\ req_method (Reading.pollRequest client jobId) = "GET"
  /\ req_body (Reading.pollRequest client jobId) = None
  /\ req_url (Reading.pollRequest client jobId)
     = baseUrl client ++ "/jobs/" ++ encodeURIComponent jobId
  /\ In ("Authorization", "Bearer " ++ apiKey client)
       (req_headers (Reading.pollRequest client jobId)).
Proof.
  split; [|repeat split; cbn; tauto].
  pose proof (waitForJobCompletion_traffic initial fuel w) as T.
  destruct (waitForJobCompletion env fuel client jobId initial pollIntervalMs
              timeoutMs w) as [r w'|e w'|]; [| |exact I].
  all: destruct T as (m & Hreq & _); exists m; exact Hreq.
Qed.


End PollTraffic.


(** ** What a handler that waited reports *)

Lemma bind_returned {A B} (m : M A) (k : A -> M B) (w w' : world) (b : B) :
  bind m k w = Returned b w' ->
  exists a w1, m w = Returned a w1 /\ k a w1 = Returned b w'.
Proof.
  unfold bind. destruct (m w) as [a w1| |]; try discriminate. eauto.
Qed.

Lemma lift_returned {A} (r : result A) (w w1 : world) (a : A) :
  lift r w = Returned a w1 -> r = Ok a /\ w1 = w.
Proof.
  destruct r; cbn [lift ret throw]; [|discriminate].
  intros [= -> ->]. auto.
Qed.

(** One statement of a handler that returned: its result and the world
    it left. *)
Ltac handler_step H :=
  let a := fresh "a" in
  let w1 := fresh "w" in
  let E := fresh "E" in
  apply bind_returned in H; destruct H as (a & w1 & E & H); cbv beta in H;
  try (apply lift_returned in E; destruct E as [E ->]).

Section WaitedResults.

Context `{Platform}.
Variable env : environment.

(** The poller never hands back a job that is not terminal. *)
Lemma waitForJobCompletion_terminal (fuel : nat) (client : KreaClient)
    (jobId : string) (initial : value) (pollIntervalMs timeoutMs : Z)
    (w w' : world) (r : JobResult) :
  waitForJobCompletion env fuel client jobId initial pollIntervalMs timeoutMs w
  = Returned r w' ->
  Spec.terminalJob (job r).
Proof.
  unfold waitForJobCompletion. cbv zeta. intros Hrun.
  handler_step Hrun.
  destruct (isTerminalStatus (normalizeStatus (ofReadString a))) eqn:Et.
  - cbn [ret] in Hrun. injection Hrun as <- <-. cbn [job]. exists a. auto.
  - handler_step Hrun. unfold Date_now in E0. injection E0 as <- <-.
    pose proof (pollLoop_outcome env client jobId pollIntervalMs timeoutMs
                  (clock w + timeoutMs) fuel w) as Hout.
    rewrite Hrun in Hout. tauto.
Qed.

(** The status field of a result whose job is terminal. *)
Lemma terminal_status_reported (finalJob : value) (finalStatus : option string) :
  Spec.terminalJob finalJob ->
  readString finalJob ["status"] = Ok finalStatus ->
  isTerminalStatus (normalizeStatus (ofReadString finalStatus)) = true.
Proof. intros (st & Hst & Ht) Hread. congruence. Qed.

(** X13. A handler that waits for completion returns a result only for a
    job that reached a terminal status: the status it reports is
    [completed], [failed] or [cancelled], and the job it reports is the
    one with that status.  This holds for both copies of the generate
    handler and for the upscale handler. *)
Theorem waited_result_reports_a_terminal_status (fuel : nat) (w w' : world)
    (out : ToolResult) :
  (forall input,
      g_wait_for_completion input <> Some false ->
      krea_generate_image env fuel input w = Returned out w' ->
      exists s, Reading.reportedStatus out = Ok (VString s)
                /\ isTerminalStatus s = true)
  /\ (forall input,
         g_wait_for_completion input <> Some false ->
         Index.krea_generate_image env fuel input w = Returned out w' ->
         exists s, Reading.reportedStatus out = Ok (VString s)
                   /\ isTerminalStatus s = true)
  /\ (forall input,
         u_wait_for_completion input <> Some false ->
         krea_upscale_image env fuel input w = Returned out w' ->
         exists s, Reading.reportedStatus out = Ok (VString s)
                   /\ isTerminalStatus s = true).
Proof.
  split; [|split]; intros input Hwait Hrun.
  - unfold krea_generate_image in Hrun. cbv zeta in Hrun.
    do 6 handler_step Hrun.
    destruct (usableId a4) as [jobId|]; [|discriminate Hrun].
    destruct (g_wait_for_completion input) as [[|]|]; try contradiction;
      cbn [orElse negb] in Hrun.
    all: do 4 handler_step Hrun; cbn [ret] in Hrun; injection Hrun as <- <-;
      eexists; split; [reflexivity|];
      eapply terminal_status_reported; [|eassumption];
      eapply waitForJobCompletion_terminal; eassumption.
  - unfold Index.krea_generate_image in Hrun. cbv zeta in Hrun.
    do 5 handler_step Hrun.
    destruct (usableId a3) as [jobId|]; [|discriminate Hrun].
    destruct (g_wait_for_completion input) as [[|]|]; try contradiction;
      cbn [orElse negb] in Hrun.
    all: do 4 handler_step Hrun; cbn [ret] in Hrun; injection Hrun as <- <-;
      eexists; split; [reflexivity|];
      eapply terminal_status_reported; [|eassumption];
      eapply waitForJobCompletion_terminal; eassumption.
  - unfold krea_upscale_image in Hrun. cbv zeta in Hrun.
    do 6 handler_step Hrun.
    destruct (usableId a4) as [jobId|]; [|discriminate Hrun].
    destruct (u_wait_for_completion input) as [[|]|]; try contradiction;
      cbn [orElse negb] in Hrun.
    all: do 4 handler_step Hrun; cbn [ret] in Hrun; injection Hrun as <- <-;
      eexists; split; [reflexivity|];
      eapply terminal_status_reported; [|eassumption];
      eapply waitForJobCompletion_terminal; eassumption.
Qed.

End WaitedResults.

Lemma waited_result_witness :
  let env :=
    Demo.environmentOf None
      [Demo.respond 200 (Demo.render Demo.runningJob);
       Demo.respond 200 (Demo.render Demo.completedJob)] 3 in
  let input := Demo.generateInput flux_1_dev "x" None None None in
  exists out w',
    krea_generate_image (H := Demo.platform) env 5 input (initial_world 0)
    = Returned out w'
    /\ exists s, Reading.reportedStatus out = Ok (VString s)
                 /\ isTerminalStatus s = true.
Proof.
  cbv zeta. eexists. eexists. split; [vm_compute; reflexivity|].
  eapply (proj1 (@waited_result_reports_a_terminal_status Demo.platform
                   (Demo.environmentOf None
                      [Demo.respond 200 (Demo.render Demo.runningJob);
                       Demo.respond 200 (Demo.render Demo.completedJob)] 3)
                   5 (initial_world 0) _ _)
            (Demo.generateInput flux_1_dev "x" None None None)).
  - discriminate.
  - vm_compute. reflexivity.
Defined.

(** ** Reading along a path *)

Lemma readUnknown_undefined (path : list string) :
  readUnknown VUndefined path = Ok VUndefined.
Proof. destruct path; reflexivity. Qed.

Lemma lookup_absent (fields : list (string * value)) (key : string) :
  Js.hasKey fields key = false -> Js.lookup fields key = VUndefined.
Proof.
  induction fields as [|[k v] rest IH]; cbn [Js.hasKey Js.lookup];
    [reflexivity|].
  destruct (String.eqb k key); [discriminate|]. exact IH.
Qed.

(** X14. Reading along a path is reading its first part and then the rest
    from what was found: [readUnknown(obj, ...p, ...q)] is
    [readUnknown(readUnknown(obj, ...p), ...q)].  One of the keys the
    program reads (job, id, job_id, status, result, error, data, output)
    that the object does not have, or a step into something that is not an
    object, gives [undefined] for the whole path, never an error; so does
    the string reader for anything that is not a string. *)
Theorem readUnknown_follows_the_path (obj : value) (p q : list string) :
  readUnknown obj (p ++ q)
  = (try! found <- readUnknown obj p; readUnknown found q)%result
  /\ (forall fields key,
         Js.isDataKey key = true ->
         Js.hasKey fields key = false ->
         readUnknown (VObject fields) (key :: q) = Ok VUndefined)
  /\ (forall v key,
         Spec.notAnObject v = true ->
         readUnknown v (key :: q) = Ok VUndefined)
  /\ (forall found,
         readUnknown obj p = Ok found ->
         readString obj p
         = Ok match found with
              | VString s => Some s
              | _ => None
              end).
Proof.
  split; [|split; [|split]].
  - revert obj. induction p as [|key rest IH]; intros obj.
    + reflexivity.
    + cbn [app readUnknown].
      destruct (negb (Js.truthy obj) || negb (Js.typeofObject obj)) eqn:E.
      * cbn [rbind]. destruct q; reflexivity.
      * assert (Js.truthy obj && Js.typeofObject obj = true) as Hobj.
        { apply orb_false_iff in E as [E1 E2].
          apply negb_false_iff in E1, E2. rewrite E1, E2. reflexivity. }
        destruct (get_of_object obj key Hobj) as [next ->]. cbn [rbind].
        apply IH.
  - intros fields key _ Hkey.
    cbn [readUnknown Js.truthy Js.typeofObject negb orb Js.get rbind].
    rewrite (lookup_absent fields key Hkey). apply readUnknown_undefined.
  - intros v key Hv. cbn [readUnknown].
    destruct v; try discriminate Hv; cbn [Js.truthy Js.typeofObject negb];
      rewrite ?orb_true_r; reflexivity.
  - intros found Hfound. unfold readString. rewrite Hfound. reflexivity.
Qed.

(** ** The size string *)




(** [roundToDouble] rounds to nearest, ties to even: from [2^53] on the
    result is a significand of 53 bits times a power of two, off by at
    most half a unit of the last place, with an even significand when it
    is off by exactly half; and only the numbers from [2^1024 - 2^970] on
    have no finite double. *)
Lemma roundToDouble_nearest (n : Z) :
  2 ^ 53 <= n ->
  match Js.roundToDouble n with
  | Some d =>
      exists m e,
        d = m * 2 ^ e /\ 0 < e /\ 2 ^ 52 <= m <= 2 ^ 53
        /\ 2 * Z.abs (n - d) <= 2 ^ e
        /\ (2 * Z.abs (n - d) = 2 ^ e -> Z.even m = true)
  | None => 2 ^ 1024 - 2 ^ 970 <= n
  end.
Proof.
  intros Hn. unfold Js.roundToDouble.
  destruct (n <? 2 ^ 53) eqn:Elt; [apply Z.ltb_lt in Elt; lia|].
  clear Elt. cbv zeta.
  assert (53 <= Z.log2 n) as Hlog.
  { rewrite <- (Z.log2_pow2 53) by lia. apply Z.log2_le_mono. exact Hn. }
  set (e := Z.log2 n - 52).
  assert (0 < e) as He by (unfold e; lia).
  destruct (Z.log2_spec n) as [Hlo Hhi]; [lia|].
  replace (Z.log2 n) with (e + 52) in Hlo by (unfold e; lia).
  replace (Z.succ (Z.log2 n)) with (e + 53) in Hhi by (unfold e; lia).
  rewrite Z.pow_add_r in Hlo, Hhi by lia.
  rewrite Z.shiftr_div_pow2 by lia.
  set (p := 2 ^ e) in *.
  assert (0 < p) as Hp by (apply Z.pow_pos_nonneg; lia).
  set (q := n / p).
  rewrite !Z.shiftl_mul_pow2 by lia. fold p.
  assert (Hhalf : 2 * 2 ^ (e - 1) = p).
  { unfold p. replace e with (Z.succ (e - 1)) at 2 by lia.
    rewrite Z.pow_succ_r by lia. reflexivity. }
  set (half := 2 ^ (e - 1)) in *.
  rewrite Z.mul_1_l.
  pose proof (Z.div_mod n p ltac:(lia)) as Hdm. fold q in Hdm.
  pose proof (Z.mod_pos_bound n p Hp) as Hr.
  set (r := n mod p) in *.
  replace (n - q * p) with r by lia.
  set (c52 := 2 ^ 52) in *. set (c53 := 2 ^ 53) in *.
  assert (c53 = 2 * c52) as Hc by reflexivity.
  assert (0 < c52) as Hc52 by reflexivity.
  assert (c52 <= q < c53) as Hq by (split; nia).
  assert (Hodd : forall z, Z.odd z = true -> Z.even (z + 1) = true).
  { intros z Hz. rewrite Z.even_add, <- Z.negb_odd, Hz. reflexivity. }
  destruct ((half <? r) || ((r =? half) && Z.odd q)) eqn:Eup.
  - assert (half <= r) as Hup.
    { apply orb_true_iff in Eup as [E|E]; [apply Z.ltb_lt in E; lia|].
      apply andb_true_iff in E as [E _]. apply Z.eqb_eq in E. lia. }
    destruct ((q + 1) * p <? 2 ^ 1024) eqn:Efin.
    + exists (q + 1), e. split; [reflexivity|]. split; [exact He|].
      split; [lia|]. split; [lia|].
      intros Htie. assert (r = half) as Er by lia.
      apply orb_true_iff in Eup as [E|E]; [apply Z.ltb_lt in E; lia|].
      apply andb_true_iff in E as [_ E]. apply Hodd, E.
    + apply Z.ltb_ge in Efin.
      destruct (Z.le_gt_cases e 971) as [Hsmall|Hbig].
      * assert (p <= 2 ^ 971) as Hp971
            by (apply Z.pow_le_mono_r; lia).
        assert (2 ^ 971 = 2 * 2 ^ 970) as H971 by reflexivity.
        lia.
      * assert (2 ^ 972 <= p) as Hp972 by (apply Z.pow_le_mono_r; lia).
        assert (2 ^ 1024 = 2 ^ 972 * c52) as H1024 by reflexivity.
        assert (0 < 2 ^ 970) as H970 by reflexivity.
        nia.
  - assert (r <= half) as Hdown.
    { apply orb_false_iff in Eup as [E _]. apply Z.ltb_ge in E. exact E. }
    destruct (q * p <? 2 ^ 1024) eqn:Efin.
    + exists q, e. split; [reflexivity|]. split; [exact He|].
      split; [lia|]. split; [lia|].
      intros Htie. assert (r = half) as Er by lia.
      apply orb_false_iff in Eup as [_ E].
      apply andb_false_iff in E as [E|E]; [apply Z.eqb_neq in E; lia|].
      rewrite <- Z.negb_odd, E. reflexivity.
    + apply Z.ltb_ge in Efin. assert (0 < 2 ^ 970) as H970 by reflexivity.
      lia.
Qed.



(** ** The requests of an invocation *)

Lemma leaves_bind {A B} (m : M A) (k : A -> M B) (w : world)
    (P : world -> Prop) :
  (forall e w1, m w = Threw e w1 -> P w1) ->
  (forall a w1, m w = Returned a w1 -> Reading.leaves (k a w1) P) ->
  Reading.leaves (bind m k w) P.
Proof.
  intros Hthrow Hret. unfold bind.
  destruct (m w) as [a w1|e w1|]; cbn [Reading.leaves]; eauto.
Qed.

Lemma leaves_lift {A B} (r : result A) (k : A -> M B) (w : world)
    (P : world -> Prop) :
  P w ->
  (forall a, r = Ok a -> Reading.leaves (k a w) P) ->
  Reading.leaves (bind (lift r) k w) P.
Proof.
  intros Hw Hk. destruct r as [a|e]; unfold bind; cbn [lift ret throw].
  - apply Hk. reflexivity.
  - exact Hw.
Qed.

Section InvocationTraffic.

Context `{Platform}.
Variable env : environment.
Variables (fuel : nat) (w : world).

Lemma traffic_created (client : KreaClient) (endpoint : string)
    (payload : list (string * value)) (waits : bool) (jobId : string)
    (w1 : world) :
  fromEnv env = Ok client ->
  requests w1
  = (requests w ++ [Reading.createRequest client endpoint payload])%list ->
  sleeps w1 = sleeps w ->
  Reading.invocationTraffic env w endpoint payload waits w1.
Proof.
  intros Hclient Hr Hs. right. exists client, jobId, 0%nat.
  split; [exact Hclient|]. split; [rewrite Hr; reflexivity|].
  intros _. split; [reflexivity|exact Hs].
Qed.

Lemma traffic_polled (client : KreaClient) (endpoint : string)
    (payload : list (string * value)) (jobId : string) (m : nat)
    (w1 w2 : world) :
  fromEnv env = Ok client ->
  requests w1
  = (requests w ++ [Reading.createRequest client endpoint payload])%list ->
  requests w2 = (requests w1 ++ repeat (Reading.pollRequest client jobId) m)%list ->
  Reading.invocationTraffic env w endpoint payload true w2.
Proof.
  intros Hclient Hr1 Hr2. right. exists client, jobId, m.
  split; [exact Hclient|]. split; [|discriminate].
  rewrite Hr2, Hr1, <- app_assoc. reflexivity.
Qed.

Lemma generateImage_world (client : KreaClient) (endpoint : string)
    (payload : list (string * value)) :
  Reading.leaves (generateImage env client endpoint payload w)
    (fun w1 =>
       requests w1
       = (requests w ++ [Reading.createRequest client endpoint payload])%list
       /\ sleeps w1 = sleeps w).
Proof.
  unfold generateImage.
  destruct (request_sends env client endpoint "POST"
              (JSON_stringify (VObject payload)) w)
    as [[v ->]|(e & -> & _)]; cbn [Reading.leaves]; split; reflexivity.
Qed.

(** X16. The requests of an invocation, however it ends: nothing at all,
    or the create request (the POST of the payload to the endpoint)
    followed only by job requests, all for one job id.  An invocation that
    does not wait for completion sends no job request and starts no
    timer. *)
Theorem an_invocation_creates_then_polls (input : GenerateInput) :
  let model := KREA_IMAGE_MODELS (g_model input) in
  let waits := orElse (g_wait_for_completion input) true in
  Reading.leaves (krea_generate_image env fuel input w)
    (Reading.invocationTraffic env w (endpoint model)
       (buildPayload input model) waits)
  /\ Reading.leaves (Index.krea_generate_image env fuel input w)
       (Reading.invocationTraffic env w (endpoint model)
          (Index.buildPayload input model) waits).
Proof.
  cbv zeta. split.
  - unfold krea_generate_image. cbv zeta.
    apply leaves_lift; [left; split; reflexivity|intros [] _].
    apply leaves_lift; [left; split; reflexivity|intros client Hclient].
    pose proof (generateImage_world client
                  (endpoint (KREA_IMAGE_MODELS (g_model input)))
                  (buildPayload input (KREA_IMAGE_MODELS (g_model input))))
      as Hcreate.
    apply leaves_bind.
    + intros e w1 Hrun. rewrite Hrun in Hcreate. destruct Hcreate as [Hr Hs].
      apply (traffic_created client _ _ _ ""); assumption.
    + intros createResponse w1 Hrun. rewrite Hrun in Hcreate.
      destruct Hcreate as [Hr Hs].
      assert (Reading.invocationTraffic env w
                (endpoint (KREA_IMAGE_MODELS (g_model input)))
                (buildPayload input (KREA_IMAGE_MODELS (g_model input)))
                (orElse (g_wait_for_completion input) true) w1) as Hw1.
      { apply (traffic_created client _ _ _ ""); assumption. }
      apply leaves_lift; [exact Hw1|intros createJob _].
      apply leaves_lift; [exact Hw1|intros id _].
      apply leaves_bind.
      * intros e w2 Hjob. destruct id; cbn [ret] in Hjob; [discriminate Hjob|].
        destruct (readString createJob ["job_id"]); cbn [lift ret throw] in Hjob;
          [discriminate Hjob|]. injection Hjob as _ <-. exact Hw1.
      * intros jobId w2 Hjob.
        assert (w2 = w1) as ->.
        { destruct id; cbn [ret] in Hjob; [inversion Hjob; reflexivity|].
          destruct (readString createJob ["job_id"]);
            cbn [lift ret throw] in Hjob; inversion Hjob; reflexivity. }
        destruct (usableId jobId) as [job|]; [|exact Hw1].
        destruct (orElse (g_wait_for_completion input) true); cbn [negb].
        -- pose proof (waitForJobCompletion_traffic env client job
                         (orElse (g_poll_interval_ms input)
                            DEFAULT_POLL_INTERVAL_MS)
                         (orElse (g_timeout_ms input) DEFAULT_TIMEOUT_MS)
                         createJob fuel w1) as T.
           apply leaves_bind.
           ++ intros e w2 Hwait. rewrite Hwait in T.
              destruct T as (m & Hreq & _).
              apply (traffic_polled client _ _ job m w1); assumption.
           ++ intros final w2 Hwait. rewrite Hwait in T.
              destruct T as (m & Hreq & _).
              assert (Reading.invocationTraffic env w
                        (endpoint (KREA_IMAGE_MODELS (g_model input)))
                        (buildPayload input (KREA_IMAGE_MODELS (g_model input)))
                        true w2) as Hw2.
              { apply (traffic_polled client _ _ job m w1); assumption. }
              apply leaves_lift; [exact Hw2|intros result _].
              apply leaves_lift; [exact Hw2|intros finalStatus _].
              apply leaves_lift; [exact Hw2|intros error _].
              exact Hw2.
        -- apply leaves_lift; [exact Hw1|intros status _]. exact Hw1.
  - unfold Index.krea_generate_image. cbv zeta.
    apply leaves_lift; [left; split; reflexivity|intros [] _].
    apply leaves_lift; [left; split; reflexivity|intros client Hclient].
    pose proof (generateImage_world client
                  (endpoint (KREA_IMAGE_MODELS (g_model input)))
                  (Index.buildPayload input (KREA_IMAGE_MODELS (g_model input))))
      as Hcreate.
    apply leaves_bind.
    + intros e w1 Hrun. rewrite Hrun in Hcreate. destruct Hcreate as [Hr Hs].
      apply (traffic_created client _ _ _ ""); assumption.
    + intros createResponse w1 Hrun. rewrite Hrun in Hcreate.
      destruct Hcreate as [Hr Hs].
      assert (Reading.invocationTraffic env w
                (endpoint (KREA_IMAGE_MODELS (g_model input)))
                (Index.buildPayload input (KREA_IMAGE_MODELS (g_model input)))
                (orElse (g_wait_for_completion input) true) w1) as Hw1.
      { apply (traffic_created client _ _ _ ""); assumption. }
      apply leaves_lift; [exact Hw1|intros createJob _].
      apply leaves_lift; [exact Hw1|intros jobId _].
      destruct (usableId jobId) as [job|]; [|exact Hw1].
      destruct (orElse (g_wait_for_completion input) true); cbn [negb].
      * pose proof (waitForJobCompletion_traffic env client job
                      (orElse (g_poll_interval_ms input)
                         DEFAULT_POLL_INTERVAL_MS)
                      (orElse (g_timeout_ms input) DEFAULT_TIMEOUT_MS)
                      createJob fuel w1) as T.
        apply leaves_bind.
        -- intros e w2 Hwait. rewrite Hwait in T.
           destruct T as (m & Hreq & _).
           apply (traffic_polled client _ _ job m w1); assumption.
        -- intros final w2 Hwait. rewrite Hwait in T.
           destruct T as (m & Hreq & _).
           assert (Reading.invocationTraffic env w
                     (endpoint (KREA_IMAGE_MODELS (g_model input)))
                     (Index.buildPayload input
                        (KREA_IMAGE_MODELS (g_model input)))
                     true w2) as Hw2.
           { apply (traffic_polled client _ _ job m w1); assumption. }
           apply leaves_lift; [exact Hw2|intros result _].
           apply leaves_lift; [exact Hw2|intros finalStatus _].
           apply leaves_lift; [exact Hw2|intros error _].
           exact Hw2.
      * apply leaves_lift; [exact Hw1|intros status _]. exact Hw1.
Qed.

(** X17. The requests of an upscale invocation: nothing when the build
    fails; otherwise nothing, or the create request for the endpoint and
    payload of the built request followed only by job requests for one
    job id, and no job request and no timer when the caller does not
    wait. *)
Theorem an_upscale_invocation_creates_then_polls (input : UpscaleInput) :
  let waits := orElse (u_wait_for_completion input) true in
  Reading.leaves (krea_upscale_image env fuel input w)
    (fun w' =>
       match buildUpscaleRequest input with
       | Ok built =>
           Reading.invocationTraffic env w (r_endpoint built)
             (r_payload built) waits w'
       | Throw _ => requests w' = requests w /\ sleeps w' = sleeps w
       end).
Proof.
  cbv zeta. unfold krea_upscale_image. cbv zeta.
  destruct (buildUpscaleRequest input) as [built|e] eqn:Ebuilt.
  2: { unfold bind. cbn [lift throw Reading.leaves]. split; reflexivity. }
  unfold bind at 1. cbn [lift ret].
  apply leaves_lift; [left; split; reflexivity|intros client Hclient].
  pose proof (generateImage_world client (r_endpoint built) (r_payload built))
    as Hcreate.
  apply leaves_bind.
  - intros e w1 Hrun. rewrite Hrun in Hcreate. destruct Hcreate as [Hr Hs].
    apply (traffic_created client _ _ _ ""); assumption.
  - intros createResponse w1 Hrun. rewrite Hrun in Hcreate.
    destruct Hcreate as [Hr Hs].
    assert (Reading.invocationTraffic env w (r_endpoint built)
              (r_payload built)
              (orElse (u_wait_for_completion input) true) w1) as Hw1.
    { apply (traffic_created client _ _ _ ""); assumption. }
    apply leaves_lift; [exact Hw1|intros createJob _].
    apply leaves_lift; [exact Hw1|intros id _].
    apply leaves_bind.
    + intros e w2 Hjob. destruct id; cbn [ret] in Hjob; [discriminate Hjob|].
      destruct (readString createJob ["job_id"]); cbn [lift ret throw] in Hjob;
        [discriminate Hjob|]. injection Hjob as _ <-. exact Hw1.
    + intros jobId w2 Hjob.
      assert (w2 = w1) as ->.
      { destruct id; cbn [ret] in Hjob; [inversion Hjob; reflexivity|].
        destruct (readString createJob ["job_id"]);
          cbn [lift ret throw] in Hjob; inversion Hjob; reflexivity. }
      destruct (usableId jobId) as [job|]; [|exact Hw1].
      destruct (orElse (u_wait_for_completion input) true); cbn [negb].
      * pose proof (waitForJobCompletion_traffic env client job
                      (orElse (u_poll_interval_ms input)
                         DEFAULT_POLL_INTERVAL_MS)
                      (orElse (u_timeout_ms input) DEFAULT_TIMEOUT_MS)
                      createJob fuel w1) as T.
        apply leaves_bind.
        -- intros e w2 Hwait. rewrite Hwait in T.
           destruct T as (m & Hreq & _).
           apply (traffic_polled client _ _ job m w1); assumption.
        -- intros final w2 Hwait. rewrite Hwait in T.
           destruct T as (m & Hreq & _).
           assert (Reading.invocationTraffic env w (r_endpoint built)
                     (r_payload built) true w2) as Hw2.
           { apply (traffic_polled client _ _ job m w1); assumption. }
           apply leaves_lift; [exact Hw2|intros result _].
           apply leaves_lift; [exact Hw2|intros finalStatus _].
           apply leaves_lift; [exact Hw2|intros error _].
           exact Hw2.
      * apply leaves_lift; [exact Hw1|intros status _]. exact Hw1.
Qed.

End InvocationTraffic.

(** ** The catalog *)

(** X18. The catalog is well formed: [MODEL_KEYS] lists every model key
    once; no two models share an endpoint or a key name; every endpoint
    is a path under [/generate/image/]; every model requires the prompt;
    and a model that requires a dimension has a default for it. *)
Theorem catalog_is_well_formed :
  NoDup MODEL_KEYS
  /\ (forall k, In k MODEL_KEYS)
  /\ (forall k1 k2,
        endpoint (KREA_IMAGE_MODELS k1) = endpoint (KREA_IMAGE_MODELS k2) ->
        k1 = k2)
  /\ (forall k1 k2, ModelKey_name k1 = ModelKey_name k2 -> k1 = k2)
  /\ (forall k, String.prefix "/generate/image/"
                  (endpoint (KREA_IMAGE_MODELS k)) = true)
  /\ (forall k, requires (KREA_IMAGE_MODELS k) prompt_field = true)
  /\ (forall k, (requires (KREA_IMAGE_MODELS k) width_field = true ->
                 defaultWidth (KREA_IMAGE_MODELS k) = Some 1024)
                /\ (requires (KREA_IMAGE_MODELS k) height_field = true ->
                    defaultHeight (KREA_IMAGE_MODELS k) = Some 1024)).
Proof.
  split; [|split; [|split; [|split; [|split; [|split]]]]].
  - unfold MODEL_KEYS.
    repeat (constructor; [cbn [In]; intros Hin;
                          repeat (destruct Hin as [Hin|Hin];
                                  [discriminate Hin|]);
                          exact Hin|]).
    constructor.
  - intros k. destruct k; cbn; tauto.
  - intros k1 k2. destruct k1, k2; cbn;
      intros E; first [reflexivity|discriminate E].
  - intros k1 k2. destruct k1, k2; cbn;
      intros E; first [reflexivity|discriminate E].
  - intros k. destruct k; reflexivity.
  - intros k. destruct k; reflexivity.
  - intros k. destruct k; cbn; split; intros E;
      first [reflexivity|discriminate E].
Qed.

(** ** The validation error *)

Lemma missingFor_names (input : GenerateInput) (model : ModelDefinition)
    (f : RequiredField) :
  missingFor input model f
  = if Reading.available input model f then [] else [Reading.inputName f].
Proof.
  destruct f; cbn [missingFor Reading.available Reading.inputName].
  - reflexivity.
  - destruct (g_width input), (defaultWidth model); reflexivity.
  - destruct (g_height input), (defaultHeight model); reflexivity.
  - destruct (g_reference_images input) as [[|x l]|]; reflexivity.
  - destruct (g_image_url input) as [[|c s]|]; reflexivity.
Qed.

(** X19. Validation gathers every missing field before it fails: the
    error names, in the order of the model's required fields, each
    required field that has no value to send, with the model key before
    them and the full list of required fields after them; it passes when
    there is none. *)
Theorem validation_reports_every_missing_field (input : GenerateInput)
    (model : ModelDefinition) :
  validateInputByModel input model
  = match Reading.missingNames input model with
    | [] => Ok tt
    | missing =>
        Throw (Error ("Missing required fields for model "
                        ++ ModelKey_name (g_model input) ++ ": "
                        ++ Str.join ", " missing ++ ". "
                        ++ "Model requires: "
                        ++ match requiredFields model with
                           | [] => "none"
                           | fields =>
                               Str.join ", " (map RequiredField_name fields)
                           end))
    end.
Proof.
  assert (flat_map (missingFor input model) (requiredFields model)
          = Reading.missingNames input model) as E.
  { unfold Reading.missingNames.
    induction (requiredFields model) as [|f rest IH]; [reflexivity|].
    cbn [flat_map filter map]. rewrite IH, missingFor_names.
    destruct (Reading.available input model f); reflexivity. }
  unfold validateInputByModel. cbv zeta. rewrite E.
  destruct (Reading.missingNames input model); [reflexivity|].
  unfold describeRequiredFields. destruct (requiredFields model); reflexivity.
Qed.
